(** * Calico-Demo: call scheduling, call initiation and call reconciliation

    A shallow embedding of the scheduling and voice-call core of the
    Calico care dashboard:

    - [formatPhoneToE164], [handleCallNow]   (components/VAPIPage.tsx)
    - [Schedules], [Calls], [vapiRepository] (lib/repositories/vapi.ts: the
                                              Supabase tables of schedules and calls)
    - [vapiService]                          (services/vapiService.ts: createCall,
                                              refreshCallDetails, transcript helpers)
    - [Executor]                             (executeDueSchedules, which the source
                                              calls but does not contain: modelled
                                              from the specification)
    - [Scheduling]                           (lib/repositories/vapi.ts and
                                              services/vapiService.ts: createSchedule,
                                              scheduleCall, cancelSchedule; the
                                              handlers of components/VAPIPage.tsx)
    - [StatusBadge]                          (components/VAPIPage.tsx: the badge of
                                              a call)
    - [Duration]                             (lib/duration.ts)
    - [Enrollment]                           (components/EnrollmentContainer.tsx:
                                              the phone field)
    - [mockData]                             (store/mockData.ts: the in-memory
                                              stores)

    Conventions of the embedding.

    - Strings are [string]s of bytes.  The JavaScript string methods the code
      uses ([toLowerCase], [toUpperCase], [trim], [startsWith], the [\D]
      character class) are written out on the ASCII range, where they agree
      with JavaScript; bytes above 127 are left alone.
    - An optional TypeScript field [f?: T] is an [option T]; [None] stands for
      both [undefined] and [null], which [??], [?.] and the row mappers of the
      repository treat alike.  Where the code tells them apart (the updates
      of [updateSchedule]) the field is a [Given T].
    - Instants (JavaScript [Date]s that are valid, [timestamptz] columns) are
      integers: milliseconds since the epoch.  Where the code computes with
      them ([Duration]) the rounding of double precision is written out.
    - A database table with primary key [id] is a [gmap string Row].  The
      database is reliable: a query fails only for the reasons written out
      here (no row for [.single()], a key that exists already, a NOT NULL
      column left out, a column that the table does not have, a number that
      an integer column does not hold).
    - The built-ins whose results the code only passes on (number printing,
      date parsing), and what the integer column of the database accepts,
      are the members of the class [JsRuntime]. *)

From Stdlib Require Import ZArith Lia Ascii String Sorted.
From stdpp Require Import base option strings list gmap fin_maps pretty.

Local Open Scope Z_scope.
Set Warnings "-register-all,-clear-no-such-hyp".

(* ===================================================================== *)
(** * JavaScript strings *)
(* ===================================================================== *)

Module Js.

(** [/\d/]: the ASCII decimal digits. *)
Definition isDigit (c : ascii) : bool :=
  let n := nat_of_ascii c in (48 <=? n)%nat && (n <=? 57)%nat.

Definition toLowerChar (c : ascii) : ascii :=
  let n := nat_of_ascii c in
  if (65 <=? n)%nat && (n <=? 90)%nat then ascii_of_nat (n + 32) else c.

Definition toUpperChar (c : ascii) : ascii :=
  let n := nat_of_ascii c in
  if (97 <=? n)%nat && (n <=? 122)%nat then ascii_of_nat (n - 32) else c.

Fixpoint mapString (f : ascii → ascii) (s : string) : string :=
  match s with
  | EmptyString => EmptyString
  | String c r => String (f c) (mapString f r)
  end.

Fixpoint filterString (p : ascii → bool) (s : string) : string :=
  match s with
  | EmptyString => EmptyString
  | String c r => if p c then String c (filterString p r) else filterString p r
  end.

Fixpoint allString (p : ascii → bool) (s : string) : bool :=
  match s with
  | EmptyString => true
  | String c r => p c && allString p r
  end.

(** [s.toLowerCase()], [s.toUpperCase()] on a string of ASCII characters
    ([isAscii] below). *)
Definition toLowerCase : string → string := mapString toLowerChar.
Definition toUpperCase : string → string := mapString toUpperChar.

(** [s.startsWith(p)]. *)
Fixpoint isPrefix (p s : string) : bool :=
  match p, s with
  | EmptyString, _ => true
  | String a p', String b s' => Ascii.eqb a b && isPrefix p' s'
  | String _ _, EmptyString => false
  end.

Definition startsWith (s p : string) : bool := isPrefix p s.

(** Truthiness of a string: only the empty string is falsy. *)
Definition nonEmpty (s : string) : bool :=
  match s with EmptyString => false | _ => true end.

(** [a || b] on strings. *)
Definition orString (a b : string) : string := if nonEmpty a then a else b.

(** [s.trim()]. *)
Fixpoint trimStart (s : string) : string :=
  match s with
  | String c r => if Ascii.is_space c then trimStart r else s
  | EmptyString => EmptyString
  end.

Definition trim (s : string) : string :=
  String.rev (trimStart (String.rev (trimStart s))).

(** [parts.join(sep)]. *)
Fixpoint join (sep : string) (parts : list string) : string :=
  match parts with
  | [] => ""
  | [p] => p
  | p :: rest => p +:+ sep +:+ join sep rest
  end.

(** [a ?? b]. *)
Definition coalesce {A} (a b : option A) : option A :=
  match a with Some _ => a | None => b end.

(** The strings of ASCII characters: outside them JavaScript changes the
    case of more characters than [toLowerCase] and [toUpperCase] above. *)
Definition isAscii (s : string) : bool :=
  allString (λ c, (nat_of_ascii c <? 128)%nat) s.

End Js.

Infix "?:" := Js.coalesce (at level 61, left associativity).

(* ===================================================================== *)
(** * Phone numbers (src/components/VAPIPage.tsx) *)
(* ===================================================================== *)

(** [phone.replace(/\D/g, "")]. *)
Definition stripNonDigits (phone : string) : string :=
  Js.filterString Js.isDigit phone.

Definition formatPhoneToE164 (phone : string) : string :=
  let digits := stripNonDigits phone in
  if (String.length digits =? 10)%nat then "+1" +:+ digits
  else if (String.length digits =? 11)%nat && Js.startsWith phone "+1" then phone
  else if (String.length digits =? 11)%nat && Js.startsWith digits "1" then "+" +:+ digits
  else "+1" +:+ digits.

(** The shape of an E.164 number, [\+[1-9][0-9]{1,14}]: a plus sign, then
    two to fifteen decimal digits of which the first (the start of the
    country code) is not zero. *)
Definition isE164 (s : string) : bool :=
  match s with
  | String "+" (String c rest) =>
      Js.isDigit c && negb (Ascii.eqb c "0") && Js.allString Js.isDigit rest
      && (1 <=? String.length rest)%nat && (String.length rest <=? 14)%nat
  | _ => false
  end.

(** [formatPhoneToE164(selectedPatient.phone || "")], the argument that
    [handleCallNow] and [handleScheduleCall] (type "now") give to
    [vapiService.createCall] as [phoneNumber]. *)
Definition callPhoneNumber (phone : option string) : string :=
  formatPhoneToE164 (Js.orString (default "" phone) "").

(* ===================================================================== *)
(** * Results and effects *)
(* ===================================================================== *)

(** A JavaScript computation either returns or throws an [Error]; the
    error is represented by its message. *)
Inductive Result (A : Type) : Type :=
| Ok (a : A)
| Throw (message : string).
Arguments Ok {A} a.
Arguments Throw {A} message.

(** An [async] function over a store [S]: it runs to a result and leaves a
    store behind, also when it throws. *)
Definition M (S A : Type) : Type := S → Result A * S.

Global Instance M_ret {S} : MRet (M S) := λ A a s, (Ok a, s).
Global Instance M_bind {S} : MBind (M S) := λ A B k m s,
  match m s with
  | (Ok a, s') => k a s'
  | (Throw e, s') => (Throw e, s')
  end.

Definition throw {S A} (message : string) : M S A := λ s, (Throw message, s).
(** [try { m } catch (error) { handler(error) }]. *)
Definition tryCatch {S A} (m : M S A) (handler : string → M S A) : M S A :=
  λ s, match m s with
       | (Ok a, s') => (Ok a, s')
       | (Throw e, s') => handler e s'
       end.
Definition getState {S} : M S S := λ s, (Ok s, s).
Definition modify {S} (f : S → S) : M S unit := λ s, (Ok tt, f s).

(** The message of the error that PostgREST reports when [.single()] finds
    no row. *)
Definition noRowError : string :=
  "JSON object requested, multiple (or no) rows returned".

(** A [Date] object: [new Date(s)] of a string that does not parse is the
    invalid date, whose [toISOString()] throws. *)
Inductive JsDate := DateAt (ms : Z) | InvalidDate.

(** [date.toISOString()]. *)
Definition toISOString (d : JsDate) : Result Z :=
  match d with
  | DateAt ms => Ok ms
  | InvalidDate => Throw "Invalid time value"
  end.

(* ===================================================================== *)
(** * Schedules (the repository, lib/repositories/vapi.ts) *)
(* ===================================================================== *)

Module Schedules.

Inductive ScheduleType := OneTime | Recurring | Now.
Inductive RecurrenceType := RecNone | Daily | Weekly | Monthly.

Global Instance ScheduleType_eq_dec : EqDecision ScheduleType.
Proof. solve_decision. Defined.
Global Instance RecurrenceType_eq_dec : EqDecision RecurrenceType.
Proof. solve_decision. Defined.

(** A row of [vapi_call_schedules].  [last_executed_at] is the
    [lastExecutedAt] of the specification: the table of the migration has no
    such column, and [ScheduleRow], [mapSchedule] and [VAPICallSchedule] of
    the source do not know it.  It is [None] in every row that the database
    holds ([stored] below), and an update that names it is refused. *)
Record ScheduleRow := {
  patient_id : string;
  prompt_id : string;
  type : ScheduleType;
  scheduled_time : option Z;
  recurrence_type : option RecurrenceType;
  recurrence_end_date : option Z;
  day_of_week : option Z;
  day_of_month : option Z;
  created_at : Z;
  is_active : bool;
  last_executed_at : option Z;
}.

Record VAPICallSchedule := {
  id : string;
  patientId : string;
  promptId : string;
  scheduleType : ScheduleType;
  scheduledTime : option Z;
  recurrenceType : option RecurrenceType;
  recurrenceEndDate : option Z;
  dayOfWeek : option Z;
  dayOfMonth : option Z;
  createdAt : Z;
  isActive : bool;
}.

Definition mapSchedule (rowId : string) (row : ScheduleRow) : VAPICallSchedule :=
  {| id := rowId;
     patientId := patient_id row;
     promptId := prompt_id row;
     scheduleType := type row;
     scheduledTime := scheduled_time row;
     recurrenceType := recurrence_type row;
     recurrenceEndDate := recurrence_end_date row;
     dayOfWeek := day_of_week row;
     dayOfMonth := day_of_month row;
     createdAt := created_at row;
     isActive := is_active row |}.

(** A property of the [updates] object that [updateSchedule] tests with
    [!== undefined]: left out or [undefined], [null], or a value. *)
Inductive Given (T : Type) : Type :=
| Undefined
| Null
| Value (v : T).
Arguments Undefined {T}.
Arguments Null {T}.
Arguments Value {T} v.

(** The [updates] argument of [updateSchedule]:
    [Partial<CreateSchedulePayload> & { lastExecutedAt?: Date }].  The
    function reads the three dates only. *)
Record ScheduleUpdates := {
  u_patientId : option string;
  u_promptId : option string;
  u_type : option ScheduleType;
  u_scheduledTime : Given JsDate;
  u_recurrenceType : option RecurrenceType;
  u_recurrenceEndDate : Given JsDate;
  u_dayOfWeek : option Z;
  u_dayOfMonth : option Z;
  u_lastExecutedAt : Given JsDate;
}.

Abbreviation Table := (gmap string ScheduleRow).

(** The filter of [listDueSchedules]:
    [.eq("is_active", true).eq("type", "one-time").lte("scheduled_time", now)].
    A comparison with a NULL [scheduled_time] does not hold in SQL. *)
Definition dueFilter (now : Z) (row : ScheduleRow) : bool :=
  is_active row
  && bool_decide (type row = OneTime)
  && match scheduled_time row with
     | Some t => t <=? now
     | None => false
     end.

(** The rows that the query of [listDueSchedules] selects, mapped. *)
Definition dueList (now : Z) (tbl : Table) : list VAPICallSchedule :=
  (λ kv, mapSchedule kv.1 kv.2)
    <$> map_to_list (filter (λ kv, dueFilter now kv.2 = true) tbl).

Definition listDueSchedules (now : Z) : M Table (list VAPICallSchedule) :=
  λ tbl, (Ok (dueList now tbl), tbl).

(** The [patch] object that [updateSchedule] builds: for each of its three
    keys, whether it is set and to what ([None] is NULL). *)
Record SchedulePatch := {
  set_scheduled_time : option (option Z);
  set_recurrence_end_date : option (option Z);
  set_last_executed_at : option Z;
}.

(** [if (updates.key !== undefined)
       patch.column = updates.key ? updates.key.toISOString() : null]. *)
Definition nullableTime (given : Given JsDate) : Result (option (option Z)) :=
  match given with
  | Undefined => Ok None
  | Null => Ok (Some None)
  | Value d =>
      match toISOString d with
      | Ok ms => Ok (Some (Some ms))
      | Throw e => Throw e
      end
  end.

(** The message of the TypeError of [null.toISOString()]. *)
Definition nullDateError : string :=
  "Cannot read properties of null (reading 'toISOString')".

(** [if (updates.lastExecutedAt !== undefined)
       patch.last_executed_at = updates.lastExecutedAt.toISOString()]. *)
Definition stampTime (given : Given JsDate) : Result (option Z) :=
  match given with
  | Undefined => Ok None
  | Null => Throw nullDateError
  | Value d =>
      match toISOString d with
      | Ok ms => Ok (Some ms)
      | Throw e => Throw e
      end
  end.

Definition buildSchedulePatch (updates : ScheduleUpdates) : Result SchedulePatch :=
  match nullableTime (u_scheduledTime updates) with
  | Throw e => Throw e
  | Ok scheduled =>
    match nullableTime (u_recurrenceEndDate updates) with
    | Throw e => Throw e
    | Ok recurrenceEnd =>
      match stampTime (u_lastExecutedAt updates) with
      | Throw e => Throw e
      | Ok stamp =>
          Ok {| set_scheduled_time := scheduled;
                set_recurrence_end_date := recurrenceEnd;
                set_last_executed_at := stamp |}
      end
    end
  end.

(** The row after an UPDATE with the two columns of the patch that the
    table has. *)
Definition schedulePatch (patch : SchedulePatch) (row : ScheduleRow) : ScheduleRow :=
  {| patient_id := patient_id row;
     prompt_id := prompt_id row;
     type := type row;
     scheduled_time := default (scheduled_time row) (set_scheduled_time patch);
     recurrence_type := recurrence_type row;
     recurrence_end_date :=
       default (recurrence_end_date row) (set_recurrence_end_date patch);
     day_of_week := day_of_week row;
     day_of_month := day_of_month row;
     created_at := created_at row;
     is_active := is_active row;
     last_executed_at := last_executed_at row |}.

(** The message of the error that PostgREST reports for a patch that names
    [last_executed_at], a column that [vapi_call_schedules] does not have. *)
Definition unknownColumnError : string :=
  "Could not find the 'last_executed_at' column of 'vapi_call_schedules' in the schema cache".

(** [.update(patch).eq("id", id).select("*").single()]. *)
Definition updateRow (f : ScheduleRow → ScheduleRow) (rowId : string)
  : M Table VAPICallSchedule :=
  λ tbl,
    match tbl !! rowId with
    | Some row => (Ok (mapSchedule rowId (f row)), <[rowId := f row]> tbl)
    | None => (Throw noRowError, tbl)
    end.

(** [updateSchedule].  The database refuses a patch that names
    [last_executed_at] before it looks for the row; for a patch without a
    key PostgREST runs no UPDATE and selects no row, which [.single()]
    reports as the missing row. *)
Definition updateSchedule (rowId : string) (updates : ScheduleUpdates)
  : M Table VAPICallSchedule :=
  match buildSchedulePatch updates with
  | Throw e => throw e
  | Ok patch =>
      match set_last_executed_at patch with
      | Some _ => throw unknownColumnError
      | None =>
          match set_scheduled_time patch, set_recurrence_end_date patch with
          | None, None => throw noRowError
          | _, _ => updateRow (schedulePatch patch) rowId
          end
      end
  end.

Definition setInactive (row : ScheduleRow) : ScheduleRow :=
  {| patient_id := patient_id row;
     prompt_id := prompt_id row;
     type := type row;
     scheduled_time := scheduled_time row;
     recurrence_type := recurrence_type row;
     recurrence_end_date := recurrence_end_date row;
     day_of_week := day_of_week row;
     day_of_month := day_of_month row;
     created_at := created_at row;
     is_active := false;
     last_executed_at := last_executed_at row |}.

Definition deactivateSchedule (rowId : string) : M Table VAPICallSchedule :=
  updateRow setInactive rowId.

(** The tables that the database can hold: no row has a
    [last_executed_at]. *)
Definition stored (tbl : Table) : Prop :=
  ∀ rowId row, tbl !! rowId = Some row → last_executed_at row = None.

End Schedules.

(* ===================================================================== *)
(** * JavaScript values that the provider sends *)
(* ===================================================================== *)

(** The built-ins whose results the code passes on without looking inside.
    [Num] is the type of JavaScript numbers. *)
Class JsRuntime (Num : Type) := {
  (** [Boolean(n)]: false for zero and NaN. *)
  numberTruthy : Num → bool;
  (** [String(n)]. *)
  numberToString : Num → string;
  (** [n.toFixed(1)]. *)
  toFixed1 : Num → string;
  (** [new Date(s)]. *)
  newDate : string → JsDate;
  (** The error with which the database refuses the number for a column of
      type [integer] (a fraction, or a whole number outside 32 bits);
      [None] when it stores the number. *)
  integerError : Num → option string;
}.

(** A parsed JSON payload of unknown shape ([unknown] in the source). *)
Inductive JsValue (Num : Type) : Type :=
| JUndefined
| JNull
| JBool (b : bool)
| JNumber (n : Num)
| JString (s : string)
| JArray (items : list (JsValue Num))
| JObject (fields : list (string * JsValue Num)).
Arguments JUndefined {Num}.
Arguments JNull {Num}.
Arguments JBool {Num} b.
Arguments JNumber {Num} n.
Arguments JString {Num} s.
Arguments JArray {Num} items.
Arguments JObject {Num} fields.

(** [Record<string, unknown>]. *)
Definition JsObject (Num : Type) : Type := list (string * JsValue Num).

(** The first binding of [key], [d] when there is none. *)
Fixpoint assoc {A} (d : A) (key : string) (fields : list (string * A)) : A :=
  match fields with
  | [] => d
  | (k, v) :: rest => if String.eqb k key then v else assoc d key rest
  end.

(** [obj.key]: [undefined] when the property is missing, and for the
    property names the code reads on arrays and primitives. *)
Definition getProp {Num} (key : string) (obj : JsValue Num) : JsValue Num :=
  match obj with
  | JObject fields => assoc JUndefined key fields
  | _ => JUndefined
  end.

(** [Boolean(v)]. *)
Definition truthy `{JsRuntime Num} (v : JsValue Num) : bool :=
  match v with
  | JUndefined | JNull => false
  | JBool b => b
  | JNumber n => numberTruthy n
  | JString s => Js.nonEmpty s
  | JArray _ | JObject _ => true
  end.

(* ===================================================================== *)
(** * The call model (lib/types.ts) *)
(* ===================================================================== *)

Inductive VAPICallStatus := pending | in_progress | completed | failed.

Global Instance VAPICallStatus_eq_dec : EqDecision VAPICallStatus.
Proof. solve_decision. Defined.

Record VAPICallTranscriptEntry (Num : Type) := {
  role : string;
  message : string;
  time : option Num;
}.
Arguments role {Num} _.
Arguments message {Num} _.
Arguments time {Num} _.

Record VAPICallArtifacts := {
  recording : option string;
  logUrl : option string;
  transcriptUrl : option string;
}.

Record VAPICallAnalysis (Num : Type) := {
  summary : option string;
  structuredData : option (JsObject Num);
  successEvaluation : option (JsObject Num);
}.
Arguments summary {Num} _.
Arguments structuredData {Num} _.
Arguments successEvaluation {Num} _.

(* ===================================================================== *)
(** * Helpers of the service (services/vapiService.ts) *)
(* ===================================================================== *)

(** A [case] label of a [switch] matches by strict equality. *)
Definition isOneOf (value : option string) (labels : list string) : bool :=
  match value with
  | Some s => bool_decide (s ∈ labels)
  | None => false
  end.

Definition mapApiStatusToLocal (status : option string) : VAPICallStatus :=
  let lowered := Js.toLowerCase <$> status in
  if isOneOf lowered ["completed"; "finished"] then completed
  else if isOneOf lowered ["failed"; "error"] then failed
  else if isOneOf lowered ["in-progress"; "running"; "live"] then in_progress
  else pending.

Section Transcripts.
Context {Num : Type} `{!JsRuntime Num}.

Definition formatEntry (entry : VAPICallTranscriptEntry Num) : string :=
  let timestamp :=
    match time entry with
    | Some t => "[" +:+ toFixed1 t +:+ "s] "
    | None => ""
    end in
  let speaker :=
    if Js.nonEmpty (role entry) then Js.toUpperCase (role entry) else "SPEAKER" in
  timestamp +:+ speaker +:+ ": " +:+ message entry.

Definition formatTranscript (entries : option (list (VAPICallTranscriptEntry Num)))
  : option string :=
  match entries with
  | None | Some [] => None
  | Some es => Some (Js.join (String "010" "") (formatEntry <$> es))
  end.

(** [extractTextFromAny].  The recursive calls on [obj.content] and
    [obj.message] are taken from [texts], the texts of all property values,
    so that the recursion is structural; [extractTextFromAny_object] below
    gives the equation in the shape of the source. *)
Fixpoint extractTextFromAny (value : JsValue Num) : string :=
  match value with
  | JUndefined | JNull => ""
  | JString s => s
  | JNumber n => numberToString n
  | JBool b => if b then "true" else "false"
  | JArray items =>
      Js.trim (Js.join " " (List.filter Js.nonEmpty (List.map extractTextFromAny items)))
  | JObject fields =>
      let texts := List.map (λ kv, (kv.1, extractTextFromAny kv.2)) fields in
      match assoc JUndefined "text" fields with
      | JString s => s
      | _ =>
        match assoc JUndefined "message" fields with
        | JString s => s
        | _ =>
          match assoc JUndefined "content" fields with
          | JString s => s
          | _ =>
            if truthy (assoc JUndefined "content" fields)
            then assoc "" "content" texts
            else if truthy (assoc JUndefined "message" fields)
            then assoc "" "message" texts
            else ""
          end
        end
      end
  end.

(** The three constants of [toTranscriptEntry], for an entry that is an
    object: [role], [message] and [time]. *)
Definition entryRole (obj : JsValue Num) : string :=
  match getProp "role" obj with
  | JString r => r
  | _ =>
    match getProp "speaker" obj with
    | JString r => r
    | _ => "speaker"
    end
  end.

Definition entryMessage (obj : JsValue Num) : string :=
  match getProp "message" obj with
  | JString m => m
  | _ =>
    match getProp "content" obj with
    | JString m => m
    | _ =>
      match getProp "text" obj with
      | JString m => m
      | _ =>
        Js.orString
          (Js.orString (extractTextFromAny (getProp "message" obj))
                       (extractTextFromAny (getProp "content" obj)))
          (extractTextFromAny (getProp "text" obj))
      end
    end
  end.

Definition entryTime (obj : JsValue Num) : option Num :=
  match getProp "time" obj with
  | JNumber n => Some n
  | _ => None
  end.

Definition toTranscriptEntry (entry : JsValue Num)
  : option (VAPICallTranscriptEntry Num) :=
  if negb (truthy entry) then None
  else
    match entry with
    | JString s => Some {| role := "speaker"; message := s; time := None |}
    | JObject _ | JArray _ =>
        if negb (Js.nonEmpty (entryMessage entry)) then None
        else Some {| role := entryRole entry;
                     message := entryMessage entry;
                     time := entryTime entry |}
    | _ => None
    end.

(** The loop of [normalizeTranscriptEntries] over its candidates. *)
Fixpoint firstEntries (candidates : list (JsValue Num))
  : option (list (VAPICallTranscriptEntry Num)) :=
  match candidates with
  | [] => None
  | JArray items :: rest =>
      let entries := omap toTranscriptEntry items in
      if (0 <? length entries)%nat then Some entries else firstEntries rest
  | _ :: rest => firstEntries rest
  end.

Definition normalizeTranscriptEntries (raw : JsValue Num)
  : option (list (VAPICallTranscriptEntry Num)) :=
  if negb (truthy raw) then None
  else
    let candidates :=
      raw ::
      match raw with
      | JObject _ | JArray _ =>
          [getProp "entries" raw; getProp "messages" raw;
           getProp "transcript" raw; getProp "items" raw]
      | _ => []
      end in
    firstEntries candidates.

End Transcripts.

(* ===================================================================== *)
(** * Call records (lib/types.ts and lib/repositories/vapi.ts) *)
(* ===================================================================== *)

Module Calls.

(** A row of [vapi_calls]. *)
Record CallRow (Num : Type) := {
  patient_id : string;
  prompt_id : string;
  schedule_id : option string;
  phone_number : string;
  provider_call_id : option string;
  row_status : VAPICallStatus;
  started_at : option Z;
  completed_at : option Z;
  row_duration : option Num;
  row_transcript : option string;
  transcript_entries : option (list (VAPICallTranscriptEntry Num));
  row_artifacts : option VAPICallArtifacts;
  row_analysis : option (VAPICallAnalysis Num);
  created_at : Z;
}.
Arguments patient_id {Num} _.
Arguments prompt_id {Num} _.
Arguments schedule_id {Num} _.
Arguments phone_number {Num} _.
Arguments provider_call_id {Num} _.
Arguments row_status {Num} _.
Arguments started_at {Num} _.
Arguments completed_at {Num} _.
Arguments row_duration {Num} _.
Arguments row_transcript {Num} _.
Arguments transcript_entries {Num} _.
Arguments row_artifacts {Num} _.
Arguments row_analysis {Num} _.
Arguments created_at {Num} _.

Record VAPICall (Num : Type) := {
  id : string;
  patientId : string;
  promptId : string;
  scheduleId : option string;
  phoneNumber : string;
  providerCallId : option string;
  status : VAPICallStatus;
  startedAt : option JsDate;
  completedAt : option JsDate;
  duration : option Num;
  transcript : option string;
  transcriptEntries : option (list (VAPICallTranscriptEntry Num));
  artifacts : option VAPICallArtifacts;
  analysis : option (VAPICallAnalysis Num);
  createdAt : JsDate;
}.
Arguments id {Num} _.
Arguments patientId {Num} _.
Arguments promptId {Num} _.
Arguments scheduleId {Num} _.
Arguments phoneNumber {Num} _.
Arguments providerCallId {Num} _.
Arguments status {Num} _.
Arguments startedAt {Num} _.
Arguments completedAt {Num} _.
Arguments duration {Num} _.
Arguments transcript {Num} _.
Arguments transcriptEntries {Num} _.
Arguments artifacts {Num} _.
Arguments analysis {Num} _.
Arguments createdAt {Num} _.

Definition mapCall {Num} (rowId : string) (row : CallRow Num) : VAPICall Num :=
  {| id := rowId;
     patientId := patient_id row;
     promptId := prompt_id row;
     scheduleId := schedule_id row;
     phoneNumber := phone_number row;
     providerCallId := provider_call_id row;
     status := row_status row;
     startedAt := DateAt <$> started_at row;
     completedAt := DateAt <$> completed_at row;
     duration := row_duration row;
     transcript := row_transcript row;
     transcriptEntries := transcript_entries row;
     artifacts := row_artifacts row;
     analysis := row_analysis row;
     createdAt := DateAt (created_at row) |}.

(** A property of a payload object literal: [Absent] when the key is not
    written in the literal, [Present v] when it is, [v] being [None] for a
    value that is [undefined]. *)
Inductive Field (T : Type) : Type :=
| Absent
| Present (v : option T).
Arguments Absent {T}.
Arguments Present {T} v.

(** [CreateCallRecordPayload] and [UpdateCallRecordPayload]. *)
Record CallPayload (Num : Type) := {
  p_patientId : Field string;
  p_promptId : Field string;
  p_scheduleId : Field string;
  p_phoneNumber : Field string;
  p_providerCallId : Field string;
  p_status : Field VAPICallStatus;
  p_startedAt : Field JsDate;
  p_completedAt : Field JsDate;
  p_duration : Field Num;
  p_transcript : Field string;
  p_transcriptEntries : Field (list (VAPICallTranscriptEntry Num));
  p_artifacts : Field VAPICallArtifacts;
  p_analysis : Field (VAPICallAnalysis Num);
}.
Arguments p_patientId {Num} _.
Arguments p_promptId {Num} _.
Arguments p_scheduleId {Num} _.
Arguments p_phoneNumber {Num} _.
Arguments p_providerCallId {Num} _.
Arguments p_status {Num} _.
Arguments p_startedAt {Num} _.
Arguments p_completedAt {Num} _.
Arguments p_duration {Num} _.
Arguments p_transcript {Num} _.
Arguments p_transcriptEntries {Num} _.
Arguments p_artifacts {Num} _.
Arguments p_analysis {Num} _.

(** The [body] that [buildCallPayload] returns: for each column, whether it
    is set and, for a nullable column, to which value ([None] is NULL). *)
Record CallBody (Num : Type) := {
  b_patient_id : option string;
  b_prompt_id : option string;
  b_schedule_id : option (option string);
  b_phone_number : option string;
  b_provider_call_id : option (option string);
  b_status : option VAPICallStatus;
  b_started_at : option (option Z);
  b_completed_at : option (option Z);
  b_duration : option (option Num);
  b_transcript : option (option string);
  b_transcript_entries : option (option (list (VAPICallTranscriptEntry Num)));
  b_artifacts : option (option VAPICallArtifacts);
  b_analysis : option (option (VAPICallAnalysis Num));
}.
Arguments b_patient_id {Num} _.
Arguments b_prompt_id {Num} _.
Arguments b_schedule_id {Num} _.
Arguments b_phone_number {Num} _.
Arguments b_provider_call_id {Num} _.
Arguments b_status {Num} _.
Arguments b_started_at {Num} _.
Arguments b_completed_at {Num} _.
Arguments b_duration {Num} _.
Arguments b_transcript {Num} _.
Arguments b_transcript_entries {Num} _.
Arguments b_artifacts {Num} _.
Arguments b_analysis {Num} _.

(** ["key" in payload && payload.key !== undefined]. *)
Definition definedField {T} (f : Field T) : option T :=
  match f with
  | Present (Some v) => Some v
  | _ => None
  end.

(** [if ("key" in payload) body.column = payload.key ?? null]. *)
Definition nullableField {T} (f : Field T) : option (option T) :=
  match f with
  | Present v => Some v
  | Absent => None
  end.

(** [if ("key" in payload) body.column = payload.key ? payload.key.toISOString() : null]. *)
Definition dateField (f : Field JsDate) : Result (option (option Z)) :=
  match f with
  | Absent => Ok None
  | Present None => Ok (Some None)
  | Present (Some d) =>
      match toISOString d with
      | Ok ms => Ok (Some (Some ms))
      | Throw e => Throw e
      end
  end.

Definition buildCallPayload {Num} (payload : CallPayload Num) : Result (CallBody Num) :=
  match dateField (p_startedAt payload) with
  | Throw e => Throw e
  | Ok startedIso =>
    match dateField (p_completedAt payload) with
    | Throw e => Throw e
    | Ok completedIso =>
        Ok {| b_patient_id := definedField (p_patientId payload);
              b_prompt_id := definedField (p_promptId payload);
              b_schedule_id := nullableField (p_scheduleId payload);
              b_phone_number := definedField (p_phoneNumber payload);
              b_provider_call_id := nullableField (p_providerCallId payload);
              b_status := definedField (p_status payload);
              b_started_at := startedIso;
              b_completed_at := completedIso;
              b_duration := nullableField (p_duration payload);
              b_transcript := nullableField (p_transcript payload);
              b_transcript_entries := nullableField (p_transcriptEntries payload);
              b_artifacts := nullableField (p_artifacts payload);
              b_analysis := nullableField (p_analysis payload) |}
    end
  end.

(** The row that an INSERT of a [body] that the database accepts
    ([columnError] below) makes: a column that the body leaves out takes
    its default, NULL for the nullable ones; the four NOT NULL columns
    without a default must be there. *)
Definition insertedRow {Num} (now : Z) (body : CallBody Num) : option (CallRow Num) :=
  match b_patient_id body, b_prompt_id body, b_phone_number body, b_status body with
  | Some patient, Some prompt, Some phone, Some st =>
      Some {| patient_id := patient;
              prompt_id := prompt;
              schedule_id := default None (b_schedule_id body);
              phone_number := phone;
              provider_call_id := default None (b_provider_call_id body);
              row_status := st;
              started_at := default None (b_started_at body);
              completed_at := default None (b_completed_at body);
              row_duration := default None (b_duration body);
              row_transcript := default None (b_transcript body);
              transcript_entries := default None (b_transcript_entries body);
              row_artifacts := default None (b_artifacts body);
              row_analysis := default None (b_analysis body);
              created_at := now |}
  | _, _, _, _ => None
  end.

(** The row after an UPDATE with a [body] that the database accepts
    ([columnError] below): a column that the body leaves out keeps its
    value. *)
Definition patchedRow {Num} (body : CallBody Num) (row : CallRow Num) : CallRow Num :=
  {| patient_id := default (patient_id row) (b_patient_id body);
     prompt_id := default (prompt_id row) (b_prompt_id body);
     schedule_id := default (schedule_id row) (b_schedule_id body);
     phone_number := default (phone_number row) (b_phone_number body);
     provider_call_id := default (provider_call_id row) (b_provider_call_id body);
     row_status := default (row_status row) (b_status body);
     started_at := default (started_at row) (b_started_at body);
     completed_at := default (completed_at row) (b_completed_at body);
     row_duration := default (row_duration row) (b_duration body);
     row_transcript := default (row_transcript row) (b_transcript body);
     transcript_entries := default (transcript_entries row) (b_transcript_entries body);
     row_artifacts := default (row_artifacts row) (b_artifacts body);
     row_analysis := default (row_analysis row) (b_analysis body);
     created_at := created_at row |}.

(** The error with which the database refuses [body]: [duration] is the
    one column of type [integer] of [vapi_calls]. *)
Definition columnError {Num} `{!JsRuntime Num} (body : CallBody Num) : option string :=
  match b_duration body with
  | Some (Some n) => integerError n
  | _ => None
  end.

End Calls.

(* ===================================================================== *)
(** * The world of the service: tables, provider, request log *)
(* ===================================================================== *)

(** The fields of [Patient] and [VAPIPrompt] that the modelled code reads. *)
Record Patient := {
  firstName : string;
  lastName : string;
  phone : option string;
}.

Record VAPIPrompt := {
  promptPatientId : string;
  promptName : string;
  promptText : string;
  promptIsActive : bool;
}.

(** What [await fetch(...)] followed by reading the body comes to: the
    transport throws, the provider answers with a status that is not 2xx
    (and a JSON error body with an optional [message]), or it answers 2xx
    with a body of the declared response type. *)
Inductive FetchResult (A : Type) : Type :=
| NetworkError (message : string)
| HttpError (httpStatus : N) (bodyMessage : option string)
| HttpOk (body : A).
Arguments NetworkError {A} message.
Arguments HttpError {A} httpStatus bodyMessage.
Arguments HttpOk {A} body.

Record AssistantModel := {
  provider : option string;
  model : option string;
}.

Record VAPIAssistantResponse := {
  assistantId : string;
  assistantModel : option AssistantModel;
}.

Record VAPICallResponse := {
  resp_id : string;
  resp_status : string;
  resp_createdAt : option string;
}.

Record VapiCallAnalysisResponse (Num : Type) := {
  r_summary : option string;
  r_structuredData : option (JsObject Num);
  r_successEvaluation : option (JsObject Num);
}.
Arguments r_summary {Num} _.
Arguments r_structuredData {Num} _.
Arguments r_successEvaluation {Num} _.

(** [VapiCallDetailsResponse["artifact"]]. *)
Record ArtifactResponse (Num : Type) := {
  a_recording : option string;
  a_logUrl : option string;
  a_transcript : JsValue Num;
  a_transcriptUrl : option string;
  a_messages : JsValue Num;
  a_messagesOpenAIFormatted : JsValue Num;
}.
Arguments a_recording {Num} _.
Arguments a_logUrl {Num} _.
Arguments a_transcript {Num} _.
Arguments a_transcriptUrl {Num} _.
Arguments a_messages {Num} _.
Arguments a_messagesOpenAIFormatted {Num} _.

Record VapiCallDetailsResponse (Num : Type) := {
  d_id : string;
  d_status : string;
  d_createdAt : option string;
  d_startedAt : option string;
  d_completedAt : option string;
  d_duration : option Num;
  d_artifact : option (ArtifactResponse Num);
  d_analysis : option (VapiCallAnalysisResponse Num);
}.
Arguments d_id {Num} _.
Arguments d_status {Num} _.
Arguments d_createdAt {Num} _.
Arguments d_startedAt {Num} _.
Arguments d_completedAt {Num} _.
Arguments d_duration {Num} _.
Arguments d_artifact {Num} _.
Arguments d_analysis {Num} _.

(** The part of the body of [POST /call] that depends on the arguments of
    [createCall] and on the assistant. *)
Record CallRequest := {
  customerNumber : string;
  modelProvider : string;
  modelName : string;
}.

(** The requests that the service sends to the provider. *)
Inductive Request :=
| GetAssistant
| PostCall (body : CallRequest)
| GetCall (providerCallId : string).

(** Everything outside the service that stays fixed while it runs: how the
    provider answers, the clocks, and the key that the database gives to
    the next inserted call. *)
Record Env (Num : Type) := {
  assistant : FetchResult VAPIAssistantResponse;
  postCall : CallRequest → FetchResult VAPICallResponse;
  getCall : string → FetchResult (VapiCallDetailsResponse Num);
  clock : Z;
  dbClock : Z;
  newRowId : string;
}.
Arguments assistant {Num} _.
Arguments postCall {Num} _ _.
Arguments getCall {Num} _ _.
Arguments clock {Num} _.
Arguments dbClock {Num} _.
Arguments newRowId {Num} _.

Record World (Num : Type) := {
  calls : gmap string (Calls.CallRow Num);
  patients : gmap string Patient;
  prompts : gmap string VAPIPrompt;
  requests : list Request;
}.
Arguments calls {Num} _.
Arguments patients {Num} _.
Arguments prompts {Num} _.
Arguments requests {Num} _.

Definition setCalls {Num} (c : gmap string (Calls.CallRow Num)) (w : World Num) : World Num :=
  {| calls := c; patients := patients w; prompts := prompts w; requests := requests w |}.

Definition logRequest {Num} (r : Request) (w : World Num) : World Num :=
  {| calls := calls w; patients := patients w; prompts := prompts w;
     requests := requests w ++ [r] |}.

Definition notNullError : string :=
  "null value in a column violates its not-null constraint".
Definition duplicateKeyError : string :=
  "duplicate key value violates unique constraint".

(* ===================================================================== *)
(** * The repository of calls (lib/repositories/vapi.ts) *)
(* ===================================================================== *)

Module vapiRepository.
Import Calls.

Section Repository.
Context {Num : Type} `{!JsRuntime Num}.

Definition getCallById (rowId : string) : M (World Num) (option (VAPICall Num)) :=
  w ← getState; mret (mapCall rowId <$> calls w !! rowId).

Definition getPromptById (rowId : string) : M (World Num) (option VAPIPrompt) :=
  w ← getState; mret (prompts w !! rowId).

Definition createCall (env : Env Num) (payload : CallPayload Num)
  : M (World Num) (VAPICall Num) :=
  match buildCallPayload payload with
  | Throw e => throw e
  | Ok insertPayload =>
      match columnError insertPayload with
      | Some e => throw e
      | None =>
          w ← getState;
          match insertedRow (dbClock env) insertPayload with
          | None => throw notNullError
          | Some row =>
              match calls w !! newRowId env with
              | Some _ => throw duplicateKeyError
              | None =>
                  modify (setCalls (<[newRowId env := row]> (calls w)));;
                  mret (mapCall (newRowId env) row)
              end
          end
      end
  end.

Definition updateCall (rowId : string) (updates : CallPayload Num)
  : M (World Num) (VAPICall Num) :=
  match buildCallPayload updates with
  | Throw e => throw e
  | Ok patch =>
      match columnError patch with
      | Some e => throw e
      | None =>
          w ← getState;
          match calls w !! rowId with
          | None => throw noRowError
          | Some row =>
              modify (setCalls (<[rowId := patchedRow patch row]> (calls w)));;
              mret (mapCall rowId (patchedRow patch row))
          end
      end
  end.

End Repository.
End vapiRepository.

Module patientRepository.

Definition getById {Num} (rowId : string) : M (World Num) (option Patient) :=
  w ← getState; mret (patients w !! rowId).

End patientRepository.

(* ===================================================================== *)
(** * The service (services/vapiService.ts) *)
(* ===================================================================== *)

Module vapiService.
Import Calls.

Section Service.
Context {Num : Type} `{!JsRuntime Num}.

Definition mergeAnalysis (existing incoming : option (VAPICallAnalysis Num))
  : option (VAPICallAnalysis Num) :=
  match existing, incoming with
  | None, None => None
  | _, _ =>
      Some {| summary := (incoming ≫= summary) ?: (existing ≫= summary);
              structuredData :=
                (incoming ≫= structuredData) ?: (existing ≫= structuredData);
              successEvaluation :=
                (incoming ≫= successEvaluation) ?: (existing ≫= successEvaluation) |}
  end.

Definition mapApiAnalysis (analysis : option (VapiCallAnalysisResponse Num))
  : option (VAPICallAnalysis Num) :=
  match analysis with
  | None => None
  | Some a =>
      Some {| summary := r_summary a;
              structuredData := r_structuredData a;
              successEvaluation := r_successEvaluation a |}
  end.

(** The object [{ entries, formatted }] of [extractTranscriptFromArtifact]. *)
Record TranscriptInfo := {
  entries : option (list (VAPICallTranscriptEntry Num));
  formatted : option string;
}.

Definition extractTranscriptFromArtifact (artifact : option (ArtifactResponse Num))
  : TranscriptInfo :=
  match artifact with
  | None => {| entries := None; formatted := None |}
  | Some a =>
      let entries :=
        normalizeTranscriptEntries (a_transcript a)
        ?: normalizeTranscriptEntries (a_messages a)
        ?: normalizeTranscriptEntries (a_messagesOpenAIFormatted a) in
      {| entries := entries; formatted := formatTranscript entries |}
  end.

(** [await fetch(url, ...)]: the request leaves, whatever comes back. *)
Definition fetch {A} (r : Request) (answer : FetchResult A)
  : M (World Num) (FetchResult A) :=
  modify (logRequest r);; mret answer.

Definition getAssistant (env : Env Num)
  : M (World Num) (option VAPIAssistantResponse) :=
  response ← fetch GetAssistant (assistant env);
  match response with
  | HttpOk a => mret (Some a)
  | HttpError _ _ => mret None
  | NetworkError _ => mret None
  end.

Record CreateCallParams := {
  cp_patientId : string;
  cp_promptId : string;
  cp_phoneNumber : string;
}.

(** The record that the [try] block of [createCall] hands to the
    repository when the provider accepts the call. *)
Definition acceptedPayload (env : Env Num) (params : CreateCallParams)
  (data : VAPICallResponse) : CallPayload Num :=
  let status := mapApiStatusToLocal (Some (resp_status data)) in
  {| p_patientId := Present (Some (cp_patientId params));
     p_promptId := Present (Some (cp_promptId params));
     p_scheduleId := Absent;
     p_phoneNumber := Present (Some (cp_phoneNumber params));
     p_providerCallId := Present (Some (resp_id data));
     p_status := Present (Some status);
     p_startedAt :=
       Present (if bool_decide (status = in_progress)
                then Some (DateAt (clock env)) else None);
     p_completedAt := Absent; p_duration := Absent; p_transcript := Absent;
     p_transcriptEntries := Absent; p_artifacts := Absent; p_analysis := Absent |}.

(** The record of the [catch] block. *)
Definition failedPayload (params : CreateCallParams) : CallPayload Num :=
  {| p_patientId := Present (Some (cp_patientId params));
     p_promptId := Present (Some (cp_promptId params));
     p_scheduleId := Absent;
     p_phoneNumber := Present (Some (cp_phoneNumber params));
     p_providerCallId := Absent;
     p_status := Present (Some failed);
     p_startedAt := Absent;
     p_completedAt := Absent; p_duration := Absent; p_transcript := Absent;
     p_transcriptEntries := Absent; p_artifacts := Absent; p_analysis := Absent |}.

(** The body of [POST /call] for these arguments and this assistant:
    [provider || "openai"], [model || "gpt-4o-mini"]. *)
Definition callRequest (params : CreateCallParams) (m : AssistantModel)
  : CallRequest :=
  {| customerNumber := cp_phoneNumber params;
     modelProvider := Js.orString (default "" (provider m)) "openai";
     modelName := Js.orString (default "" (model m)) "gpt-4o-mini" |}.

(** [errorData.message || fallback], the message of the error thrown for a
    response that is not [ok]. *)
Definition rejectionMessage (fallback : string) (st : N) (msg : option string)
  : string :=
  Js.orString (default "" msg) (fallback +:+ pretty st).

(** The body of the [try] block up to the [return]: it ends in the payload
    of the call record.  The [return vapiRepository.createCall(...)] itself
    is not awaited inside the [try], so an error of that insert is not
    caught by the [catch]. *)
Definition initiate (env : Env Num) (params : CreateCallParams)
  : M (World Num) (CallPayload Num) :=
  assistant ← getAssistant env;
  match assistant ≫= assistantModel with
  | None => throw "Failed to fetch assistant configuration"
  | Some m =>
      response ← fetch (PostCall (callRequest params m))
                   (postCall env (callRequest params m));
      match response with
      | NetworkError e => throw e
      | HttpError st msg =>
          throw (rejectionMessage "API call failed with status " st msg)
      | HttpOk data => mret (acceptedPayload env params data)
      end
  end.

Definition createCall (env : Env Num) (params : CreateCallParams)
  : M (World Num) (VAPICall Num) :=
  patient ← patientRepository.getById (cp_patientId params);
  prompt ← vapiRepository.getPromptById (cp_promptId params);
  match patient, prompt with
  | Some _, Some _ =>
      payload ← tryCatch (initiate env params)
                  (λ error,
                     vapiRepository.createCall env (failedPayload params);;
                     throw error);
      vapiRepository.createCall env payload
  | _, _ => throw "Patient or prompt not found"
  end.

(** [data.startedAt ? new Date(data.startedAt) : localCall.startedAt]. *)
Definition incomingDate (incoming : option string) (local : option JsDate)
  : option JsDate :=
  match incoming with
  | Some s => if Js.nonEmpty s then Some (newDate s) else local
  | None => local
  end.

(** The [updates] object of [refreshCallDetails]. *)
Definition refreshPayload (localCall : VAPICall Num)
  (data : VapiCallDetailsResponse Num) : CallPayload Num :=
  let transcriptInfo := extractTranscriptFromArtifact (d_artifact data) in
  let incomingAnalysis := mapApiAnalysis (d_analysis data) in
  {| p_patientId := Absent; p_promptId := Absent; p_scheduleId := Absent;
     p_phoneNumber := Absent; p_providerCallId := Absent;
     p_status := Present (Some (mapApiStatusToLocal (Some (d_status data))));
     p_startedAt := Present (incomingDate (d_startedAt data) (startedAt localCall));
     p_completedAt :=
       Present (incomingDate (d_completedAt data) (completedAt localCall));
     p_duration := Present (d_duration data ?: duration localCall);
     p_transcript := Present (formatted transcriptInfo ?: transcript localCall);
     p_transcriptEntries :=
       Present (entries transcriptInfo ?: transcriptEntries localCall);
     p_artifacts :=
       Present (Some
         {| recording :=
              (d_artifact data ≫= a_recording)
              ?: (artifacts localCall ≫= recording);
            logUrl :=
              (d_artifact data ≫= a_logUrl) ?: (artifacts localCall ≫= logUrl);
            transcriptUrl :=
              (d_artifact data ≫= a_transcriptUrl)
              ?: (artifacts localCall ≫= transcriptUrl) |});
     p_analysis := Present (mergeAnalysis (analysis localCall) incomingAnalysis) |}.

Definition refreshCallDetails (env : Env Num) (callId : string)
  : M (World Num) (VAPICall Num) :=
  localCall ← vapiRepository.getCallById callId;
  match localCall with
  | None => throw "Call not found"
  | Some localCall =>
      match providerCallId localCall with
      | None => throw "This call does not yet have a Vapi call ID to sync."
      | Some pid =>
          if negb (Js.nonEmpty pid)
          then throw "This call does not yet have a Vapi call ID to sync."
          else
            response ← fetch (GetCall pid) (getCall env pid);
            match response with
            | NetworkError e => throw e
            | HttpError st msg =>
                throw (rejectionMessage
                         "Failed to fetch call details with status " st msg)
            | HttpOk data =>
                vapiRepository.updateCall callId (refreshPayload localCall data)
            end
      end
  end.

(** ** What the service leaves behind, for the statements below *)

(** The row that the [catch] block of [createCall] inserts. *)
Definition failedRow (env : Env Num) (params : CreateCallParams) : CallRow Num :=
  {| patient_id := cp_patientId params;
     prompt_id := cp_promptId params;
     schedule_id := None;
     phone_number := cp_phoneNumber params;
     provider_call_id := None;
     row_status := failed;
     started_at := None;
     completed_at := None;
     row_duration := None;
     row_transcript := None;
     transcript_entries := None;
     row_artifacts := None;
     row_analysis := None;
     created_at := dbClock env |}.

(** The row that [createCall] inserts when the provider accepts. *)
Definition acceptedRow (env : Env Num) (params : CreateCallParams)
  (data : VAPICallResponse) : CallRow Num :=
  {| patient_id := cp_patientId params;
     prompt_id := cp_promptId params;
     schedule_id := None;
     phone_number := cp_phoneNumber params;
     provider_call_id := Some (resp_id data);
     row_status := mapApiStatusToLocal (Some (resp_status data));
     started_at :=
       if bool_decide (mapApiStatusToLocal (Some (resp_status data)) = in_progress)
       then Some (clock env) else None;
     completed_at := None;
     row_duration := None;
     row_transcript := None;
     transcript_entries := None;
     row_artifacts := None;
     row_analysis := None;
     created_at := dbClock env |}.

(** The error that [createCall] throws for a response that is not a 2xx. *)
Definition initiationError (response : FetchResult VAPICallResponse) : string :=
  match response with
  | NetworkError e => e
  | HttpError st msg => rejectionMessage "API call failed with status " st msg
  | HttpOk _ => ""
  end.

Definition isRejection {A} (response : FetchResult A) : Prop :=
  match response with
  | HttpOk _ => False
  | _ => True
  end.

(** What [refreshCallDetails] makes of a row and a snapshot: the row to
    store, or the error of [buildCallPayload] or of the database. *)
Definition refreshRow (callId : string) (row : CallRow Num)
  (data : VapiCallDetailsResponse Num) : Result (CallRow Num) :=
  match buildCallPayload (refreshPayload (mapCall callId row) data) with
  | Ok patch =>
      match columnError patch with
      | Some e => Throw e
      | None => Ok (patchedRow patch row)
      end
  | Throw e => Throw e
  end.

(** The instant that a refresh stores in a date column: the incoming one
    when the snapshot has a date string, the stored one otherwise. *)
Definition incomingInstant (incoming : option string) (local : option Z)
  : option Z :=
  match incomingDate incoming (DateAt <$> local) with
  | Some (DateAt ms) => Some ms
  | Some InvalidDate => local
  | None => None
  end.



(** [handleCallNow] of VAPIPage.tsx, and the branch [type === "now"] of
    [handleScheduleCall], which is the same code: the patient selected in
    the page is called at [formatPhoneToE164(selectedPatient.phone || "")];
    an error of the service ends in a toast.  The toasts and the refresh of
    the queries are not modelled. *)
Definition handleCallNow (env : Env Num) (selectedPatient : option (string * Patient))
  (promptId : string) : M (World Num) unit :=
  match selectedPatient with
  | None => mret tt
  | Some (patientId, patient) =>
      tryCatch
        (createCall env {| cp_patientId := patientId;
                           cp_promptId := promptId;
                           cp_phoneNumber := callPhoneNumber (phone patient) |};;
         mret tt)
        (λ _, mret tt)
  end.

End Service.
End vapiService.

(* ===================================================================== *)
(** * The schedule executor *)
(* ===================================================================== *)

Module Executor.
Import Schedules.

(** Modelled from the spec: [vapiService.executeDueSchedules] is missing
    from src/; this is what steps 3 to 5 of section 4.2 come to for one due
    schedule: the provider accepted the call, or the attempt failed
    (missing patient or prompt, rejection, transport error). *)
Inductive InitiationOutcome := Accepted | Failed.

Global Instance InitiationOutcome_eq_dec : EqDecision InitiationOutcome.
Proof. solve_decision. Defined.

(** Modelled from the spec: the result [{executed, failed}] of
    [vapiService.executeDueSchedules], which is missing from src/. *)
Record ExecutionSummary := {
  executed : nat;
  failedCount : nat;
}.

(** The calendar date of an instant (days since the epoch, UTC). *)
Definition dateOf (t : Z) : Z := t `div` 86400000.

(** The [updates] argument [{ lastExecutedAt: now }] of [updateSchedule]. *)
Definition markExecuted (now : Z) : ScheduleUpdates :=
  {| u_patientId := None; u_promptId := None; u_type := None;
     u_scheduledTime := Undefined; u_recurrenceType := None;
     u_recurrenceEndDate := Undefined; u_dayOfWeek := None; u_dayOfMonth := None;
     u_lastExecutedAt := Value (DateAt now) |}.

(** Modelled from the spec: [vapiService.executeDueSchedules] is missing
    from src/; whether step 6 of section 4.2 also deactivates the schedule:
    "if type = one-time, also set isActive = false; if type = recurring and
    recurrenceEndDate is set and now's date > that date, also set
    isActive = false". *)
Definition deactivatesAfter (now : Z) (s : VAPICallSchedule) : bool :=
  match scheduleType s with
  | OneTime => true
  | Recurring =>
      match recurrenceEndDate s with
      | Some e => dateOf e <? dateOf now
      | None => false
      end
  | Now => false
  end.

(** Modelled from the spec: [vapiService.executeDueSchedules], the function
    that the poller [executeScheduledCalls] of VAPIPage.tsx calls, is
    missing from src/.  This is step 6 of section 4.2 for one due schedule,
    on the store operations of the repository: after a successful
    initiation set [lastExecutedAt = now]; for a one-time schedule, and for
    a recurring one whose end date is before now's date, also set
    [isActive = false]; after a failed initiation leave the schedule as it
    is and count it in [failed].  An error of the store is an error of this
    schedule: by section 7 it is counted and not thrown. *)
Definition executeSchedule (now : Z)
  (initiation : VAPICallSchedule → InitiationOutcome)
  (acc : ExecutionSummary) (s : VAPICallSchedule) : M Table ExecutionSummary :=
  match initiation s with
  | Failed =>
      mret {| executed := executed acc; failedCount := S (failedCount acc) |}
  | Accepted =>
      tryCatch
        (updateSchedule (id s) (markExecuted now);;
         (if deactivatesAfter now s
          then deactivateSchedule (id s);; mret tt
          else mret tt);;
         mret {| executed := S (executed acc); failedCount := failedCount acc |})
        (λ _, mret {| executed := executed acc;
                      failedCount := S (failedCount acc) |})
  end.

(** Modelled from the spec: the loop of [vapiService.executeDueSchedules]
    (missing from src/) over the due schedules, one after the other. *)
Fixpoint forEachSchedule (now : Z)
  (initiation : VAPICallSchedule → InitiationOutcome)
  (due : list VAPICallSchedule) (acc : ExecutionSummary)
  : M Table ExecutionSummary :=
  match due with
  | [] => mret acc
  | s :: rest =>
      acc' ← executeSchedule now initiation acc s;
      forEachSchedule now initiation rest acc'
  end.

(** Modelled from the spec: [vapiService.executeDueSchedules] (missing from
    src/), steps 1, 2, 6 and 7 of section 4.2: fetch the due schedules with
    the repository's [listDueSchedules], process each one, return the
    counts.  Steps 3 to 5 (the call itself) enter through [initiation]. *)
Definition executeDueSchedules (now : Z)
  (initiation : VAPICallSchedule → InitiationOutcome)
  : M Table ExecutionSummary :=
  due ← listDueSchedules now;
  forEachSchedule now initiation due {| executed := 0; failedCount := 0 |}.

End Executor.

(* ===================================================================== *)
(** * The claims of the specification, in its own words *)
(* ===================================================================== *)

Module Spec.
Import Schedules.


(** Section 4.1, [type = one-time]: "due iff scheduledTime exists,
    scheduledTime <= now, and lastExecutedAt is unset", for an active
    schedule. *)
Definition oneTimeDue (now : Z) (row : ScheduleRow) : bool :=
  is_active row
  && match scheduled_time row with Some t => t <=? now | None => false end
  && bool_decide (last_executed_at row = None).

(** The time of day of an instant, in milliseconds after midnight (UTC). *)
Definition timeOfDay (t : Z) : Z := t `mod` 86400000.

(** Section 4.1, [type = recurring], [recurrenceType = daily]: "due iff
    lastExecutedAt is unset or its calendar date differs from today's AND
    the time of day is at or after the one encoded in scheduledTime (if no
    time of day is set, due any time) AND (recurrenceEndDate unset OR today
    <= recurrenceEndDate)", for an active schedule. *)
Definition dailyDue (now : Z) (row : ScheduleRow) : bool :=
  is_active row
  && match last_executed_at row with
     | None => true
     | Some l => negb (Executor.dateOf l =? Executor.dateOf now)
     end
  && match scheduled_time row with
     | None => true
     | Some t => timeOfDay t <=? timeOfDay now
     end
  && match recurrence_end_date row with
     | None => true
     | Some e => Executor.dateOf now <=? Executor.dateOf e
     end.

End Spec.

(* ===================================================================== *)
(** * A runtime to compute with *)
(* ===================================================================== *)

(** Numbers that are integers, printed in decimal; a date string is its
    count of milliseconds in decimal. *)
Module IntRuntime.

Definition parseDigits (s : string) : JsDate :=
  if Js.nonEmpty s && Js.allString Js.isDigit s
  then DateAt (foldl (λ acc c, 10 * acc + (Z.of_nat (nat_of_ascii c) - 48)) 0
                       (list_ascii_of_string s))
  else InvalidDate.

Definition runtime : JsRuntime Z :=
  {| numberTruthy := λ n, negb (n =? 0);
     numberToString := λ n, pretty n;
     toFixed1 := λ n, pretty n +:+ ".0";
     newDate := parseDigits;
     integerError := λ n,
       if (-2147483648 <=? n) && (n <=? 2147483647) then None
       else Some "value out of range for type integer" |}.

End IntRuntime.

(* ===================================================================== *)
(** * Data for the examples *)
(* ===================================================================== *)

Module ScheduleExamples.
Import Schedules.

(** A daily schedule for 09:00 that has never run and has no end date. *)
Definition dailyRow : ScheduleRow :=
  {| patient_id := "patient-1"; prompt_id := "prompt-1"; type := Recurring;
     scheduled_time := Some 1717232400000;
     recurrence_type := Some Daily; recurrence_end_date := None;
     day_of_week := None; day_of_month := None;
     created_at := 1717200000000; is_active := true;
     last_executed_at := None |}.

(** The one-time schedule of 2024-06-01T09:00:00Z before its execution. *)
Definition pendingRow : ScheduleRow :=
  {| patient_id := "patient-1"; prompt_id := "prompt-1"; type := OneTime;
     scheduled_time := Some 1717232400000;
     recurrence_type := None; recurrence_end_date := None;
     day_of_week := None; day_of_month := None;
     created_at := 1717200000000; is_active := true;
     last_executed_at := None |}.

End ScheduleExamples.

Module CallExamples.
Import Calls vapiService.
#[local] Existing Instance IntRuntime.runtime.

Definition patient1 : Patient :=
  {| firstName := "Ada"; lastName := "Moore"; phone := Some "(555) 123-4567" |}.

Definition prompt1 : VAPIPrompt :=
  {| promptPatientId := "patient-1"; promptName := "Daily check-in";
     promptText := "Ask how the patient feels today."; promptIsActive := true |}.

Definition world1 : World Z :=
  {| calls := ∅;
     patients := {[ "patient-1" := patient1 ]};
     prompts := {[ "prompt-1" := prompt1 ]};
     requests := [] |}.

Definition assistant1 : VAPIAssistantResponse :=
  {| assistantId := "assistant-1";
     assistantModel := Some {| provider := Some "openai"; model := None |} |}.

Definition params1 : CreateCallParams :=
  {| cp_patientId := "patient-1"; cp_promptId := "prompt-1";
     cp_phoneNumber := callPhoneNumber (phone patient1) |}.

(** A provider that answers the request for a call with [answer]. *)
Definition providerEnv (answer : FetchResult VAPICallResponse) : Env Z :=
  {| assistant := HttpOk assistant1;
     postCall := λ _, answer;
     getCall := λ _, NetworkError "Failed to fetch";
     clock := 1717232700000;
     dbClock := 1717232700250;
     newRowId := "call-1" |}.

Definition queued : VAPICallResponse :=
  {| resp_id := "prov-123"; resp_status := "queued"; resp_createdAt := None |}.

(** A patient whose phone string carries an extension. *)
Definition patient2 : Patient :=
  {| firstName := "Bo"; lastName := "Reyes";
     phone := Some "+1 555-123-4567 x1234" |}.

Definition world2 : World Z :=
  {| calls := ∅;
     patients := {[ "patient-2" := patient2 ]};
     prompts := {[ "prompt-1" := prompt1 ]};
     requests := [] |}.

(** A call that the provider accepted, with a recording already stored. *)
Definition storedRow : CallRow Z :=
  {| patient_id := "patient-1";
     prompt_id := "prompt-1";
     schedule_id := None;
     phone_number := "+15551234567";
     provider_call_id := Some "prov-123";
     row_status := pending;
     started_at := None;
     completed_at := None;
     row_duration := None;
     row_transcript := None;
     transcript_entries := None;
     row_artifacts :=
       Some {| recording := Some "https://storage.example/rec-1.wav";
               logUrl := None; transcriptUrl := None |};
     row_analysis := None;
     created_at := 1717232700250 |}.

(** A call that was recorded as failed: it has no provider call id. *)
Definition unsyncedRow : CallRow Z :=
  {| patient_id := "patient-1";
     prompt_id := "prompt-1";
     schedule_id := None;
     phone_number := "+15551234567";
     provider_call_id := None;
     row_status := failed;
     started_at := None;
     completed_at := None;
     row_duration := None;
     row_transcript := None;
     transcript_entries := None;
     row_artifacts := None;
     row_analysis := None;
     created_at := 1717232700250 |}.

Definition world3 : World Z :=
  {| calls := {[ "call-1" := storedRow; "call-2" := unsyncedRow ]};
     patients := {[ "patient-1" := patient1 ]};
     prompts := {[ "prompt-1" := prompt1 ]};
     requests := [] |}.

(** The messages of a finished call, in three of the shapes that the
    provider sends, with one entry that has no text. *)
Definition items1 : list (JsValue Z) :=
  [ JObject [("role", JString "assistant"); ("message", JString "Hello Ada.");
             ("time", JNumber 0)];
    JObject [("speaker", JString "user");
             ("content", JObject [("text", JString "I feel fine.")]);
             ("time", JNumber 4)];
    JObject [("role", JString "system"); ("message", JNull)];
    JString "Goodbye." ].

Definition messages1 : JsValue Z := JArray items1.

(** The snapshot of the finished call; it has no recording. *)
Definition snapshot1 : VapiCallDetailsResponse Z :=
  {| d_id := "prov-123";
     d_status := "ended";
     d_createdAt := None;
     d_startedAt := Some "1717232701000";
     d_completedAt := None;
     d_duration := Some 42;
     d_artifact :=
       Some {| a_recording := None;
               a_logUrl := Some "https://storage.example/log-1.json";
               a_transcript := JString "AI: Hello Ada.";
               a_transcriptUrl := None;
               a_messages := messages1;
               a_messagesOpenAIFormatted := JUndefined |};
     d_analysis :=
       Some {| r_summary := Some "The patient feels fine.";
               r_structuredData := None;
               r_successEvaluation := None |} |}.

Definition refreshEnv : Env Z :=
  {| assistant := HttpOk assistant1;
     postCall := λ _, NetworkError "Failed to fetch";
     getCall := λ _, HttpOk snapshot1;
     clock := 1717233000000;
     dbClock := 1717233000250;
     newRowId := "call-3" |}.

(** The entries that normalization keeps of [messages1]. *)
Definition entries1 : list (VAPICallTranscriptEntry Z) :=
  [ {| role := "assistant"; message := "Hello Ada."; time := Some 0 |};
    {| role := "user"; message := "I feel fine."; time := Some 4 |};
    {| role := "speaker"; message := "Goodbye."; time := None |} ].

(** The row of the call after the refresh. *)
Definition refreshedRow : CallRow Z :=
  {| patient_id := "patient-1";
     prompt_id := "prompt-1";
     schedule_id := None;
     phone_number := "+15551234567";
     provider_call_id := Some "prov-123";
     row_status := pending;
     started_at := Some 1717232701000;
     completed_at := None;
     row_duration := Some 42;
     row_transcript :=
       Some ("[0.0s] ASSISTANT: Hello Ada." +:+ String "010" ""
             +:+ "[4.0s] USER: I feel fine." +:+ String "010" ""
             +:+ "SPEAKER: Goodbye.");
     transcript_entries := Some entries1;
     row_artifacts :=
       Some {| recording := Some "https://storage.example/rec-1.wav";
               logUrl := Some "https://storage.example/log-1.json";
               transcriptUrl := None |};
     row_analysis :=
       Some {| summary := Some "The patient feels fine.";
               structuredData := None; successEvaluation := None |};
     created_at := 1717232700250 |}.

End CallExamples.

(* ===================================================================== *)
(** * Scheduling (lib/repositories/vapi.ts and services/vapiService.ts) *)
(* ===================================================================== *)

Module Scheduling.
Import Schedules.

(** [CreateSchedulePayload] of the repository, which has the fields of
    [ScheduleCallParams] of the service. *)
Record CreateSchedulePayload := {
  c_patientId : string;
  c_promptId : string;
  c_type : ScheduleType;
  c_scheduledTime : option JsDate;
  c_recurrenceType : option RecurrenceType;
  c_recurrenceEndDate : option JsDate;
  c_dayOfWeek : option Z;
  c_dayOfMonth : option Z;
}.

Definition getScheduleById (rowId : string) : M Table (option VAPICallSchedule) :=
  tbl ← getState; mret (mapSchedule rowId <$> tbl !! rowId).

(** [date ? date.toISOString() : null]: a [Date] object is truthy also when
    it is the invalid date. *)
Definition isoOrNull (date : option JsDate) : Result (option Z) :=
  match date with
  | None => Ok None
  | Some d =>
      match toISOString d with
      | Ok ms => Ok (Some ms)
      | Throw e => Throw e
      end
  end.

(** The row that [createSchedule] inserts; [created_at] is the default of
    the column, the clock of the database. *)
Definition scheduleRow (createdAt : Z) (payload : CreateSchedulePayload)
  : Result ScheduleRow :=
  match isoOrNull (c_scheduledTime payload) with
  | Throw e => Throw e
  | Ok scheduled =>
    match isoOrNull (c_recurrenceEndDate payload) with
    | Throw e => Throw e
    | Ok recurrenceEnd =>
        Ok {| patient_id := c_patientId payload;
              prompt_id := c_promptId payload;
              type := c_type payload;
              scheduled_time := scheduled;
              recurrence_type := c_recurrenceType payload;
              recurrence_end_date := recurrenceEnd;
              day_of_week := c_dayOfWeek payload;
              day_of_month := c_dayOfMonth payload;
              created_at := createdAt;
              is_active := true;
              last_executed_at := None |}
    end
  end.

(** [createSchedule]: [rowId] is the key and [createdAt] the creation time
    that the database gives to the row.  The foreign keys of the row are not
    checked here: [scheduleCall], its caller, has looked up the patient and
    the prompt. *)
Definition createSchedule (rowId : string) (createdAt : Z)
  (payload : CreateSchedulePayload) : M Table VAPICallSchedule :=
  match scheduleRow createdAt payload with
  | Throw e => throw e
  | Ok row =>
      tbl ← getState;
      match tbl !! rowId with
      | Some _ => throw duplicateKeyError
      | None =>
          modify (insert rowId row);;
          mret (mapSchedule rowId row)
      end
  end.

(** The tables that the scheduling code of the service and of the page
    works on: the schedules, and the world of the calls. *)
Record Database (Num : Type) := {
  schedules : Table;
  world : World Num;
}.
Arguments schedules {Num} _.
Arguments world {Num} _.

(** A query on the table of schedules, and one on the other tables. *)
Definition onSchedules {Num A} (m : M Table A) : M (Database Num) A :=
  λ db, let (result, tbl) := m (schedules db) in
        (result, {| schedules := tbl; world := world db |}).

Definition onWorld {Num A} (m : M (World Num) A) : M (Database Num) A :=
  λ db, let (result, w) := m (world db) in
        (result, {| schedules := schedules db; world := w |}).

Section SchedulingService.
Context {Num : Type} `{!JsRuntime Num}.

(** [vapiService.scheduleCall]. *)
Definition scheduleCall (rowId : string) (createdAt : Z)
  (params : CreateSchedulePayload) : M (Database Num) VAPICallSchedule :=
  patient ← onWorld (patientRepository.getById (c_patientId params));
  prompt ← onWorld (vapiRepository.getPromptById (c_promptId params));
  match patient, prompt with
  | Some _, Some _ =>
      onSchedules
        (createSchedule rowId createdAt
           {| c_patientId := c_patientId params;
              c_promptId := c_promptId params;
              c_type := c_type params;
              c_scheduledTime := c_scheduledTime params;
              c_recurrenceType := c_recurrenceType params;
              c_recurrenceEndDate := c_recurrenceEndDate params;
              c_dayOfWeek := c_dayOfWeek params;
              c_dayOfMonth := c_dayOfMonth params |})
  | _, _ => throw "Patient or prompt not found"
  end.

(** [vapiService.cancelSchedule]. *)
Definition cancelSchedule (scheduleId : string) : M (Database Num) bool :=
  schedule ← onSchedules (getScheduleById scheduleId);
  match schedule with
  | None => mret false
  | Some _ =>
      onSchedules (deactivateSchedule scheduleId);;
      mret true
  end.

(** [handleScheduleCall] of VAPIPage.tsx: the type "now" places the call,
    any other type stores a schedule; an error ends in a toast.  The toasts,
    the refresh of the queries and the closing of the dialog are not
    modelled. *)
Definition handleScheduleCall (env : Env Num) (rowId : string) (createdAt : Z)
  (selectedPatient : option (string * Patient)) (promptId : string)
  (type : ScheduleType) (scheduledTime : option JsDate)
  (recurrenceType : option RecurrenceType) (recurrenceEndDate : option JsDate)
  (dayOfWeek : option Z) : M (Database Num) unit :=
  match selectedPatient with
  | None => mret tt
  | Some (patientId, patient) =>
      tryCatch
        (match type with
         | Now =>
             onWorld
               (vapiService.createCall env
                  {| vapiService.cp_patientId := patientId;
                     vapiService.cp_promptId := promptId;
                     vapiService.cp_phoneNumber := callPhoneNumber (phone patient) |});;
             mret tt
         | _ =>
             scheduleCall rowId createdAt
               {| c_patientId := patientId;
                  c_promptId := promptId;
                  c_type := type;
                  c_scheduledTime := scheduledTime;
                  c_recurrenceType := recurrenceType;
                  c_recurrenceEndDate := recurrenceEndDate;
                  c_dayOfWeek := dayOfWeek;
                  c_dayOfMonth := None |};;
             mret tt
         end)
        (λ _, mret tt)
  end.

(** [handleDeleteSchedule] of VAPIPage.tsx. *)
Definition handleDeleteSchedule (selectedPatient : option (string * Patient))
  (scheduleId : string) : M (Database Num) unit :=
  match selectedPatient with
  | None => mret tt
  | Some _ => tryCatch (cancelSchedule scheduleId;; mret tt) (λ _, mret tt)
  end.

End SchedulingService.
End Scheduling.

(* ===================================================================== *)
(** * The status badge of a call (components/VAPIPage.tsx) *)
(* ===================================================================== *)

Module StatusBadge.
Import Calls.

(** ["key" in value] for an object. *)
Definition hasKey {A} (key : string) (fields : list (string * A)) : bool :=
  existsb (λ kv, String.eqb kv.1 key) fields.

(** [isEndOfCallReport], on the structured data of an analysis. *)
Definition isEndOfCallReport {Num} (value : option (JsObject Num)) : bool :=
  match value with
  | None => false
  | Some fields => hasKey "conversationOutcome" fields && hasKey "summary" fields
  end.

(** [required] of the [structuredDataSchema] that [buildAnalysisPlan] of
    the service sends with every call. *)
Definition structuredDataRequired : list string :=
  ["patientId"; "patientName"; "conversationOutcome"; "summary"; "riskLevel";
   "followUpType"; "escalationNeeded"].

Record Badge := {
  badgeLabel : string;
  badgeClassName : string;
}.

Definition statusConfig (st : VAPICallStatus) : Badge :=
  match st with
  | pending =>
      {| badgeLabel := "Pending";
         badgeClassName :=
           "bg-yellow-100 text-yellow-800 dark:bg-yellow-900 dark:text-yellow-200" |}
  | in_progress =>
      {| badgeLabel := "In Progress";
         badgeClassName :=
           "bg-blue-100 text-blue-800 dark:bg-blue-900 dark:text-blue-200" |}
  | completed =>
      {| badgeLabel := "Completed";
         badgeClassName :=
           "bg-green-100 text-green-800 dark:bg-green-900 dark:text-green-200" |}
  | failed =>
      {| badgeLabel := "Failed";
         badgeClassName := "bg-red-100 text-red-800 dark:bg-red-900 dark:text-red-200" |}
  end.

(** [call.analysis?.summary || isEndOfCallReport(call.analysis?.structuredData)],
    as a truth value. *)
Definition hasAnalysisData {Num} (call : VAPICall Num) : bool :=
  Js.nonEmpty (default "" (analysis call ≫= summary))
  || isEndOfCallReport (analysis call ≫= structuredData).

Definition effectiveStatus {Num} (call : VAPICall Num) : VAPICallStatus :=
  if hasAnalysisData call && bool_decide (status call = pending)
  then completed else status call.

(** [getCallStatusBadge]: the label and the class of the badge. *)
Definition getCallStatusBadge {Num} (call : VAPICall Num) : Badge :=
  statusConfig (effectiveStatus call).

End StatusBadge.

(* ===================================================================== *)
(** * Durations (lib/duration.ts) *)
(* ===================================================================== *)

Module Duration.

(** [date.getTime()]: [None] stands for NaN, the time of the invalid date. *)
Definition getTime (date : JsDate) : option Z :=
  match date with
  | DateAt ms => Some ms
  | InvalidDate => None
  end.

(** The instants that a [Date] can hold: at most 8.64e15 milliseconds
    from the epoch. *)
Definition validInstant (ms : Z) : Prop :=
  -8640000000000000 ≤ ms ≤ 8640000000000000.

(** The whole numbers that double precision holds one by one. *)
Definition safeInteger (n : Z) : Prop :=
  -9007199254740992 ≤ n ≤ 9007199254740992.

(** The double nearest to a whole number, ties going to the even
    mantissa: a whole number of more than 53 bits loses its last bits. *)
Definition toDouble (x : Z) : Z :=
  let e := Z.log2 (Z.abs x) - 52 in
  if e <=? 0 then x
  else
    let ulp := 2 ^ e in
    let q := x / ulp in
    let r := x `mod` ulp in
    if 2 * r <? ulp then q * ulp
    else if ulp <? 2 * r then (q + 1) * ulp
    else if Z.even q then q * ulp else (q + 1) * ulp.

(** [calculateDurationSeconds].  The difference of the instants of two
    valid dates ([validInstant]) has at most 54 bits: it is rounded to a
    double ([toDouble]), and the rounding of its division by 1000 never
    reaches the next whole number, so [Math.floor] of the quotient is the
    integer quotient. *)
Definition calculateDurationSeconds (startedAt completedAt : option JsDate)
  : option Z :=
  match startedAt, completedAt with
  | Some started, Some finished =>
      match getTime finished, getTime started with
      | Some f, Some s =>
          let diffMs := toDouble (f - s) in
          if diffMs <=? 0 then None else Some (diffMs / 1000)
      | _, _ => None
      end
  | _, _ => None
  end.

(** [formatDurationLabel] on a whole number of seconds that double
    precision holds exactly ([safeInteger]): there [Math.floor(seconds)]
    changes nothing, [Math.floor] of the division by 3600 is the integer
    quotient, and a template literal prints the number in decimal. *)
Definition formatDurationLabel (seconds : option Z) : option string :=
  match seconds with
  | None => None
  | Some seconds =>
      let safeSeconds := Z.max 0 seconds in
      let hours := safeSeconds / 3600 in
      let minutes := (safeSeconds `mod` 3600) / 60 in
      let remainingSeconds := safeSeconds `mod` 60 in
      let parts := [] in
      let parts := if hours =? 0 then parts else parts ++ [pretty hours +:+ "h"] in
      let parts := if minutes =? 0 then parts else parts ++ [pretty minutes +:+ "m"] in
      let parts :=
        if negb (remainingSeconds =? 0) || (length parts =? 0)%nat
        then parts ++ [pretty remainingSeconds +:+ "s"] else parts in
      Some (Js.join " " parts)
  end.

(** Reading a label back: the digits before [h], [m] and [s] count hours,
    minutes and seconds. *)
Fixpoint readLabel (count total : Z) (label : string) : Z :=
  match label with
  | EmptyString => total
  | String c rest =>
      if Js.isDigit c
      then readLabel (10 * count + (Z.of_nat (nat_of_ascii c) - 48)) total rest
      else if Ascii.eqb c "h" then readLabel 0 (total + 3600 * count) rest
      else if Ascii.eqb c "m" then readLabel 0 (total + 60 * count) rest
      else if Ascii.eqb c "s" then readLabel 0 (total + count) rest
      else readLabel 0 total rest
  end.

Definition labelSeconds (label : string) : Z := readLabel 0 0 label.

End Duration.

(* ===================================================================== *)
(** * The phone field of the enrollment (components/EnrollmentContainer.tsx) *)
(* ===================================================================== *)

Module Enrollment.

Fixpoint takeString (n : nat) (s : string) : string :=
  match n, s with
  | S n', String c r => String c (takeString n' r)
  | _, _ => EmptyString
  end.

Fixpoint dropString (n : nat) (s : string) : string :=
  match n, s with
  | S n', String _ r => dropString n' r
  | _, _ => s
  end.

(** [s.slice(from, to)] and [s.slice(from)], for [0 <= from <= to]. *)
Definition slice (s : string) (from to : nat) : string :=
  takeString (to - from) (dropString from s).
Definition sliceFrom (s : string) (from : nat) : string := dropString from s.

Definition formatPhoneNumber (value : string) : string :=
  let digits := stripNonDigits value in
  let limitedDigits := slice digits 0 10 in
  if (String.length limitedDigits =? 0)%nat then ""
  else if (String.length limitedDigits <=? 3)%nat then "(" +:+ limitedDigits
  else if (String.length limitedDigits <=? 6)%nat
  then "(" +:+ slice limitedDigits 0 3 +:+ ")-" +:+ sliceFrom limitedDigits 3
  else "(" +:+ slice limitedDigits 0 3 +:+ ")-" +:+ slice limitedDigits 3 6
       +:+ "-" +:+ sliceFrom limitedDigits 6.

End Enrollment.

(* ===================================================================== *)
(** * The in-memory stores (store/mockData.ts) *)
(* ===================================================================== *)

Module mockData.

(** The fields of the rows that the modelled operations read. *)
Record Patient := {
  p_id : string;
  p_firstName : string;
  p_lastName : string;
}.

Record HealthMetric := {
  m_id : string;
  m_patientId : string;
  m_timestamp : Z;
}.

Record VAPIPrompt := {
  q_id : string;
  q_patientId : string;
  q_name : string;
}.

Record VAPICallSchedule := {
  s_id : string;
  s_patientId : string;
  s_promptId : string;
  s_isActive : bool;
}.

Record VAPICall := {
  k_id : string;
  k_patientId : string;
  k_promptId : string;
  k_createdAt : Z;
}.

(** The module-level arrays. *)
Record Store := {
  patients : list Patient;
  healthMetrics : list HealthMetric;
  vapiPrompts : list VAPIPrompt;
  vapiCallSchedules : list VAPICallSchedule;
  vapiCalls : list VAPICall;
}.

(** [array.findIndex(p)], [None] for -1. *)
Fixpoint findIndex {A} (p : A → bool) (l : list A) : option nat :=
  match l with
  | [] => None
  | x :: rest => if p x then Some 0%nat else S <$> findIndex p rest
  end.

(** [array.find(p)]. *)
Fixpoint find {A} (p : A → bool) (l : list A) : option A :=
  match l with
  | [] => None
  | x :: rest => if p x then Some x else find p rest
  end.

(** [array.sort((a, b) => key(b) - key(a))]: the sort is stable, so it is
    the insertion of each element before the first one whose key is not
    greater. *)
Fixpoint insertDescending {A} (key : A → Z) (x : A) (sorted : list A) : list A :=
  match sorted with
  | [] => [x]
  | y :: rest =>
      if key x <? key y then y :: insertDescending key x rest
      else x :: y :: rest
  end.

Definition sortDescending {A} (key : A → Z) (l : list A) : list A :=
  foldr (insertDescending key) [] l.

Module patientStore.

Definition getById (id : string) (s : Store) : option Patient :=
  find (λ p, String.eqb (p_id p) id) (patients s).

Definition delete (id : string) (s : Store) : bool * Store :=
  match findIndex (λ p, String.eqb (p_id p) id) (patients s) with
  | None => (false, s)
  | Some index =>
      (true,
       {| patients := base.delete index (patients s);
          healthMetrics :=
            List.filter (λ m, negb (String.eqb (m_patientId m) id)) (healthMetrics s);
          vapiPrompts :=
            List.filter (λ p, negb (String.eqb (q_patientId p) id)) (vapiPrompts s);
          vapiCallSchedules :=
            List.filter (λ sch, negb (String.eqb (s_patientId sch) id))
              (vapiCallSchedules s);
          vapiCalls :=
            List.filter (λ c, negb (String.eqb (k_patientId c) id)) (vapiCalls s) |})
  end.

End patientStore.

Module healthMetricStore.

Definition getByPatientId (patientId : string) (s : Store) : list HealthMetric :=
  sortDescending m_timestamp
    (List.filter (λ m, String.eqb (m_patientId m) patientId) (healthMetrics s)).

Definition getLatestByPatientId (patientId : string) (s : Store)
  : option HealthMetric :=
  head (getByPatientId patientId s).

End healthMetricStore.

Module vapiPromptStore.

Definition getById (id : string) (s : Store) : option VAPIPrompt :=
  find (λ p, String.eqb (q_id p) id) (vapiPrompts s).

Definition delete (id : string) (s : Store) : bool * Store :=
  match findIndex (λ p, String.eqb (q_id p) id) (vapiPrompts s) with
  | None => (false, s)
  | Some index =>
      (true,
       {| patients := patients s;
          healthMetrics := healthMetrics s;
          vapiPrompts := base.delete index (vapiPrompts s);
          vapiCallSchedules :=
            List.filter (λ sch, negb (String.eqb (s_promptId sch) id))
              (vapiCallSchedules s);
          vapiCalls := vapiCalls s |})
  end.

End vapiPromptStore.

Module vapiScheduleStore.

Definition getByPatientId (patientId : string) (s : Store) : list VAPICallSchedule :=
  List.filter (λ sch, String.eqb (s_patientId sch) patientId) (vapiCallSchedules s).

End vapiScheduleStore.

Module vapiCallStore.

Definition getByPatientId (patientId : string) (s : Store) : list VAPICall :=
  sortDescending k_createdAt
    (List.filter (λ c, String.eqb (k_patientId c) patientId) (vapiCalls s)).

End vapiCallStore.

End mockData.

(* ===================================================================== *)
(** * More data for the examples *)
(* ===================================================================== *)

Module EdgeExamples.
Import Calls vapiService CallExamples.
#[local] Existing Instance IntRuntime.runtime.

(** A request for a patient that is not in the table. *)
Definition unknownParams : CreateCallParams :=
  {| cp_patientId := "patient-9"; cp_promptId := "prompt-1";
     cp_phoneNumber := "+15551234567" |}.

(** A provider that refuses to show the assistant. *)
Definition noAssistantEnv : Env Z :=
  {| assistant := HttpError 401 (Some "Unauthorized");
     postCall := λ _, HttpOk queued;
     getCall := λ _, NetworkError "Failed to fetch";
     clock := 1717232700000;
     dbClock := 1717232700250;
     newRowId := "call-1" |}.

(** A snapshot whose start date does not parse. *)
Definition snapshot2 : VapiCallDetailsResponse Z :=
  {| d_id := "prov-123";
     d_status := "in-progress";
     d_createdAt := None;
     d_startedAt := Some "yesterday";
     d_completedAt := None;
     d_duration := None;
     d_artifact := None;
     d_analysis := None |}.



(** A snapshot whose dates parse, with a duration that is too large for
    the column. *)
Definition snapshot4 : VapiCallDetailsResponse Z :=
  {| d_id := "prov-123";
     d_status := "ended";
     d_createdAt := None;
     d_startedAt := Some "1717232701000";
     d_completedAt := None;
     d_duration := Some 3000000000;
     d_artifact := None;
     d_analysis := None |}.

Definition overflowEnv : Env Z :=
  {| assistant := HttpOk assistant1;
     postCall := λ _, NetworkError "Failed to fetch";
     getCall := λ _, HttpOk snapshot4;
     clock := 1717233000000;
     dbClock := 1717233000250;
     newRowId := "call-3" |}.

Definition brokenEnv : Env Z :=
  {| assistant := HttpOk assistant1;
     postCall := λ _, NetworkError "Failed to fetch";
     getCall := λ _, HttpOk snapshot2;
     clock := 1717233000000;
     dbClock := 1717233000250;
     newRowId := "call-3" |}.

(** A report with the keys that the schema requires, on a pending call. *)
Definition reportFields : JsObject Z :=
  [("patientId", JString "patient-1");
   ("patientName", JString "Ada Moore");
   ("conversationOutcome", JString "completed");
   ("summary", JString "The patient feels fine.");
   ("riskLevel", JString "low");
   ("followUpType", JString "none");
   ("escalationNeeded", JBool false)].

Definition report1 : VAPICallAnalysis Z :=
  {| summary := None; structuredData := Some reportFields;
     successEvaluation := None |}.

Definition reportedCall : VAPICall Z :=
  {| id := "call-1"; patientId := "patient-1"; promptId := "prompt-1";
     scheduleId := None; phoneNumber := "+15551234567";
     providerCallId := Some "prov-123"; status := pending;
     startedAt := None; completedAt := None; duration := None;
     transcript := None; transcriptEntries := None;
     artifacts := None; analysis := Some report1;
     createdAt := DateAt 1717232700250 |}.

End EdgeExamples.

Module SchedulingExamples.
Import Schedules Scheduling ScheduleExamples.

Definition db1 : Database Z :=
  {| schedules := {[ "s1" := pendingRow ]}; world := CallExamples.world1 |}.

(** A one-time schedule for 2024-06-02T09:00:00Z. *)
Definition oneTimeParams : CreateSchedulePayload :=
  {| c_patientId := "patient-1"; c_promptId := "prompt-1"; c_type := OneTime;
     c_scheduledTime := Some (DateAt 1717318800000);
     c_recurrenceType := None; c_recurrenceEndDate := None;
     c_dayOfWeek := None; c_dayOfMonth := None |}.

(** The same schedule with a date that is not valid. *)
Definition brokenParams : CreateSchedulePayload :=
  {| c_patientId := "patient-1"; c_promptId := "prompt-1"; c_type := OneTime;
     c_scheduledTime := Some InvalidDate;
     c_recurrenceType := None; c_recurrenceEndDate := None;
     c_dayOfWeek := None; c_dayOfMonth := None |}.

(** A schedule for a prompt that does not exist. *)
Definition unknownPromptParams : CreateSchedulePayload :=
  {| c_patientId := "patient-1"; c_promptId := "prompt-9"; c_type := OneTime;
     c_scheduledTime := Some (DateAt 1717318800000);
     c_recurrenceType := None; c_recurrenceEndDate := None;
     c_dayOfWeek := None; c_dayOfMonth := None |}.

(** The update that writes the execution stamp. *)
Definition stamp : ScheduleUpdates :=
  {| u_patientId := None; u_promptId := None; u_type := None;
     u_scheduledTime := Undefined; u_recurrenceType := None;
     u_recurrenceEndDate := Undefined; u_dayOfWeek := None; u_dayOfMonth := None;
     u_lastExecutedAt := Value (DateAt 1717232700000) |}.

(** The update that sets an end date of 2024-07-01T00:00:00Z. *)
Definition endDate : ScheduleUpdates :=
  {| u_patientId := None; u_promptId := None; u_type := None;
     u_scheduledTime := Undefined; u_recurrenceType := None;
     u_recurrenceEndDate := Value (DateAt 1719792000000);
     u_dayOfWeek := None; u_dayOfMonth := None;
     u_lastExecutedAt := Undefined |}.

End SchedulingExamples.

(** Running a computation of [M]: unfold the monad. *)
Ltac run_M :=
  unfold mbind, M_bind, mret, M_ret, throw, tryCatch, getState, modify;
  cbn beta iota.

(* ===================================================================== *)
(** * Properties: phone numbers *)
(* ===================================================================== *)

Lemma stripNonDigits_digits (s : string) :
  Js.allString Js.isDigit (stripNonDigits s) = true.
Proof.
  unfold stripNonDigits.
  induction s as [|c r IH]; simpl; [reflexivity|].
  destruct (Js.isDigit c) eqn:Hc; simpl; [rewrite Hc|]; exact IH.
Qed.

Lemma isPrefix_cons (a b : ascii) (p s : string) :
  Js.isPrefix (String a p) (String b s) = Ascii.eqb a b && Js.isPrefix p s.
Proof. reflexivity. Qed.

Lemma isE164_plus_one (digits : string) :
  Js.allString Js.isDigit digits = true →
  (1 ≤ String.length digits ≤ 13)%nat →
  isE164 ("+1" +:+ digits) = true.
Proof.
  intros Hd Hlen.
  change ("+1" +:+ digits) with (String "+" (String "1" digits)).
  cbn [isE164]. rewrite Hd.
  rewrite (proj2 (Nat.leb_le 1 _)), (proj2 (Nat.leb_le _ 14)) by lia.
  reflexivity.
Qed.

Lemma isE164_plus_digits (digits : string) :
  Js.allString Js.isDigit digits = true →
  String.length digits = 11%nat →
  Js.startsWith digits "1" = true →
  isE164 ("+" +:+ digits) = true.
Proof.
  intros Hd Hlen Hpre.
  destruct digits as [|c r]; [discriminate|].
  unfold Js.startsWith in Hpre. rewrite isPrefix_cons in Hpre.
  destruct (Ascii.eqb_spec "1" c) as [<-|]; [|discriminate].
  change ("+" +:+ String "1" r) with (String "+" (String "1" r)).
  change (Js.allString Js.isDigit r = true) in Hd.
  cbn in Hlen. cbn [isE164]. rewrite Hd.
  rewrite (proj2 (Nat.leb_le 1 _)), (proj2 (Nat.leb_le _ 14)) by lia.
  reflexivity.
Qed.

Lemma startsWith_plus_one_digits (phone : string) :
  Js.startsWith phone "+1" = true →
  Js.startsWith (stripNonDigits phone) "1" = true.
Proof.
  unfold Js.startsWith.
  destruct phone as [|a [|b r]]; [discriminate| |].
  - rewrite isPrefix_cons.
    destruct (Ascii.eqb "+" a); discriminate.
  - rewrite !isPrefix_cons.
    destruct (Ascii.eqb_spec "+" a) as [<-|]; [|discriminate].
    destruct (Ascii.eqb_spec "1" b) as [<-|]; [|discriminate].
    reflexivity.
Qed.

Example formatPhone_seed : formatPhoneToE164 "(555) 123-4567" = "+15551234567".
Proof. reflexivity. Qed.

(** When the phone string holds one to thirteen digits and, in the case
    where it starts with "+1" and holds eleven digits, is nothing but the
    plus sign and those digits, the number that [formatPhoneToE164] returns
    has the E.164 shape; and a phone string with exactly ten digits becomes
    "+1" followed by those ten digits. *)
Lemma formatPhoneToE164_e164 (phone : string) :
  (1 ≤ String.length (stripNonDigits phone) ≤ 13)%nat →
  (String.length (stripNonDigits phone) = 11%nat →
   Js.startsWith phone "+1" = true →
   phone = "+" +:+ stripNonDigits phone) →
  isE164 (formatPhoneToE164 phone) = true
  ∧ (String.length (stripNonDigits phone) = 10%nat →
     formatPhoneToE164 phone = "+1" +:+ stripNonDigits phone).
Proof.
  intros Hlen Hclean.
  pose proof (stripNonDigits_digits phone) as Hd.
  unfold formatPhoneToE164.
  destruct (String.length (stripNonDigits phone) =? 10)%nat eqn:H10.
  { split; [|reflexivity]. by apply isE164_plus_one. }
  apply Nat.eqb_neq in H10.
  split; [|intros ?; contradiction].
  destruct (String.length (stripNonDigits phone) =? 11)%nat eqn:H11; cbn [andb].
  - apply Nat.eqb_eq in H11.
    destruct (Js.startsWith phone "+1") eqn:Hplus.
    + assert (isE164 ("+" +:+ stripNonDigits phone) = true) as HE
        by (apply isE164_plus_digits; auto using startsWith_plus_one_digits).
      by rewrite <- (Hclean H11 eq_refl) in HE.
    + destruct (Js.startsWith (stripNonDigits phone) "1") eqn:Hone.
      * by apply isE164_plus_digits.
      * by apply isE164_plus_one.
  - by apply isE164_plus_one.
Qed.

Example formatPhoneToE164_e164_seed :
  isE164 (formatPhoneToE164 "(555) 123-4567") = true
  ∧ (String.length (stripNonDigits "(555) 123-4567") = 10%nat →
     formatPhoneToE164 "(555) 123-4567" = "+1" +:+ stripNonDigits "(555) 123-4567").
Proof.
  apply (formatPhoneToE164_e164 "(555) 123-4567").
  - vm_compute. lia.
  - vm_compute. intros H. discriminate H.
Defined.

(** A phone string with an extension holds fifteen digits, takes the
    default branch and comes out with sixteen digits. *)
Example formatPhoneToE164_extension :
  callPhoneNumber (Some "+1 555-123-4567 x1234") = "+1155512345671234"
  ∧ isE164 (callPhoneNumber (Some "+1 555-123-4567 x1234")) = false.
Proof. split; reflexivity. Qed.

(** A patient without a phone is called at "+1". *)
Example callPhoneNumber_missing :
  callPhoneNumber None = "+1" ∧ isE164 (callPhoneNumber None) = false.
Proof. split; reflexivity. Qed.

(** The branch that returns the string as it is keeps its punctuation. *)
Example formatPhoneToE164_as_is :
  formatPhoneToE164 "+1 (555) 123-4567" = "+1 (555) 123-4567"
  ∧ isE164 (formatPhoneToE164 "+1 (555) 123-4567") = false.
Proof. split; reflexivity. Qed.

(* ===================================================================== *)
(** * Properties: which schedules are due *)
(* ===================================================================== *)

Section DueSchedules.
Import Schedules ScheduleExamples.

Lemma elem_of_dueList (now : Z) (tbl : Table) (s : VAPICallSchedule) :
  s ∈ dueList now tbl
  ↔ ∃ rowId row, tbl !! rowId = Some row ∧ dueFilter now row = true
                 ∧ s = mapSchedule rowId row.
Proof.
  unfold dueList. rewrite list_elem_of_fmap. split.
  - intros ([k r] & -> & Hin).
    apply elem_of_map_to_list, map_lookup_filter_Some in Hin as [Hk Hdue].
    by exists k, r.
  - intros (k & r & Hk & Hdue & ->). exists (k, r). split; [done|].
    by apply elem_of_map_to_list, map_lookup_filter_Some.
Qed.

Lemma mapSchedule_in_dueList (now : Z) (tbl : Table) (rowId : string)
  (row : ScheduleRow) :
  tbl !! rowId = Some row →
  mapSchedule rowId row ∈ dueList now tbl ↔ dueFilter now row = true.
Proof.
  intros Hrow. rewrite elem_of_dueList. split.
  - intros (k & r & Hk & Hdue & Heq).
    assert (k = rowId) as -> by (by injection Heq).
    by replace row with r by congruence.
  - intros Hdue. by exists rowId, row.
Qed.

Lemma dueFilter_spec (now : Z) (row : ScheduleRow) :
  dueFilter now row = true
  ↔ is_active row = true ∧ type row = OneTime
    ∧ ∃ t, scheduled_time row = Some t ∧ t ≤ now.
Proof.
  unfold dueFilter. rewrite !andb_true_iff, bool_decide_eq_true.
  destruct (scheduled_time row) as [t|].
  - rewrite Z.leb_le. split.
    + intros [[? ?] ?]. eauto.
    + intros (? & ? & t' & [= <-] & ?). auto.
  - split; [intros [_ [=]] | intros (_ & _ & t & [=] & _)].
Qed.

Lemma dueFilter_oneTimeDue (now : Z) (row : ScheduleRow) :
  type row = OneTime →
  last_executed_at row = None →
  dueFilter now row = Spec.oneTimeDue now row.
Proof.
  intros Htype Hlast. unfold dueFilter, Spec.oneTimeDue.
  rewrite Htype, Hlast, !bool_decide_eq_true_2 by done.
  by rewrite !andb_true_r.
Qed.

(** The tables that the database can hold stay so under the operations of
    the repository. *)
Lemma stored_empty : stored ∅.
Proof. intros rowId row Hrow. by rewrite lookup_empty in Hrow. Qed.

Lemma stored_insert (tbl : Table) (rowId : string) (row : ScheduleRow) :
  stored tbl → last_executed_at row = None → stored (<[rowId := row]> tbl).
Proof.
  intros Hst Hrow k r. destruct (decide (k = rowId)) as [->|Hne].
  - rewrite lookup_insert_eq. by intros [= <-].
  - rewrite lookup_insert_ne by done. apply Hst.
Qed.

Lemma updateRow_stored (change : ScheduleRow → ScheduleRow) (rowId : string)
  (tbl : Table) :
  (∀ row, last_executed_at (change row) = last_executed_at row) →
  stored tbl → stored (updateRow change rowId tbl).2.
Proof.
  intros Hchange Hst. unfold updateRow.
  destruct (tbl !! rowId) as [row|] eqn:Hrow; cbn [snd]; [|done].
  apply stored_insert; [done|]. rewrite Hchange. by apply (Hst rowId).
Qed.

Lemma updateSchedule_stored (rowId : string) (updates : ScheduleUpdates)
  (tbl : Table) :
  stored tbl → stored (updateSchedule rowId updates tbl).2.
Proof.
  intros Hst. unfold updateSchedule.
  destruct (buildSchedulePatch updates) as [patch|e]; [|done].
  destruct (set_last_executed_at patch); [done|].
  destruct (set_scheduled_time patch), (set_recurrence_end_date patch);
    try done; by apply updateRow_stored.
Qed.

Lemma deactivateSchedule_stored (rowId : string) (tbl : Table) :
  stored tbl → stored (deactivateSchedule rowId tbl).2.
Proof. intros Hst. by apply updateRow_stored. Qed.

(** C1.  On a table that the database can hold, [listDueSchedules]
    returns, leaves the table alone, and reports a one-time schedule as due
    exactly when it is active, its scheduled time exists and is not after
    now, and its [lastExecutedAt] is unset: the rule of section 4.1 of the
    specification. *)
Theorem listDueSchedules_one_time (now : Z) (tbl : Table) (rowId : string)
  (row : ScheduleRow) :
  stored tbl →
  tbl !! rowId = Some row →
  type row = OneTime →
  listDueSchedules now tbl = (Ok (dueList now tbl), tbl)
  ∧ (mapSchedule rowId row ∈ dueList now tbl
     ↔ is_active row = true
       ∧ (∃ t, scheduled_time row = Some t ∧ t ≤ now)
       ∧ last_executed_at row = None)
  ∧ (mapSchedule rowId row ∈ dueList now tbl
     ↔ Spec.oneTimeDue now row = true).
Proof.
  intros Hst Hrow Htype. split; [reflexivity|].
  pose proof (Hst rowId row Hrow) as Hlast.
  rewrite (mapSchedule_in_dueList _ _ _ _ Hrow). split.
  - rewrite dueFilter_spec.
    split; [intros (? & _ & ?) | intros (? & ? & _)]; auto.
  - by rewrite (dueFilter_oneTimeDue now row Htype Hlast).
Qed.

Lemma listDueSchedules_one_time_witness :
  listDueSchedules 1717232700000 {[ "s1" := pendingRow ]}
  = (Ok (dueList 1717232700000 {[ "s1" := pendingRow ]}), {[ "s1" := pendingRow ]})
  ∧ (mapSchedule "s1" pendingRow ∈ dueList 1717232700000 {[ "s1" := pendingRow ]}
     ↔ is_active pendingRow = true
       ∧ (∃ t, scheduled_time pendingRow = Some t ∧ t ≤ 1717232700000)
       ∧ last_executed_at pendingRow = None)
  ∧ (mapSchedule "s1" pendingRow ∈ dueList 1717232700000 {[ "s1" := pendingRow ]}
     ↔ Spec.oneTimeDue 1717232700000 pendingRow = true).
Proof.
  apply (listDueSchedules_one_time 1717232700000 {[ "s1" := pendingRow ]}
           "s1" pendingRow).
  - intros k r Hk. apply lookup_singleton_Some in Hk as [_ <-]. reflexivity.
  - reflexivity.
  - reflexivity.
Defined.

(** C2 (as amended).  [listDueSchedules] never reports a recurring
    schedule as due, whatever its recurrence type, its times and now. *)
Theorem listDueSchedules_not_recurring (now : Z) (tbl : Table)
  (rowId : string) (row : ScheduleRow) :
  tbl !! rowId = Some row →
  type row = Recurring →
  mapSchedule rowId row ∉ dueList now tbl.
Proof.
  intros Hrow Htype.
  rewrite (mapSchedule_in_dueList _ _ _ _ Hrow), dueFilter_spec.
  intros (_ & Hone & _). congruence.
Qed.

Lemma listDueSchedules_not_recurring_witness :
  mapSchedule "s2" dailyRow ∉ dueList 1717232700000 {[ "s2" := dailyRow ]}.
Proof.
  apply (listDueSchedules_not_recurring 1717232700000 {[ "s2" := dailyRow ]}
           "s2" dailyRow).
  - reflexivity.
  - reflexivity.
Defined.

(** C2 (as stated) fails: at 09:05 of the same day the rule of the
    specification makes the daily schedule due, and the query does not
    report it. *)
Lemma listDueSchedules_daily_not_reported :
  Spec.dailyDue 1717232700000 dailyRow = true
  ∧ recurrence_type dailyRow = Some Daily
  ∧ dueList 1717232700000 {[ "s2" := dailyRow ]} = [].
Proof. split; [reflexivity|]. split; [reflexivity|]. by vm_compute. Qed.

End DueSchedules.

(* ===================================================================== *)
(** * Properties: the executor and the schedule records *)
(* ===================================================================== *)

Section ExecutorProperties.
Import Schedules Executor.

Variable now : Z.
Variable initiation : VAPICallSchedule → InitiationOutcome.

(** [updateSchedule] never touches [is_active]: its patch holds the
    scheduled time, the end date and the execution stamp only, so a
    schedule is deactivated through [deactivateSchedule]. *)
Lemma updateSchedule_keeps_is_active (rowId : string)
  (updates : ScheduleUpdates) (tbl : Table) (row : ScheduleRow) :
  tbl !! rowId = Some row →
  ∃ row', (updateSchedule rowId updates tbl).2 !! rowId = Some row'
          ∧ is_active row' = is_active row.
Proof.
  intros Hrow. unfold updateSchedule.
  destruct (buildSchedulePatch updates) as [patch|e]; [|by exists row].
  destruct (set_last_executed_at patch); [by exists row|].
  destruct (set_scheduled_time patch), (set_recurrence_end_date patch);
    try (by exists row);
    unfold updateRow; rewrite Hrow; cbn; rewrite lookup_insert_eq; by eexists.
Qed.

(** The update [{ lastExecutedAt: now }] names a column that the table
    does not have: the database refuses it, whatever the row. *)
Lemma updateSchedule_markExecuted (rowId : string) (tbl : Table) :
  updateSchedule rowId (markExecuted now) tbl = (Throw unknownColumnError, tbl).
Proof. reflexivity. Qed.

(** So the turn of a schedule in the loop of the executor counts it as
    failed and leaves the table as it is, also after an accepted call. *)
Lemma executeSchedule_run (acc : ExecutionSummary) (s : VAPICallSchedule)
  (tbl : Table) :
  executeSchedule now initiation acc s tbl
  = (Ok {| executed := executed acc; failedCount := S (failedCount acc) |}, tbl).
Proof. unfold executeSchedule. by destruct (initiation s). Qed.

Lemma forEachSchedule_run (due : list VAPICallSchedule) :
  ∀ (acc : ExecutionSummary) (tbl : Table),
    forEachSchedule now initiation due acc tbl
    = (Ok {| executed := executed acc;
             failedCount := (length due + failedCount acc)%nat |}, tbl).
Proof.
  induction due as [|s rest IH]; intros acc tbl.
  - by destruct acc.
  - cbn [forEachSchedule]. unfold mbind, M_bind at 1.
    rewrite executeSchedule_run, IH. cbn [executed failedCount length].
    do 3 f_equal. lia.
Qed.

Lemma dueList_ids_NoDup (tbl : Table) : NoDup (id <$> dueList now tbl).
Proof.
  unfold dueList. rewrite <- list_fmap_compose.
  apply (NoDup_fst_map_to_list (filter (λ kv, dueFilter now kv.2 = true) tbl)).
Qed.

Lemma executeDueSchedules_run (tbl : Table) :
  executeDueSchedules now initiation tbl
  = (Ok {| executed := 0; failedCount := length (dueList now tbl) |}, tbl).
Proof.
  unfold executeDueSchedules, listDueSchedules.
  unfold mbind, M_bind, getState. cbn beta iota.
  rewrite forEachSchedule_run. cbn [executed failedCount].
  by rewrite Nat.add_0_r.
Qed.

End ExecutorProperties.

Section ExecutorClaim.
Import Schedules Executor ScheduleExamples.

(** C3 (the code at the failing input).  The one-time schedule of 09:00 is
    due at 09:05 and its call is accepted: the update
    [{ lastExecutedAt: now }] of the executor is refused by the database,
    which has no such column, so the executor counts the schedule as failed
    and stores nothing; the schedule has no execution stamp, is still
    active and is due again at the next poll. *)
Theorem executeDueSchedules_stamp_refused :
  let tbl : Table := {[ "s1" := pendingRow ]} in
  let run := executeDueSchedules 1717232700000 (λ _, Accepted) tbl in
  dueList 1717232700000 tbl = [mapSchedule "s1" pendingRow]
  ∧ updateSchedule "s1" (markExecuted 1717232700000) tbl
    = (Throw unknownColumnError, tbl)
  ∧ run = (Ok {| executed := 0; failedCount := 1 |}, tbl)
  ∧ last_executed_at <$> run.2 !! "s1" = Some None
  ∧ is_active <$> run.2 !! "s1" = Some true
  ∧ dueList 1717232730000 run.2 = [mapSchedule "s1" pendingRow].
Proof.
  cbn zeta. rewrite executeDueSchedules_run.
  repeat split; by vm_compute.
Qed.

(** For every table, instant and outcome of the calls, the executor
    returns, changes no schedule and counts every due schedule as
    failed. *)
Lemma executeDueSchedules_changes_nothing (now : Z)
  (initiation : VAPICallSchedule → InitiationOutcome) (tbl : Table) :
  ∃ summary,
    executeDueSchedules now initiation tbl = (Ok summary, tbl)
    ∧ executed summary = 0%nat
    ∧ failedCount summary = length (dueList now tbl).
Proof. eexists. by rewrite executeDueSchedules_run. Qed.

End ExecutorClaim.

(* ===================================================================== *)
(** * Properties: the status lookup *)
(* ===================================================================== *)

Lemma toLowerChar_toUpperChar (c : ascii) :
  Js.toLowerChar (Js.toUpperChar c) = Js.toLowerChar c.
Proof. by destruct c as [[] [] [] [] [] [] [] []]. Qed.

Lemma toLowerChar_idemp (c : ascii) :
  Js.toLowerChar (Js.toLowerChar c) = Js.toLowerChar c.
Proof. by destruct c as [[] [] [] [] [] [] [] []]. Qed.

Lemma toLowerCase_toUpperCase (s : string) :
  Js.toLowerCase (Js.toUpperCase s) = Js.toLowerCase s.
Proof.
  unfold Js.toLowerCase, Js.toUpperCase.
  induction s as [|c r IH]; cbn [Js.mapString]; [done|].
  by rewrite toLowerChar_toUpperChar, IH.
Qed.

Lemma toLowerCase_idemp (s : string) :
  Js.toLowerCase (Js.toLowerCase s) = Js.toLowerCase s.
Proof.
  unfold Js.toLowerCase.
  induction s as [|c r IH]; cbn [Js.mapString]; [done|].
  by rewrite toLowerChar_idemp, IH.
Qed.

Lemma isOneOf_true (s : string) (labels : list string) :
  isOneOf (Some s) labels = true ↔ s ∈ labels.
Proof. apply bool_decide_eq_true. Qed.

Lemma isOneOf_false (s : string) (labels : list string) :
  isOneOf (Some s) labels = false ↔ s ∉ labels.
Proof. apply bool_decide_eq_false. Qed.

(** The lookup, label by label: the lower-cased provider state decides. *)
Lemma mapApiStatusToLocal_lookup (s : string) :
  (Js.toLowerCase s ∈ ["completed"; "finished"]
   → mapApiStatusToLocal (Some s) = completed)
  ∧ (Js.toLowerCase s ∈ ["failed"; "error"]
     → mapApiStatusToLocal (Some s) = failed)
  ∧ (Js.toLowerCase s ∈ ["in-progress"; "running"; "live"]
     → mapApiStatusToLocal (Some s) = in_progress)
  ∧ (Js.toLowerCase s
       ∉ ["completed"; "finished"; "failed"; "error";
          "in-progress"; "running"; "live"]
     → mapApiStatusToLocal (Some s) = pending).
Proof.
  unfold mapApiStatusToLocal. cbn [fmap option_fmap option_map].
  generalize (Js.toLowerCase s). intros l.
  repeat split.
  - intros H. by rewrite (proj2 (isOneOf_true _ _) H).
  - intros H. rewrite (proj2 (isOneOf_true l ["failed"; "error"]) H).
    apply elem_of_cons in H as [->|H]; [done|].
    apply list_elem_of_singleton in H as ->. done.
  - intros H.
    rewrite (proj2 (isOneOf_true l ["in-progress"; "running"; "live"]) H).
    apply elem_of_cons in H as [->|H]; [done|].
    apply elem_of_cons in H as [->|H]; [done|].
    apply list_elem_of_singleton in H as ->. done.
  - intros H.
    rewrite (proj2 (isOneOf_false l ["completed"; "finished"]))
      by (intros ?; apply H; set_solver).
    rewrite (proj2 (isOneOf_false l ["failed"; "error"]))
      by (intros ?; apply H; set_solver).
    rewrite (proj2 (isOneOf_false l ["in-progress"; "running"; "live"]))
      by (intros ?; apply H; set_solver).
    done.
Qed.

(** X1.  The status lookup does not see the case of the letters of a
    provider state written in ASCII: the state and its upper-case and
    lower-case forms map to the same status. *)
Lemma mapApiStatusToLocal_case (s : string) :
  Js.isAscii s = true →
  mapApiStatusToLocal (Some (Js.toUpperCase s)) = mapApiStatusToLocal (Some s)
  ∧ mapApiStatusToLocal (Some (Js.toLowerCase s)) = mapApiStatusToLocal (Some s).
Proof.
  intros _. unfold mapApiStatusToLocal. cbn [fmap option_fmap option_map].
  by rewrite toLowerCase_toUpperCase, toLowerCase_idemp.
Qed.

Lemma mapApiStatusToLocal_case_witness :
  mapApiStatusToLocal (Some (Js.toUpperCase "In-Progress"))
  = mapApiStatusToLocal (Some "In-Progress")
  ∧ mapApiStatusToLocal (Some (Js.toLowerCase "In-Progress"))
    = mapApiStatusToLocal (Some "In-Progress").
Proof. apply (mapApiStatusToLocal_case "In-Progress"). reflexivity. Defined.

Example mapApiStatusToLocal_examples :
  mapApiStatusToLocal (Some "queued") = pending
  ∧ mapApiStatusToLocal (Some "Completed") = completed
  ∧ mapApiStatusToLocal (Some "ERROR") = failed
  ∧ mapApiStatusToLocal (Some "In-Progress") = in_progress
  ∧ mapApiStatusToLocal (Some "ended") = pending
  ∧ mapApiStatusToLocal None = pending.
Proof. by vm_compute. Qed.

(* ===================================================================== *)
(** * Properties: call initiation *)
(* ===================================================================== *)

Section CreateCall.
Import Calls vapiService.
Context {Num : Type} `{!JsRuntime Num}.

Lemma initiate_run (env : Env Num) (params : CreateCallParams) (w : World Num)
  (a : VAPIAssistantResponse) (m : AssistantModel) :
  assistant env = HttpOk a →
  assistantModel a = Some m →
  initiate env params w
  = (match postCall env (callRequest params m) with
     | HttpOk data => Ok (acceptedPayload env params data)
     | r => Throw (initiationError r)
     end,
     logRequest (PostCall (callRequest params m)) (logRequest GetAssistant w)).
Proof.
  intros Ha Hm. unfold initiate, getAssistant, fetch. run_M.
  rewrite Ha. cbn. rewrite Hm.
  by destruct (postCall env (callRequest params m)).
Qed.

Lemma createCall_run (env : Env Num) (params : CreateCallParams) (w : World Num)
  (patient : Patient) (prompt : VAPIPrompt)
  (a : VAPIAssistantResponse) (m : AssistantModel) :
  patients w !! cp_patientId params = Some patient →
  prompts w !! cp_promptId params = Some prompt →
  assistant env = HttpOk a →
  assistantModel a = Some m →
  calls w !! newRowId env = None →
  createCall env params w
  = (match postCall env (callRequest params m) with
     | HttpOk data => Ok (mapCall (newRowId env) (acceptedRow env params data))
     | r => Throw (initiationError r)
     end,
     {| calls :=
          <[newRowId env :=
              match postCall env (callRequest params m) with
              | HttpOk data => acceptedRow env params data
              | _ => failedRow env params
              end]> (calls w);
        patients := patients w;
        prompts := prompts w;
        requests :=
          requests w ++ [GetAssistant; PostCall (callRequest params m)] |}).
Proof.
  intros Hpatient Hprompt Ha Hm Hfresh.
  unfold createCall, patientRepository.getById, vapiRepository.getPromptById.
  run_M.
  rewrite Hpatient. cbn beta iota. rewrite Hprompt. cbn beta iota.
  rewrite (initiate_run env params w a m Ha Hm).
  unfold vapiRepository.createCall.
  destruct (postCall env (callRequest params m)) as [e|st msg|data];
    cbn [initiationError]; unfold failedPayload, acceptedPayload, acceptedRow;
    cbn [buildCallPayload dateField toISOString p_startedAt p_completedAt];
    try (destruct (bool_decide _); cbn [dateField toISOString]);
    run_M; cbn; rewrite Hfresh; unfold logRequest, setCalls; cbn;
    rewrite <- ?app_assoc; try reflexivity.
Qed.

(** C6.  When the provider rejects the request for the call (a status that
    is not 2xx) or the transport throws, [createCall] throws that error to
    its caller, a call record with status [failed] and no provider call id
    is inserted, and the request for the call was sent once. *)
Theorem createCall_rejected (env : Env Num) (params : CreateCallParams)
  (w : World Num) (patient : Patient) (prompt : VAPIPrompt)
  (a : VAPIAssistantResponse) (m : AssistantModel) :
  patients w !! cp_patientId params = Some patient →
  prompts w !! cp_promptId params = Some prompt →
  assistant env = HttpOk a →
  assistantModel a = Some m →
  calls w !! newRowId env = None →
  isRejection (postCall env (callRequest params m)) →
  ∃ w' row,
    createCall env params w
    = (Throw (initiationError (postCall env (callRequest params m))), w')
    ∧ calls w' = <[newRowId env := row]> (calls w)
    ∧ row_status row = failed
    ∧ provider_call_id row = None
    ∧ status (mapCall (newRowId env) row) = failed
    ∧ providerCallId (mapCall (newRowId env) row) = None
    ∧ requests w' = requests w ++ [GetAssistant; PostCall (callRequest params m)].
Proof.
  intros Hpatient Hprompt Ha Hm Hfresh Hrej.
  rewrite (createCall_run env params w patient prompt a m) by done.
  destruct (postCall env (callRequest params m)) as [e|st msg|data];
    [| |destruct Hrej];
    (eexists; exists (failedRow env params); split; [reflexivity|]; done).
Qed.

(** C7.  When the provider accepts the request, [createCall] returns the
    inserted call: its status is the image of the provider's state under
    the lookup of [mapApiStatusToLocal] (by the lower-cased state, with
    [pending] as the default), its provider call id is the provider's id,
    and it has a start time, the instant of the call, exactly when the
    status is [in_progress]; so a state "queued" gives a [pending] call
    without a start time. *)
Theorem createCall_accepted (env : Env Num) (params : CreateCallParams)
  (w : World Num) (patient : Patient) (prompt : VAPIPrompt)
  (a : VAPIAssistantResponse) (m : AssistantModel) (data : VAPICallResponse) :
  patients w !! cp_patientId params = Some patient →
  prompts w !! cp_promptId params = Some prompt →
  assistant env = HttpOk a →
  assistantModel a = Some m →
  calls w !! newRowId env = None →
  postCall env (callRequest params m) = HttpOk data →
  ∃ call w',
    createCall env params w = (Ok call, w')
    ∧ (mapCall (newRowId env) <$> calls w' !! newRowId env) = Some call
    ∧ status call = mapApiStatusToLocal (Some (resp_status data))
    ∧ (Js.toLowerCase (resp_status data) ∈ ["completed"; "finished"]
       → status call = completed)
    ∧ (Js.toLowerCase (resp_status data) ∈ ["failed"; "error"]
       → status call = failed)
    ∧ (Js.toLowerCase (resp_status data) ∈ ["in-progress"; "running"; "live"]
       → status call = in_progress)
    ∧ (Js.toLowerCase (resp_status data)
         ∉ ["completed"; "finished"; "failed"; "error";
            "in-progress"; "running"; "live"]
       → status call = pending)
    ∧ providerCallId call = Some (resp_id data)
    ∧ (status call = in_progress → startedAt call = Some (DateAt (clock env)))
    ∧ (status call ≠ in_progress → startedAt call = None)
    ∧ (resp_status data = "queued"
       → status call = pending ∧ startedAt call = None).
Proof.
  intros Hpatient Hprompt Ha Hm Hfresh Hok.
  rewrite (createCall_run env params w patient prompt a m) by done.
  rewrite Hok.
  destruct (mapApiStatusToLocal_lookup (resp_status data))
    as (Hcompleted & Hfailed & Hprogress & Hpending).
  eexists; eexists. split; [reflexivity|].
  cbn [calls]. rewrite lookup_insert_eq.
  unfold acceptedRow. cbn.
  repeat (split; [done|]).
  split; [|split].
  - intros ->. done.
  - intros Hne. by rewrite bool_decide_eq_false_2.
  - intros ->. done.
Qed.

End CreateCall.

Section CreateCallExamples.
Import Calls vapiService CallExamples.
#[local] Existing Instance IntRuntime.runtime.

Lemma createCall_rejected_witness :
  ∃ w' row,
    createCall (providerEnv (NetworkError "Failed to fetch")) params1 world1
    = (Throw "Failed to fetch", w')
    ∧ calls w' = <[ "call-1" := row ]> (calls world1)
    ∧ row_status row = failed
    ∧ provider_call_id row = None
    ∧ status (mapCall "call-1" row) = failed
    ∧ providerCallId (mapCall "call-1" row) = None
    ∧ requests w'
      = requests world1
        ++ [GetAssistant;
            PostCall (callRequest params1
                        {| provider := Some "openai"; model := None |})].
Proof.
  apply (createCall_rejected (providerEnv (NetworkError "Failed to fetch"))
           params1 world1 patient1 prompt1 assistant1
           {| provider := Some "openai"; model := None |});
    first [reflexivity | exact I].
Defined.

Lemma createCall_accepted_witness :
  ∃ call w',
    createCall (providerEnv (HttpOk queued)) params1 world1 = (Ok call, w')
    ∧ status call = pending
    ∧ providerCallId call = Some "prov-123"
    ∧ startedAt call = None.
Proof.
  destruct (createCall_accepted (providerEnv (HttpOk queued)) params1 world1
              patient1 prompt1 assistant1
              {| provider := Some "openai"; model := None |} queued
              eq_refl eq_refl eq_refl eq_refl eq_refl eq_refl)
    as (call & w' & Hrun & _ & _ & _ & _ & _ & _ & Hid & _ & _ & Hqueued).
  exists call, w'.
  destruct (Hqueued eq_refl) as [Hstatus Hstarted].
  exact (conj Hrun (conj Hstatus (conj Hid Hstarted))).
Defined.

(** The two scenarios of the specification, computed. *)
Example createCall_queued :
  createCall (providerEnv (HttpOk queued)) params1 world1
  = (Ok {| id := "call-1"; patientId := "patient-1"; promptId := "prompt-1";
           scheduleId := None; phoneNumber := "+15551234567";
           providerCallId := Some "prov-123"; status := pending;
           startedAt := None; completedAt := None; duration := None;
           transcript := None; transcriptEntries := None;
           artifacts := None; analysis := None;
           createdAt := DateAt 1717232700250 |},
     {| calls := {[ "call-1" := acceptedRow (providerEnv (HttpOk queued)) params1 queued ]};
        patients := patients world1;
        prompts := prompts world1;
        requests :=
          [GetAssistant;
           PostCall {| customerNumber := "+15551234567";
                       modelProvider := "openai";
                       modelName := "gpt-4o-mini" |}] |}).
Proof. by vm_compute. Qed.

Example createCall_rejected_402 :
  fst (createCall (providerEnv (HttpError 402 None)) params1 world1)
  = Throw "API call failed with status 402"
  ∧ fst (createCall (providerEnv (HttpError 400 (Some "Invalid number"))) params1 world1)
    = Throw "Invalid number".
Proof. by vm_compute. Qed.

End CreateCallExamples.

(* ===================================================================== *)
(** * Properties: the number that is called *)
(* ===================================================================== *)

Section CallNow.
Import Calls vapiService.
Context {Num : Type} `{!JsRuntime Num}.

Lemma orString_empty (s : string) : Js.orString s "" = s.
Proof. by destruct s. Qed.

Lemma handleCallNow_run (env : Env Num) (patientId promptId : string)
  (selected patient : Patient) (prompt : VAPIPrompt) (w : World Num)
  (a : VAPIAssistantResponse) (m : AssistantModel) :
  patients w !! patientId = Some patient →
  prompts w !! promptId = Some prompt →
  assistant env = HttpOk a →
  assistantModel a = Some m →
  calls w !! newRowId env = None →
  ∃ w', handleCallNow env (Some (patientId, selected)) promptId w = (Ok tt, w')
        ∧ requests w'
          = requests w
            ++ [GetAssistant;
                PostCall
                  (callRequest {| cp_patientId := patientId;
                                  cp_promptId := promptId;
                                  cp_phoneNumber := callPhoneNumber (phone selected) |}
                               m)].
Proof.
  intros Hpatient Hprompt Ha Hm Hfresh.
  unfold handleCallNow. run_M.
  rewrite (createCall_run env _ w patient prompt a m) by done.
  destruct (postCall env _); eexists; (split; [reflexivity|done]).
Qed.

(** C10 (as amended).  When the phone string of the selected patient holds
    one to thirteen digits and, in the case where it starts with "+1" and
    holds eleven digits, is nothing but the plus sign and those digits,
    the customer number of the request for the call has the E.164 shape;
    and a phone string with exactly ten digits is called at "+1" followed
    by those ten digits. *)
Theorem handleCallNow_customer_number (env : Env Num)
  (patientId promptId number : string) (selected patient : Patient)
  (prompt : VAPIPrompt) (w : World Num)
  (a : VAPIAssistantResponse) (m : AssistantModel) :
  patients w !! patientId = Some patient →
  prompts w !! promptId = Some prompt →
  assistant env = HttpOk a →
  assistantModel a = Some m →
  calls w !! newRowId env = None →
  phone selected = Some number →
  (1 ≤ String.length (stripNonDigits number) ≤ 13)%nat →
  (String.length (stripNonDigits number) = 11%nat →
   Js.startsWith number "+1" = true →
   number = "+" +:+ stripNonDigits number) →
  ∃ w' request,
    handleCallNow env (Some (patientId, selected)) promptId w = (Ok tt, w')
    ∧ requests w' = requests w ++ [GetAssistant; PostCall request]
    ∧ customerNumber request = formatPhoneToE164 number
    ∧ isE164 (customerNumber request) = true
    ∧ (String.length (stripNonDigits number) = 10%nat →
       customerNumber request = "+1" +:+ stripNonDigits number).
Proof.
  intros Hpatient Hprompt Ha Hm Hfresh Hphone Hlen Hclean.
  destruct (handleCallNow_run env patientId promptId selected patient prompt
              w a m Hpatient Hprompt Ha Hm Hfresh) as (w' & Hrun & Hreq).
  destruct (formatPhoneToE164_e164 number Hlen Hclean) as [He164 Hten].
  exists w'. eexists. split; [exact Hrun|]. split; [exact Hreq|].
  cbn [callRequest customerNumber cp_phoneNumber].
  unfold callPhoneNumber. rewrite Hphone. cbn [default].
  rewrite orString_empty. done.
Qed.

End CallNow.

Section CallNowExamples.
Import Calls vapiService CallExamples.
#[local] Existing Instance IntRuntime.runtime.

Lemma handleCallNow_customer_number_witness :
  ∃ w' request,
    handleCallNow (providerEnv (HttpOk queued)) (Some ("patient-1", patient1))
      "prompt-1" world1
    = (Ok tt, w')
    ∧ requests w' = requests world1 ++ [GetAssistant; PostCall request]
    ∧ customerNumber request = "+15551234567".
Proof.
  destruct (handleCallNow_customer_number (providerEnv (HttpOk queued))
              "patient-1" "prompt-1" "(555) 123-4567" patient1 patient1 prompt1
              world1 assistant1 {| provider := Some "openai"; model := None |}
              eq_refl eq_refl eq_refl eq_refl eq_refl eq_refl)
    as (w' & request & Hrun & Hreq & _ & _ & Hten).
  - vm_compute. lia.
  - vm_compute. intros H. discriminate H.
  - exists w', request. split; [exact Hrun|]. split; [exact Hreq|].
    exact (Hten eq_refl).
Defined.

(** C10 (as stated) fails: a phone string with an extension holds fifteen
    digits, takes the default branch of [formatPhoneToE164], and the
    request for the call carries a number of sixteen digits. *)
Lemma handleCallNow_not_e164 :
  (handleCallNow (providerEnv (HttpOk queued)) (Some ("patient-2", patient2))
     "prompt-1" world2).1 = Ok tt
  ∧ requests (handleCallNow (providerEnv (HttpOk queued))
                (Some ("patient-2", patient2)) "prompt-1" world2).2
    = [GetAssistant;
       PostCall {| customerNumber := "+1155512345671234";
                   modelProvider := "openai"; modelName := "gpt-4o-mini" |}]
  ∧ isE164 "+1155512345671234" = false.
Proof. by vm_compute. Qed.

End CallNowExamples.

(* ===================================================================== *)
(** * Properties: reconciliation with the provider *)
(* ===================================================================== *)

Section Refresh.
Import Calls vapiService.
Context {Num : Type} `{!JsRuntime Num}.

Lemma refreshCallDetails_run (env : Env Num) (callId : string) (w : World Num)
  (row : CallRow Num) (pid : string) :
  calls w !! callId = Some row →
  provider_call_id row = Some pid →
  Js.nonEmpty pid = true →
  refreshCallDetails env callId w
  = match getCall env pid with
    | NetworkError e => (Throw e, logRequest (GetCall pid) w)
    | HttpError st msg =>
        (Throw (rejectionMessage "Failed to fetch call details with status " st msg),
         logRequest (GetCall pid) w)
    | HttpOk data =>
        match refreshRow callId row data with
        | Throw e => (Throw e, logRequest (GetCall pid) w)
        | Ok row' =>
            (Ok (mapCall callId row'),
             setCalls (<[callId := row']> (calls w)) (logRequest (GetCall pid) w))
        end
    end.
Proof.
  intros Hrow Hpid Hne.
  unfold refreshCallDetails, vapiRepository.getCallById, fetch. run_M.
  rewrite Hrow. cbn [fmap option_fmap option_map mapCall providerCallId].
  rewrite Hpid, Hne. cbn [negb].
  destruct (getCall env pid) as [e|st msg|data]; [done|done|].
  unfold vapiRepository.updateCall, refreshRow.
  destruct (buildCallPayload _) as [patch|e]; run_M; [|done].
  destruct (columnError patch); run_M; [done|].
  cbn [calls logRequest]. by rewrite Hrow.
Qed.

(** The row that a refresh stores is the stored row under the patch of
    [buildCallPayload]. *)
Lemma refreshRow_patched (callId : string) (row row' : CallRow Num)
  (data : VapiCallDetailsResponse Num) :
  refreshRow callId row data = Ok row' →
  ∃ patch,
    buildCallPayload (refreshPayload (mapCall callId row) data) = Ok patch
    ∧ row' = patchedRow patch row.
Proof.
  unfold refreshRow.
  destruct (buildCallPayload _) as [patch|e]; [|done].
  destruct (columnError patch); [done|].
  intros [= <-]. by exists patch.
Qed.

Lemma refreshCallDetails_not_found (env : Env Num) (callId : string)
  (w : World Num) :
  calls w !! callId = None →
  refreshCallDetails env callId w = (Throw "Call not found", w).
Proof.
  intros Hnone. unfold refreshCallDetails, vapiRepository.getCallById.
  run_M. by rewrite Hnone.
Qed.

(** A provider call id that is missing, or the empty string, stops the
    refresh before any request. *)
Lemma refreshCallDetails_missing_reference (env : Env Num) (callId : string)
  (w : World Num) (row : CallRow Num) :
  calls w !! callId = Some row →
  provider_call_id row = None ∨ provider_call_id row = Some "" →
  refreshCallDetails env callId w
  = (Throw "This call does not yet have a Vapi call ID to sync.", w).
Proof.
  intros Hrow Hpid. unfold refreshCallDetails, vapiRepository.getCallById.
  run_M. rewrite Hrow.
  cbn [fmap option_fmap option_map mapCall providerCallId].
  by destruct Hpid as [-> | ->].
Qed.

(** C8.  [refreshCallDetails] throws "Call not found" when no call has the
    id, and the error of the missing provider reference when the call has
    no provider call id; in both cases the world is as before: no row has
    changed and no request was sent. *)
Theorem refreshCallDetails_preconditions (env : Env Num) (callId : string)
  (w : World Num) :
  (calls w !! callId = None →
   refreshCallDetails env callId w = (Throw "Call not found", w))
  ∧ (∀ row, calls w !! callId = Some row →
            provider_call_id row = None →
            refreshCallDetails env callId w
            = (Throw "This call does not yet have a Vapi call ID to sync.", w)).
Proof.
  split.
  - apply refreshCallDetails_not_found.
  - intros row Hrow Hpid.
    apply (refreshCallDetails_missing_reference env callId w row Hrow).
    by left.
Qed.

Lemma coalesce_idemp {A} (a b : option A) : a ?: (a ?: b) = a ?: b.
Proof. by destruct a. Qed.

Lemma coalesce_Some {A} (a b : option A) (v : A) : a = Some v → a ?: b = Some v.
Proof. by intros ->. Qed.

Lemma coalesce_None {A} (a b : option A) : a = None → a ?: b = b.
Proof. by intros ->. Qed.

Lemma mergeAnalysis_idemp (existing incoming : option (VAPICallAnalysis Num)) :
  mergeAnalysis (mergeAnalysis existing incoming) incoming
  = mergeAnalysis existing incoming.
Proof.
  destruct existing as [e|], incoming as [i|]; cbn; try done;
    by rewrite ?coalesce_idemp.
Qed.


Lemma dateField_idemp (incoming : option string) (local stored : option Z) :
  dateField (Present (incomingDate incoming (DateAt <$> local)))
  = Ok (Some stored) →
  dateField (Present (incomingDate incoming (DateAt <$> stored)))
  = Ok (Some stored).
Proof.
  unfold incomingDate.
  destruct incoming as [s|]; [destruct (Js.nonEmpty s)|].
  - done.
  - destruct local; cbn; intros [= <-]; done.
  - destruct local; cbn; intros [= <-]; done.
Qed.

Lemma dateField_present (d : option JsDate) :
  (∃ stored, dateField (Present d) = Ok (Some stored))
  ∨ dateField (Present d) = Throw "Invalid time value".
Proof. destruct d as [[ms|]|]; cbn; eauto. Qed.

(** A second refresh with the same snapshot stores the same row. *)
Lemma refreshRow_idemp (callId : string) (row row' : CallRow Num)
  (data : VapiCallDetailsResponse Num) :
  refreshRow callId row data = Ok row' →
  refreshRow callId row' data = Ok row'
  ∧ provider_call_id row' = provider_call_id row.
Proof.
  unfold refreshRow, buildCallPayload, refreshPayload.
  cbn [p_startedAt p_completedAt mapCall startedAt completedAt].
  destruct (dateField_present
              (incomingDate (d_startedAt data) (DateAt <$> started_at row)))
    as [[st Hst]|Hst]; rewrite Hst; [|done].
  destruct (dateField_present
              (incomingDate (d_completedAt data) (DateAt <$> completed_at row)))
    as [[ct Hct]|Hct]; rewrite Hct; [|done].
  unfold columnError.
  cbn [b_duration p_duration nullableField mapCall duration].
  assert (∀ x, d_duration data ?: row_duration row = x → d_duration data ?: x = x)
    as Hsame by (intros x <-; apply coalesce_idemp).
  destruct (d_duration data ?: row_duration row) as [n|] eqn:Hdur;
    [destruct (integerError n) eqn:Hfit; [done|]|];
    intros [= <-]; cbn -[dateField mergeAnalysis incomingDate Js.coalesce];
    rewrite (dateField_idemp _ _ _ Hst), (dateField_idemp _ _ _ Hct);
    cbn -[mergeAnalysis Js.coalesce];
    rewrite (Hsame _ eq_refl), !coalesce_idemp, mergeAnalysis_idemp, ?Hfit;
    done.
Qed.

(** C4.  Running [refreshCallDetails] a second time against the same
    provider answers leaves the table of calls as the first run left it and
    returns what the first run returned. *)
Theorem refreshCallDetails_idempotent (env : Env Num) (callId : string)
  (w : World Num) :
  let first := refreshCallDetails env callId w in
  let second := refreshCallDetails env callId first.2 in
  calls second.2 = calls first.2 ∧ second.1 = first.1.
Proof.
  cbn zeta.
  destruct (calls w !! callId) as [row|] eqn:Hrow.
  2: { rewrite (refreshCallDetails_not_found env callId w Hrow). cbn [fst snd].
       by rewrite (refreshCallDetails_not_found env callId w Hrow). }
  destruct (provider_call_id row) as [pid|] eqn:Hpid.
  2: { assert (provider_call_id row = None ∨ provider_call_id row = Some "")
         as Hmissing by (by left).
       rewrite (refreshCallDetails_missing_reference env callId w row Hrow Hmissing).
       cbn [fst snd].
       by rewrite (refreshCallDetails_missing_reference env callId w row Hrow Hmissing). }
  destruct (Js.nonEmpty pid) eqn:Hne.
  2: { assert (provider_call_id row = None ∨ provider_call_id row = Some "")
         as Hmissing by (destruct pid; [by right|done]).
       rewrite (refreshCallDetails_missing_reference env callId w row Hrow Hmissing).
       cbn [fst snd].
       by rewrite (refreshCallDetails_missing_reference env callId w row Hrow Hmissing). }
  rewrite (refreshCallDetails_run env callId w row pid Hrow Hpid Hne).
  assert (∀ w0 : World Num, calls (logRequest (GetCall pid) w0) = calls w0)
    as Hlog by done.
  destruct (getCall env pid) as [e|st msg|data] eqn:Hget; cbn [fst snd].
  - rewrite (refreshCallDetails_run env callId _ row pid) by done.
    by rewrite Hget.
  - rewrite (refreshCallDetails_run env callId _ row pid) by done.
    by rewrite Hget.
  - destruct (refreshRow callId row data) as [row'|e] eqn:Hfirst; cbn [fst snd].
    + destruct (refreshRow_idemp callId row row' data Hfirst) as [Hsecond Hsame].
      rewrite (refreshCallDetails_run env callId _ row' pid);
        [|by cbn; rewrite lookup_insert_eq|congruence|done].
      rewrite Hget, Hsecond. cbn. by rewrite insert_insert_eq.
    + rewrite (refreshCallDetails_run env callId _ row pid) by done.
      by rewrite Hget, Hfirst.
Qed.

Lemma incomingInstant_spec (incoming : option string) (local : option Z) :
  (∀ s ms, incoming = Some s → Js.nonEmpty s = true → newDate s = DateAt ms →
           incomingInstant incoming local = Some ms)
  ∧ (incoming = None ∨ incoming = Some "" → incomingInstant incoming local = local).
Proof.
  unfold incomingInstant, incomingDate. split.
  - intros s ms -> Hne Hdate. by rewrite Hne, Hdate.
  - intros [->| ->]; by destruct local.
Qed.

Lemma mergeAnalysis_fields (existing incoming : option (VAPICallAnalysis Num)) :
  mergeAnalysis existing incoming ≫= summary
  = (incoming ≫= summary) ?: (existing ≫= summary)
  ∧ mergeAnalysis existing incoming ≫= structuredData
    = (incoming ≫= structuredData) ?: (existing ≫= structuredData)
  ∧ mergeAnalysis existing incoming ≫= successEvaluation
    = (incoming ≫= successEvaluation) ?: (existing ≫= successEvaluation).
Proof. by destruct existing, incoming. Qed.

Lemma mapApiAnalysis_fields (incoming : option (VapiCallAnalysisResponse Num)) :
  mapApiAnalysis incoming ≫= summary = incoming ≫= r_summary
  ∧ mapApiAnalysis incoming ≫= structuredData = incoming ≫= r_structuredData
  ∧ mapApiAnalysis incoming ≫= successEvaluation
    = incoming ≫= r_successEvaluation.
Proof. by destruct incoming. Qed.





(** A snapshot without a recording keeps the stored recording, whatever the
    provider answers and whether or not the refresh succeeds. *)
Lemma refreshCallDetails_keeps_recording (env : Env Num) (callId : string)
  (w : World Num) (row : CallRow Num) (url : string) :
  calls w !! callId = Some row →
  row_artifacts row ≫= recording = Some url →
  (∀ pid data, getCall env pid = HttpOk data →
               d_artifact data ≫= a_recording = None) →
  ∃ row', calls (refreshCallDetails env callId w).2 !! callId = Some row'
          ∧ row_artifacts row' ≫= recording = Some url.
Proof.
  intros Hrow Hurl Homits.
  destruct (provider_call_id row) as [pid|] eqn:Hpid.
  2: { rewrite (refreshCallDetails_missing_reference env callId w row Hrow)
         by (by left).
       by exists row. }
  destruct (Js.nonEmpty pid) eqn:Hne.
  2: { rewrite (refreshCallDetails_missing_reference env callId w row Hrow)
         by (destruct pid; [by right|done]).
       by exists row. }
  rewrite (refreshCallDetails_run env callId w row pid Hrow Hpid Hne).
  destruct (getCall env pid) as [e|st msg|data] eqn:Hget;
    [by exists row|by exists row|].
  destruct (refreshRow callId row data) as [row'|e] eqn:Hrefresh;
    [|by exists row].
  exists row'. cbn. rewrite lookup_insert_eq. split; [done|].
  apply refreshRow_patched in Hrefresh as (patch & Hpatch & ->).
  revert Hpatch. unfold buildCallPayload.
  destruct (dateField _); [|done]. destruct (dateField _); [|done].
  intros [= <-]. cbn -[Js.coalesce].
  by rewrite (Homits pid data Hget).
Qed.

End Refresh.

(* ===================================================================== *)
(** * Properties: transcripts *)
(* ===================================================================== *)

Section TranscriptProperties.
Import Calls vapiService.
Context {Num : Type} `{!JsRuntime Num}.







End TranscriptProperties.

(* ===================================================================== *)
(** * The claims on a finished call *)
(* ===================================================================== *)

Section RefreshExamples.
Import Calls vapiService CallExamples.
#[local] Existing Instance IntRuntime.runtime.

Lemma refreshCallDetails_preconditions_witness :
  refreshCallDetails refreshEnv "call-9" world3 = (Throw "Call not found", world3)
  ∧ refreshCallDetails refreshEnv "call-2" world3
    = (Throw "This call does not yet have a Vapi call ID to sync.", world3).
Proof.
  destruct (refreshCallDetails_preconditions refreshEnv "call-9" world3)
    as [Hnone _].
  destruct (refreshCallDetails_preconditions refreshEnv "call-2" world3)
    as [_ Hmissing].
  split.
  - apply Hnone. reflexivity.
  - apply (Hmissing unsyncedRow); reflexivity.
Defined.



(** A duration of more than 32 bits is refused by the column
    [duration integer]: the refresh throws the error of the database and
    the call is stored as before. *)
Example refreshCallDetails_duration_refused :
  refreshCallDetails EdgeExamples.overflowEnv "call-1" world3
  = (Throw "value out of range for type integer",
     logRequest (GetCall "prov-123") world3).
Proof. by vm_compute. Qed.

(** The refresh of the finished call, computed: three entries are kept,
    the transcript is their formatted text, the recording is still there. *)
Example refreshCallDetails_finished_call :
  refreshCallDetails refreshEnv "call-1" world3
  = (Ok (mapCall "call-1" refreshedRow),
     {| calls := {[ "call-1" := refreshedRow; "call-2" := unsyncedRow ]};
        patients := patients world3;
        prompts := prompts world3;
        requests := [GetCall "prov-123"] |}).
Proof. by vm_compute. Qed.

Lemma refreshCallDetails_idempotent_witness :
  calls (refreshCallDetails refreshEnv "call-1"
           (refreshCallDetails refreshEnv "call-1" world3).2).2
  = calls (refreshCallDetails refreshEnv "call-1" world3).2
  ∧ (refreshCallDetails refreshEnv "call-1"
       (refreshCallDetails refreshEnv "call-1" world3).2).1
    = (refreshCallDetails refreshEnv "call-1" world3).1.
Proof. exact (refreshCallDetails_idempotent refreshEnv "call-1" world3). Defined.

Example refreshCallDetails_second_run :
  calls (refreshCallDetails refreshEnv "call-1"
           (refreshCallDetails refreshEnv "call-1" world3).2).2
  = {[ "call-1" := refreshedRow; "call-2" := unsyncedRow ]}.
Proof. by vm_compute. Qed.


Example normalizeTranscriptEntries_messages :
  normalizeTranscriptEntries messages1 = Some entries1
  ∧ normalizeTranscriptEntries (JObject [("messages", messages1)]) = Some entries1
  ∧ normalizeTranscriptEntries (JString "AI: Hello Ada.") = None
  ∧ normalizeTranscriptEntries (JArray [JNull; JString ""; JNumber 7]) = None.
Proof. by vm_compute. Qed.

Example extractTextFromAny_nested :
  extractTextFromAny
    (JArray [JObject [("type", JString "text"); ("text", JString "Take care")];
             JNull; JString " now "])
  = "Take care  now".
Proof. by vm_compute. Qed.

End RefreshExamples.

(* ===================================================================== *)
(** * Properties: call initiation, the other outcomes *)
(* ===================================================================== *)

Section CreateCallEdges.
Import Calls vapiService.
Context {Num : Type} `{!JsRuntime Num}.

(** X2.  [createCall] for a patient or a prompt that does not exist throws
    "Patient or prompt not found" and leaves the world as it was: no request
    is sent and no call is recorded. *)
Theorem createCall_not_found (env : Env Num) (params : CreateCallParams)
  (w : World Num) :
  patients w !! cp_patientId params = None
  ∨ prompts w !! cp_promptId params = None →
  createCall env params w = (Throw "Patient or prompt not found", w).
Proof.
  intros Hmissing.
  unfold createCall, patientRepository.getById, vapiRepository.getPromptById.
  run_M.
  destruct Hmissing as [-> | ->]; [done|].
  by destruct (patients w !! cp_patientId params).
Qed.

(** X3.  When the assistant cannot be fetched (the transport throws, the
    provider answers with an error, or the assistant has no model),
    [createCall] throws "Failed to fetch assistant configuration" and
    records the call as failed; only the request for the assistant was
    sent, the request for the call was not. *)
Theorem createCall_no_assistant (env : Env Num) (params : CreateCallParams)
  (w : World Num) (patient : Patient) (prompt : VAPIPrompt) :
  patients w !! cp_patientId params = Some patient →
  prompts w !! cp_promptId params = Some prompt →
  (∀ a, assistant env = HttpOk a → assistantModel a = None) →
  calls w !! newRowId env = None →
  createCall env params w
  = (Throw "Failed to fetch assistant configuration",
     {| calls := <[newRowId env := failedRow env params]> (calls w);
        patients := patients w;
        prompts := prompts w;
        requests := requests w ++ [GetAssistant] |}).
Proof.
  intros Hpatient Hprompt Hassistant Hfresh.
  unfold createCall, patientRepository.getById, vapiRepository.getPromptById.
  run_M.
  rewrite Hpatient. cbn beta iota. rewrite Hprompt. cbn beta iota.
  assert (initiate env params w
          = (Throw "Failed to fetch assistant configuration",
             logRequest GetAssistant w)) as ->.
  { unfold initiate, getAssistant, fetch. run_M.
    destruct (assistant env) as [e|st msg|a] eqn:Ha; cbn; [done|done|].
    by rewrite (Hassistant a eq_refl). }
  unfold vapiRepository.createCall, failedPayload.
  cbn [buildCallPayload dateField p_startedAt p_completedAt].
  run_M. cbn. by rewrite Hfresh.
Qed.

End CreateCallEdges.

Section CreateCallFrame.
Import Calls vapiService.
Context {Num : Type} `{!JsRuntime Num}.

(** The insert of the repository: it throws and changes nothing, or it
    adds the row under the new key. *)
Lemma repository_createCall_run (env : Env Num) (payload : CallPayload Num)
  (w : World Num) :
  vapiRepository.createCall env payload w
  = match buildCallPayload payload with
    | Throw e => (Throw e, w)
    | Ok body =>
        match columnError body with
        | Some e => (Throw e, w)
        | None =>
            match insertedRow (dbClock env) body with
            | None => (Throw notNullError, w)
            | Some row =>
                match calls w !! newRowId env with
                | Some _ => (Throw duplicateKeyError, w)
                | None =>
                    (Ok (mapCall (newRowId env) row),
                     setCalls (<[newRowId env := row]> (calls w)) w)
                end
            end
        end
    end.
Proof.
  unfold vapiRepository.createCall.
  destruct (buildCallPayload payload) as [body|e]; [|done].
  destruct (columnError body); [done|].
  run_M. destruct (insertedRow (dbClock env) body) as [row|]; [|done].
  by destruct (calls w !! newRowId env).
Qed.

Lemma repository_createCall_failed (env : Env Num) (params : CreateCallParams)
  (w : World Num) :
  vapiRepository.createCall env (failedPayload params) w
  = match calls w !! newRowId env with
    | Some _ => (Throw duplicateKeyError, w)
    | None =>
        (Ok (mapCall (newRowId env) (failedRow env params)),
         setCalls (<[newRowId env := failedRow env params]> (calls w)) w)
    end.
Proof. by rewrite repository_createCall_run. Qed.

Lemma repository_createCall_accepted (env : Env Num) (params : CreateCallParams)
  (data : VAPICallResponse) (w : World Num) :
  vapiRepository.createCall env (acceptedPayload env params data) w
  = match calls w !! newRowId env with
    | Some _ => (Throw duplicateKeyError, w)
    | None =>
        (Ok (mapCall (newRowId env) (acceptedRow env params data)),
         setCalls (<[newRowId env := acceptedRow env params data]> (calls w)) w)
    end.
Proof.
  rewrite repository_createCall_run.
  unfold acceptedPayload, acceptedRow.
  cbn [buildCallPayload dateField toISOString p_startedAt p_completedAt].
  by destruct (bool_decide _).
Qed.

(** What the [try] block comes to: one or two requests were sent, and it
    ends in the payload of an accepted call or in an error. *)
Lemma initiate_cases (env : Env Num) (params : CreateCallParams) (w : World Num) :
  ∃ result sent,
    initiate env params w
    = (result,
       {| calls := calls w; patients := patients w; prompts := prompts w;
          requests := requests w ++ sent |})
    ∧ (sent = [GetAssistant] ∨ ∃ r, sent = [GetAssistant; PostCall r])
    ∧ ((∃ e, result = Throw e)
       ∨ ∃ data, result = Ok (acceptedPayload env params data)).
Proof.
  unfold initiate, getAssistant, fetch. run_M.
  destruct (assistant env) as [e|st msg|a]; cbn.
  - eexists; exists [GetAssistant]. split; [reflexivity|]. eauto.
  - eexists; exists [GetAssistant]. split; [reflexivity|]. eauto.
  - destruct (assistantModel a) as [m|]; cbn.
    + destruct (postCall env (callRequest params m)) as [e|st msg|data];
        eexists; exists [GetAssistant; PostCall (callRequest params m)];
        (split; [unfold logRequest; cbn; by rewrite <- app_assoc|]); eauto 10.
    + eexists; exists [GetAssistant]. split; [reflexivity|]. eauto.
Qed.

(** The rows that [createCall] can leave behind. *)
Lemma createCall_cases (env : Env Num) (params : CreateCallParams)
  (w : World Num) :
  ∃ result sent store,
    createCall env params w
    = (result,
       {| calls := store; patients := patients w; prompts := prompts w;
          requests := requests w ++ sent |})
    ∧ (sent = [] ∨ sent = [GetAssistant] ∨ ∃ r, sent = [GetAssistant; PostCall r])
    ∧ (store = calls w ∧ (∃ e, result = Throw e)
       ∨ calls w !! newRowId env = None
         ∧ store = <[newRowId env := failedRow env params]> (calls w)
         ∧ (∃ e, result = Throw e)
       ∨ calls w !! newRowId env = None
         ∧ ∃ data,
             store = <[newRowId env := acceptedRow env params data]> (calls w)
             ∧ result = Ok (mapCall (newRowId env) (acceptedRow env params data))).
Proof.
  unfold createCall, patientRepository.getById, vapiRepository.getPromptById.
  run_M.
  assert (∀ e, ∃ result sent store,
            (Throw e : Result (VAPICall Num), w)
            = (result,
               {| calls := store; patients := patients w; prompts := prompts w;
                  requests := requests w ++ sent |})
            ∧ (sent = [] ∨ sent = [GetAssistant]
               ∨ ∃ r, sent = [GetAssistant; PostCall r])
            ∧ (store = calls w ∧ (∃ e, result = Throw e)
               ∨ calls w !! newRowId env = None
                 ∧ store = <[newRowId env := failedRow env params]> (calls w)
                 ∧ (∃ e, result = Throw e)
               ∨ calls w !! newRowId env = None
                 ∧ ∃ data,
                     store = <[newRowId env := acceptedRow env params data]> (calls w)
                     ∧ result
                       = Ok (mapCall (newRowId env) (acceptedRow env params data))))
    as Hnone.
  { intros e. exists (Throw e), [], (calls w). rewrite app_nil_r.
    destruct w; cbn. eauto 10. }
  destruct (patients w !! cp_patientId params) as [patient|]; cbn beta iota;
    [|apply Hnone].
  destruct (prompts w !! cp_promptId params) as [prompt|]; cbn beta iota;
    [|apply Hnone].
  clear Hnone.
  destruct (initiate_cases env params w) as (r & sent & -> & Hsent & Hr).
  assert (sent = [] ∨ sent = [GetAssistant]
          ∨ ∃ r, sent = [GetAssistant; PostCall r]) as Hsent'
    by (destruct Hsent; auto).
  destruct Hr as [[e ->]|[data ->]].
  - rewrite repository_createCall_failed. cbn [calls].
    destruct (calls w !! newRowId env) as [old|] eqn:Hold.
    + eexists; exists sent; eexists. split; [reflexivity|]. eauto 10.
    + cbn. eexists; exists sent; eexists. split; [reflexivity|]. eauto 10.
  - rewrite repository_createCall_accepted. cbn [calls].
    destruct (calls w !! newRowId env) as [old|] eqn:Hold.
    + eexists; exists sent; eexists. split; [reflexivity|]. eauto 10.
    + cbn. eexists; exists sent; eexists. split; [reflexivity|]. eauto 10.
Qed.


(** With the patient and the prompt in place and a new key, [createCall]
    always records the call: as failed when it throws, as accepted when it
    returns. *)
Lemma createCall_found (env : Env Num) (params : CreateCallParams)
  (w : World Num) (patient : Patient) (prompt : VAPIPrompt) :
  patients w !! cp_patientId params = Some patient →
  prompts w !! cp_promptId params = Some prompt →
  calls w !! newRowId env = None →
  ∃ sent,
    (sent = [GetAssistant] ∨ ∃ r, sent = [GetAssistant; PostCall r])
    ∧ ((∃ e, createCall env params w
             = (Throw e,
                {| calls := <[newRowId env := failedRow env params]> (calls w);
                   patients := patients w; prompts := prompts w;
                   requests := requests w ++ sent |}))
       ∨ (∃ data,
             createCall env params w
             = (Ok (mapCall (newRowId env) (acceptedRow env params data)),
                {| calls :=
                     <[newRowId env := acceptedRow env params data]> (calls w);
                   patients := patients w; prompts := prompts w;
                   requests := requests w ++ sent |}))).
Proof.
  intros Hpatient Hprompt Hfresh.
  unfold createCall, patientRepository.getById, vapiRepository.getPromptById.
  run_M.
  rewrite Hpatient. cbn beta iota. rewrite Hprompt. cbn beta iota.
  destruct (initiate_cases env params w) as (r & sent & -> & Hsent & Hr).
  exists sent. split; [exact Hsent|].
  destruct Hr as [[e ->]|[data ->]].
  - rewrite repository_createCall_failed. cbn [calls]. rewrite Hfresh.
    left. by exists e.
  - rewrite repository_createCall_accepted. cbn [calls]. rewrite Hfresh.
    right. by exists data.
Qed.

(** X4.  Whatever the provider answers, [createCall] leaves the patients
    and the prompts alone, changes no call that is already recorded, adds at
    most the one record under the new key, and sends at most two requests:
    the one for the assistant and then the one for the call. *)
Theorem createCall_frame (env : Env Num) (params : CreateCallParams)
  (w : World Num) :
  let w' := (createCall env params w).2 in
  patients w' = patients w
  ∧ prompts w' = prompts w
  ∧ (∀ k, k ≠ newRowId env → calls w' !! k = calls w !! k)
  ∧ (∀ row, calls w !! newRowId env = Some row →
            calls w' !! newRowId env = Some row)
  ∧ (∃ sent, requests w' = requests w ++ sent
             ∧ (sent = [] ∨ sent = [GetAssistant]
                ∨ ∃ r, sent = [GetAssistant; PostCall r])).
Proof.
  cbn zeta.
  destruct (createCall_cases env params w)
    as (result & sent & store & -> & Hsent & Hstore).
  cbn [snd calls patients prompts requests].
  split; [done|]. split; [done|].
  split; [|split; [|by exists sent]].
  - intros k Hk.
    destruct Hstore as [[-> _]|[(_ & -> & _)|(_ & data & -> & _)]];
      [done|by rewrite lookup_insert_ne..].
  - intros row Hrow.
    destruct Hstore as [[-> _]|[(Hnone & _)|(Hnone & _)]]; [done|congruence..].
Qed.

(** X5.  A call that [createCall] could not place is recorded as failed
    without a provider call id, and that record can never be refreshed:
    [refreshCallDetails] throws the error of the missing reference, sends
    no request and changes nothing, whatever the provider would answer. *)
Theorem createCall_failed_cannot_sync (env env' : Env Num)
  (params : CreateCallParams) (w : World Num) (patient : Patient)
  (prompt : VAPIPrompt) (e : string) :
  patients w !! cp_patientId params = Some patient →
  prompts w !! cp_promptId params = Some prompt →
  calls w !! newRowId env = None →
  (createCall env params w).1 = Throw e →
  calls (createCall env params w).2 !! newRowId env = Some (failedRow env params)
  ∧ refreshCallDetails env' (newRowId env) (createCall env params w).2
    = (Throw "This call does not yet have a Vapi call ID to sync.",
       (createCall env params w).2).
Proof.
  intros Hpatient Hprompt Hfresh.
  destruct (createCall_found env params w patient prompt Hpatient Hprompt Hfresh)
    as (sent & _ & [[e' ->]|[data ->]]); [|discriminate].
  intros _. cbn [snd calls].
  assert (<[newRowId env := failedRow env params]> (calls w) !! newRowId env
          = Some (failedRow env params)) as Hrow by apply lookup_insert_eq.
  split; [exact Hrow|].
  apply (refreshCallDetails_missing_reference env' (newRowId env) _
           (failedRow env params)); [exact Hrow|by left].
Qed.

(** X6.  A call that [createCall] has placed is refreshed under the id
    that the provider gave it: the refresh of the returned call sends the
    request for exactly that provider call, or none at all when the
    provider gave the empty id. *)
Theorem createCall_then_refresh (env env' : Env Num)
  (params : CreateCallParams) (w : World Num) (patient : Patient)
  (prompt : VAPIPrompt) (call : VAPICall Num) :
  patients w !! cp_patientId params = Some patient →
  prompts w !! cp_promptId params = Some prompt →
  calls w !! newRowId env = None →
  (createCall env params w).1 = Ok call →
  ∃ pid,
    providerCallId call = Some pid
    ∧ requests (refreshCallDetails env' (id call) (createCall env params w).2).2
      = requests (createCall env params w).2
        ++ (if Js.nonEmpty pid then [GetCall pid] else []).
Proof.
  intros Hpatient Hprompt Hfresh.
  destruct (createCall_found env params w patient prompt Hpatient Hprompt Hfresh)
    as (sent & _ & [[e' ->]|[data ->]]); [discriminate|].
  intros [= <-]. exists (resp_id data). split; [done|].
  cbn [snd id mapCall].
  set (w1 := {| calls := _ |}).
  assert (calls w1 !! newRowId env = Some (acceptedRow env params data)) as Hrow
    by apply lookup_insert_eq.
  destruct (Js.nonEmpty (resp_id data)) eqn:Hne.
  - rewrite (refreshCallDetails_run env' (newRowId env) w1 _ (resp_id data)
               Hrow eq_refl Hne).
    destruct (getCall env' (resp_id data)) as [?|? ?|snapshot]; [done|done|].
    by destruct (refreshRow _ _ snapshot).
  - rewrite (refreshCallDetails_missing_reference env' (newRowId env) w1 _ Hrow).
    + cbn. by rewrite app_nil_r.
    + right. cbn. by destruct (resp_id data).
Qed.

End CreateCallFrame.

(* ===================================================================== *)
(** * Properties: what a refresh leaves alone *)
(* ===================================================================== *)

Section RefreshFrame.
Import Calls vapiService.
Context {Num : Type} `{!JsRuntime Num}.

(** A refresh ends in an error and leaves every table as it was, or it
    stores the refreshed row under the id of the call. *)
Lemma refreshCallDetails_cases (env : Env Num) (callId : string) (w : World Num) :
  (∃ e sent,
      refreshCallDetails env callId w
      = (Throw e,
         {| calls := calls w; patients := patients w; prompts := prompts w;
            requests := requests w ++ sent |})
      ∧ (sent = [] ∨ ∃ pid, sent = [GetCall pid]))
  ∨ (∃ row pid data row',
        calls w !! callId = Some row
        ∧ provider_call_id row = Some pid
        ∧ Js.nonEmpty pid = true
        ∧ getCall env pid = HttpOk data
        ∧ refreshRow callId row data = Ok row'
        ∧ refreshCallDetails env callId w
          = (Ok (mapCall callId row'),
             {| calls := <[callId := row']> (calls w);
                patients := patients w; prompts := prompts w;
                requests := requests w ++ [GetCall pid] |})).
Proof.
  assert (∀ e, (Throw e : Result (VAPICall Num), w)
               = (Throw e,
                  {| calls := calls w; patients := patients w;
                     prompts := prompts w; requests := requests w ++ [] |}))
    as Hsame by (intros e; rewrite app_nil_r; by destruct w).
  destruct (calls w !! callId) as [row|] eqn:Hrow.
  2: { left. rewrite (refreshCallDetails_not_found env callId w Hrow). eauto. }
  destruct (provider_call_id row) as [pid|] eqn:Hpid.
  2: { left.
       rewrite (refreshCallDetails_missing_reference env callId w row Hrow)
         by (by left).
       eauto. }
  destruct (Js.nonEmpty pid) eqn:Hne.
  2: { left.
       rewrite (refreshCallDetails_missing_reference env callId w row Hrow)
         by (destruct pid; [by right|done]).
       eauto. }
  rewrite (refreshCallDetails_run env callId w row pid Hrow Hpid Hne).
  destruct (getCall env pid) as [e|st msg|data] eqn:Hget.
  - left. eexists; exists [GetCall pid]. split; [reflexivity|]. eauto.
  - left. eexists; exists [GetCall pid]. split; [reflexivity|]. eauto.
  - destruct (refreshRow callId row data) as [row'|e] eqn:Hrefresh.
    + right. exists row, pid, data, row'. done.
    + left. eexists; exists [GetCall pid]. split; [reflexivity|]. eauto.
Qed.

(** The columns that a refresh never writes, and the two that it writes
    together. *)
Lemma refreshRow_ok (callId : string) (row row' : CallRow Num)
  (data : VapiCallDetailsResponse Num) :
  refreshRow callId row data = Ok row' →
  patient_id row' = patient_id row
  ∧ prompt_id row' = prompt_id row
  ∧ schedule_id row' = schedule_id row
  ∧ phone_number row' = phone_number row
  ∧ provider_call_id row' = provider_call_id row
  ∧ created_at row' = created_at row
  ∧ row_status row' = mapApiStatusToLocal (Some (d_status data))
  ∧ transcript_entries row'
    = entries (extractTranscriptFromArtifact (d_artifact data))
      ?: transcript_entries row
  ∧ row_transcript row'
    = formatted (extractTranscriptFromArtifact (d_artifact data))
      ?: row_transcript row
  ∧ row_analysis row'
    = mergeAnalysis (row_analysis row) (mapApiAnalysis (d_analysis data)).
Proof.
  intros (patch & Hpatch & ->)%refreshRow_patched.
  revert Hpatch. unfold buildCallPayload.
  destruct (dateField _); [|done]. destruct (dateField _); [|done].
  by intros [= <-].
Qed.

(** X7.  A refresh that throws, for whatever reason (no such call, no
    provider reference, the provider or the transport failing, a date of
    the snapshot that does not parse, a duration that the column refuses),
    has changed no table: the calls, the patients and the prompts are as
    before. *)
Theorem refreshCallDetails_failure_changes_nothing (env : Env Num)
  (callId : string) (w : World Num) (e : string) :
  (refreshCallDetails env callId w).1 = Throw e →
  calls (refreshCallDetails env callId w).2 = calls w
  ∧ patients (refreshCallDetails env callId w).2 = patients w
  ∧ prompts (refreshCallDetails env callId w).2 = prompts w.
Proof.
  destruct (refreshCallDetails_cases env callId w)
    as [(e' & sent & -> & _)|(row & pid & data & row' & _ & _ & _ & _ & _ & ->)];
    [done|].
  cbn [fst]. discriminate.
Qed.

(** X8.  Whatever the provider answers, a refresh leaves the patients, the
    prompts and every other call alone, neither creates nor removes a call,
    keeps the identity of the refreshed call (patient, prompt, schedule,
    phone number, provider call id, creation time), and sends at most one
    request, the one for the call. *)
Theorem refreshCallDetails_frame (env : Env Num) (callId : string)
  (w : World Num) :
  let w' := (refreshCallDetails env callId w).2 in
  patients w' = patients w
  ∧ prompts w' = prompts w
  ∧ (∀ other, other ≠ callId → calls w' !! other = calls w !! other)
  ∧ (calls w !! callId = None → calls w' !! callId = None)
  ∧ (∀ row, calls w !! callId = Some row →
            ∃ row', calls w' !! callId = Some row'
                    ∧ patient_id row' = patient_id row
                    ∧ prompt_id row' = prompt_id row
                    ∧ schedule_id row' = schedule_id row
                    ∧ phone_number row' = phone_number row
                    ∧ provider_call_id row' = provider_call_id row
                    ∧ created_at row' = created_at row)
  ∧ (requests w' = requests w
     ∨ ∃ row pid, calls w !! callId = Some row
                  ∧ provider_call_id row = Some pid
                  ∧ requests w' = requests w ++ [GetCall pid]).
Proof.
  cbn zeta.
  destruct (calls w !! callId) as [row|] eqn:Hrow.
  2: { rewrite (refreshCallDetails_not_found env callId w Hrow). cbn [snd].
       repeat split; auto. intros row [=]. }
  destruct (provider_call_id row) as [pid|] eqn:Hpid.
  2: { rewrite (refreshCallDetails_missing_reference env callId w row Hrow)
         by (by left).
       cbn [snd]. repeat split; auto; [done|].
       intros ? [= <-]. by exists row. }
  destruct (Js.nonEmpty pid) eqn:Hne.
  2: { rewrite (refreshCallDetails_missing_reference env callId w row Hrow)
         by (destruct pid; [by right|done]).
       cbn [snd]. repeat split; auto; [done|].
       intros ? [= <-]. by exists row. }
  rewrite (refreshCallDetails_run env callId w row pid Hrow Hpid Hne).
  assert (∀ r : Result (VAPICall Num),
            let w' := (r, logRequest (GetCall pid) w).2 in
            patients w' = patients w
            ∧ prompts w' = prompts w
            ∧ (∀ other, other ≠ callId → calls w' !! other = calls w !! other)
            ∧ (Some row = None → calls w' !! callId = None)
            ∧ (∀ row0, Some row = Some row0 →
                 ∃ row', calls w' !! callId = Some row'
                         ∧ patient_id row' = patient_id row0
                         ∧ prompt_id row' = prompt_id row0
                         ∧ schedule_id row' = schedule_id row0
                         ∧ phone_number row' = phone_number row0
                         ∧ provider_call_id row' = provider_call_id row0
                         ∧ created_at row' = created_at row0)
            ∧ (requests w' = requests w
               ∨ ∃ row0 pid0, Some row = Some row0
                    ∧ provider_call_id row0 = Some pid0
                    ∧ requests w' = requests w ++ [GetCall pid0])) as Hfailed.
  { intros r. cbn. repeat split; auto; [done| |].
    - intros ? [= <-]. by exists row.
    - right. by exists row, pid. }
  destruct (getCall env pid) as [e|st msg|data]; [apply Hfailed..|].
  destruct (refreshRow callId row data) as [row'|e] eqn:Hrefresh;
    [|apply Hfailed].
  destruct (refreshRow_ok callId row row' data Hrefresh)
    as (? & ? & ? & ? & ? & ? & _).
  cbn. repeat split; auto.
  - intros other Hother. by rewrite lookup_insert_ne.
  - done.
  - intros ? [= <-]. exists row'. by rewrite lookup_insert_eq.
  - right. by exists row, pid.
Qed.

End RefreshFrame.

(* ===================================================================== *)
(** * Properties: the other outcomes of a refresh *)
(* ===================================================================== *)

Section RefreshEdges.
Import Calls vapiService.
Context {Num : Type} `{!JsRuntime Num}.

Lemma dateField_invalid (s : string) (local : option JsDate) :
  Js.nonEmpty s = true →
  newDate s = InvalidDate →
  dateField (Present (incomingDate (Some s) local)) = Throw "Invalid time value".
Proof. intros Hne Hdate. unfold incomingDate. by rewrite Hne, Hdate. Qed.

(** X9.  When the snapshot carries a start or an end date that does not
    parse, the refresh throws "Invalid time value" after the request was
    sent, and no row has changed. *)
Theorem refreshCallDetails_invalid_date (env : Env Num) (callId : string)
  (w : World Num) (row : CallRow Num) (pid : string)
  (data : VapiCallDetailsResponse Num) (s : string) :
  calls w !! callId = Some row →
  provider_call_id row = Some pid →
  Js.nonEmpty pid = true →
  getCall env pid = HttpOk data →
  d_startedAt data = Some s ∨ d_completedAt data = Some s →
  Js.nonEmpty s = true →
  newDate s = InvalidDate →
  refreshCallDetails env callId w
  = (Throw "Invalid time value", logRequest (GetCall pid) w).
Proof.
  intros Hrow Hpid Hne Hget Hwhich Hs Hdate.
  rewrite (refreshCallDetails_run env callId w row pid Hrow Hpid Hne), Hget.
  unfold refreshRow, buildCallPayload, refreshPayload.
  cbn [p_startedAt p_completedAt].
  destruct Hwhich as [-> | ->].
  - by rewrite (dateField_invalid s _ Hs Hdate).
  - rewrite (dateField_invalid s _ Hs Hdate).
    by destruct (dateField_present
                   (incomingDate (d_startedAt data) (startedAt (mapCall callId row))))
      as [[st ->]| ->].
Qed.

(** X10.  A refresh that succeeds stores the image of the provider's state
    under the status lookup, whatever the stored status was: the status of
    a call is not monotone, and the state "ended", which the lookup does
    not know, turns also a completed call into a pending one. *)
Theorem refreshCallDetails_status (env : Env Num) (callId : string)
  (w : World Num) (row : CallRow Num) (pid : string)
  (data : VapiCallDetailsResponse Num) (call : VAPICall Num) :
  calls w !! callId = Some row →
  provider_call_id row = Some pid →
  Js.nonEmpty pid = true →
  getCall env pid = HttpOk data →
  (refreshCallDetails env callId w).1 = Ok call →
  status call = mapApiStatusToLocal (Some (d_status data))
  ∧ (Js.toLowerCase (d_status data) = "ended" → status call = pending)
  ∧ (mapCall callId <$> calls (refreshCallDetails env callId w).2 !! callId)
    = Some call.
Proof.
  intros Hrow Hpid Hne Hget.
  rewrite (refreshCallDetails_run env callId w row pid Hrow Hpid Hne), Hget.
  destruct (refreshRow callId row data) as [row'|e] eqn:Hrefresh; [|discriminate].
  intros [= <-].
  destruct (refreshRow_ok callId row row' data Hrefresh)
    as (_ & _ & _ & _ & _ & _ & Hstatus & _).
  cbn [status mapCall snd]. split; [exact Hstatus|]. split.
  - intros Hended. rewrite Hstatus.
    apply (mapApiStatusToLocal_lookup (d_status data)).
    rewrite Hended. set_solver.
  - cbn. by rewrite lookup_insert_eq.
Qed.

(** Normalization never returns an empty list of entries. *)
Lemma firstEntries_nonempty (candidates : list (JsValue Num))
  (es : list (VAPICallTranscriptEntry Num)) :
  firstEntries candidates = Some es → es ≠ [].
Proof.
  induction candidates as [|c rest IH]; [done|].
  destruct c; cbn [firstEntries]; try exact IH.
  destruct (omap toTranscriptEntry items) as [|x kept] eqn:Hkept; cbn.
  - exact IH.
  - by intros [= <-].
Qed.

Lemma normalizeTranscriptEntries_nonempty (raw : JsValue Num)
  (es : list (VAPICallTranscriptEntry Num)) :
  normalizeTranscriptEntries raw = Some es → es ≠ [].
Proof.
  unfold normalizeTranscriptEntries.
  destruct (negb (truthy raw)); [done|]. apply firstEntries_nonempty.
Qed.

Lemma extractTranscript_entries (artifact : option (ArtifactResponse Num))
  (es : list (VAPICallTranscriptEntry Num)) :
  entries (extractTranscriptFromArtifact artifact) = Some es → es ≠ [].
Proof.
  destruct artifact as [a|]; [|done]. cbn [extractTranscriptFromArtifact entries].
  destruct (normalizeTranscriptEntries (a_transcript a)) as [es1|] eqn:H1; cbn.
  { intros [= <-]. by apply (normalizeTranscriptEntries_nonempty _ _ H1). }
  destruct (normalizeTranscriptEntries (a_messages a)) as [es2|] eqn:H2; cbn.
  { intros [= <-]. by apply (normalizeTranscriptEntries_nonempty _ _ H2). }
  apply normalizeTranscriptEntries_nonempty.
Qed.

(** The transcript of a snapshot and its entries come together. *)
Lemma extractTranscript_formatted (artifact : option (ArtifactResponse Num)) :
  formatted (extractTranscriptFromArtifact artifact)
  = formatTranscript (entries (extractTranscriptFromArtifact artifact))
  ∧ (entries (extractTranscriptFromArtifact artifact) = None
     ↔ formatted (extractTranscriptFromArtifact artifact) = None).
Proof.
  assert (formatted (extractTranscriptFromArtifact artifact)
          = formatTranscript (entries (extractTranscriptFromArtifact artifact)))
    as Heq by (by destruct artifact).
  split; [exact Heq|]. rewrite Heq.
  destruct (entries (extractTranscriptFromArtifact artifact)) as [es|] eqn:Hes;
    [|done].
  apply extractTranscript_entries in Hes. by destruct es.
Qed.

(** X11.  The transcript of a stored call is always the formatted text of
    its stored entries: a call that [createCall] records has neither, and a
    refresh replaces both together or keeps both, so the property is kept
    by every refresh, whatever the provider answers. *)
Theorem refreshCallDetails_transcript_of_entries (env : Env Num)
  (callId : string) (w : World Num) (k : string) (row' : CallRow Num) :
  (∀ row, calls w !! k = Some row →
          row_transcript row = formatTranscript (transcript_entries row)) →
  calls (refreshCallDetails env callId w).2 !! k = Some row' →
  row_transcript row' = formatTranscript (transcript_entries row').
Proof.
  intros Hinv.
  destruct (refreshCallDetails_cases env callId w)
    as [(e & sent & -> & _)
       |(row & pid & data & new & Hrow & _ & _ & _ & Hrefresh & ->)];
    cbn [snd calls]; [apply Hinv|].
  destruct (decide (k = callId)) as [->|Hother].
  2: { rewrite lookup_insert_ne by done. apply Hinv. }
  rewrite lookup_insert_eq. intros [= <-].
  destruct (refreshRow_ok callId row new data Hrefresh)
    as (_ & _ & _ & _ & _ & _ & _ & -> & -> & _).
  destruct (extractTranscript_formatted (d_artifact data)) as [Hformatted Hnone].
  destruct (entries (extractTranscriptFromArtifact (d_artifact data)))
    as [es|] eqn:Hes.
  - rewrite Hformatted. cbn [Js.coalesce].
    apply extractTranscript_entries in Hes. by destruct es.
  - rewrite (proj1 Hnone eq_refl). cbn [Js.coalesce]. by apply Hinv.
Qed.

(** X12.  A call that [createCall] records has no transcript and no
    entries, so its transcript is the formatted text of its entries; and
    [createCall] keeps every call without a provider call id as a failed
    call with no transcript, no artifacts and no analysis: the only record
    it adds without the id is the failed one. *)
Theorem createCall_records (env : Env Num) (params : CreateCallParams)
  (w : World Num) (k : string) (row' : CallRow Num) :
  (∀ row, calls w !! k = Some row →
          row_transcript row = formatTranscript (transcript_entries row)
          ∧ (provider_call_id row = None →
             row_status row = failed ∧ row_transcript row = None
             ∧ row_artifacts row = None ∧ row_analysis row = None)) →
  calls (createCall env params w).2 !! k = Some row' →
  row_transcript row' = formatTranscript (transcript_entries row')
  ∧ (provider_call_id row' = None →
     row_status row' = failed ∧ row_transcript row' = None
     ∧ row_artifacts row' = None ∧ row_analysis row' = None).
Proof.
  intros Hinv.
  destruct (createCall_cases env params w)
    as (result & sent & store & -> & _ & Hstore).
  cbn [snd calls].
  destruct Hstore as [[-> _]|[(_ & -> & _)|(_ & data & -> & _)]]; [apply Hinv| |].
  - destruct (decide (k = newRowId env)) as [->|Hother].
    + rewrite lookup_insert_eq. by intros [= <-].
    + rewrite lookup_insert_ne by done. apply Hinv.
  - destruct (decide (k = newRowId env)) as [->|Hother].
    + rewrite lookup_insert_eq. by intros [= <-].
    + rewrite lookup_insert_ne by done. apply Hinv.
Qed.

(** A refresh keeps a call without a provider call id as it is. *)
Lemma refreshCallDetails_unplaced_call (env : Env Num) (callId : string)
  (w : World Num) (k : string) (row : CallRow Num) :
  calls w !! k = Some row →
  provider_call_id row = None →
  calls (refreshCallDetails env callId w).2 !! k = Some row.
Proof.
  intros Hrow Hnone.
  destruct (refreshCallDetails_cases env callId w)
    as [(e & sent & -> & _)
       |(old & pid & data & new & Hold & Hpid & _ & _ & _ & ->)];
    cbn [snd calls]; [exact Hrow|].
  destruct (decide (k = callId)) as [->|Hother].
  - congruence.
  - by rewrite lookup_insert_ne.
Qed.

End RefreshEdges.

(* ===================================================================== *)
(** * Properties: the status badge *)
(* ===================================================================== *)

Section BadgeProperties.
Import Calls vapiService StatusBadge.
Context {Num : Type} `{!JsRuntime Num}.

Lemma statusConfig_pending (st : VAPICallStatus) :
  badgeLabel (statusConfig st) = "Pending" ↔ st = pending.
Proof. by destruct st. Qed.

Lemma effectiveStatus_analysis (call : VAPICall Num) :
  hasAnalysisData call = true →
  effectiveStatus call ≠ pending
  ∧ (status call = pending → effectiveStatus call = completed).
Proof.
  intros Hdata. unfold effectiveStatus. rewrite Hdata. cbn [andb].
  destruct (decide (status call = pending)) as [Hp|Hp].
  - by rewrite bool_decide_eq_true_2.
  - by rewrite bool_decide_eq_false_2.
Qed.

(** X13.  The badge of a call shows "Pending" exactly when the stored
    status is pending and the call has neither a summary nor an end-of-call
    report; a pending call that has one of them is shown as "Completed",
    and any other call is shown with its stored status. *)
Theorem getCallStatusBadge_label (call : VAPICall Num) :
  (badgeLabel (getCallStatusBadge call) = "Pending"
   ↔ status call = pending ∧ hasAnalysisData call = false)
  ∧ (status call = pending → hasAnalysisData call = true →
     getCallStatusBadge call = statusConfig completed)
  ∧ (status call ≠ pending → getCallStatusBadge call = statusConfig (status call)).
Proof.
  unfold getCallStatusBadge, effectiveStatus.
  destruct (hasAnalysisData call); cbn [andb].
  - destruct (decide (status call = pending)) as [Hp|Hp].
    + rewrite bool_decide_eq_true_2 by done. repeat split; try done.
      intros [_ [=]].
    + rewrite bool_decide_eq_false_2 by done. rewrite statusConfig_pending.
      repeat split; try done. by intros [? _].
  - rewrite statusConfig_pending. repeat split; try done. by intros [? _].
Qed.

Lemma hasKey_required (fields : JsObject Num) :
  (∀ key, key ∈ structuredDataRequired → hasKey key fields = true) →
  isEndOfCallReport (Some fields) = true.
Proof.
  intros Hkeys. cbn [isEndOfCallReport].
  rewrite (Hkeys "conversationOutcome"), (Hkeys "summary");
    [done|unfold structuredDataRequired; set_solver..].
Qed.

(** X14.  A structured report that has the keys which the schema sent with
    every call requires is an end-of-call report for the page, so a pending
    call that carries one is shown as "Completed". *)
Theorem getCallStatusBadge_report (call : VAPICall Num)
  (report : VAPICallAnalysis Num) (fields : JsObject Num) :
  analysis call = Some report →
  structuredData report = Some fields →
  (∀ key, key ∈ structuredDataRequired → hasKey key fields = true) →
  status call = pending →
  isEndOfCallReport (Some fields) = true
  ∧ badgeLabel (getCallStatusBadge call) = "Completed".
Proof.
  intros Hanalysis Hdata Hkeys Hpending.
  pose proof (hasKey_required fields Hkeys) as Hreport.
  split; [exact Hreport|].
  unfold getCallStatusBadge, effectiveStatus, hasAnalysisData.
  rewrite Hanalysis. cbn [mbind option_bind]. rewrite Hdata, Hreport.
  rewrite orb_true_r. cbn [andb].
  by rewrite bool_decide_eq_true_2.
Qed.

(** X15.  Once a refresh has stored a summary that is not empty, the call
    is never shown as "Pending": when the provider's state maps to pending,
    as "ended" does, the badge shows "Completed". *)
Theorem refreshCallDetails_badge (env : Env Num) (callId : string)
  (w : World Num) (row : CallRow Num) (pid : string)
  (data : VapiCallDetailsResponse Num) (call : VAPICall Num) (s : string) :
  calls w !! callId = Some row →
  provider_call_id row = Some pid →
  Js.nonEmpty pid = true →
  getCall env pid = HttpOk data →
  (refreshCallDetails env callId w).1 = Ok call →
  (d_analysis data ≫= r_summary) ?: (row_analysis row ≫= summary) = Some s →
  Js.nonEmpty s = true →
  badgeLabel (getCallStatusBadge call) ≠ "Pending"
  ∧ (mapApiStatusToLocal (Some (d_status data)) = pending →
     badgeLabel (getCallStatusBadge call) = "Completed").
Proof.
  intros Hrow Hpid Hne Hget Hok Hsummary Hs.
  rewrite (refreshCallDetails_run env callId w row pid Hrow Hpid Hne), Hget in Hok.
  destruct (refreshRow callId row data) as [row'|e] eqn:Hrefresh; [|discriminate].
  injection Hok as <-.
  destruct (refreshRow_ok callId row row' data Hrefresh)
    as (_ & _ & _ & _ & _ & _ & Hstatus & _ & _ & Hanalysis).
  assert (hasAnalysisData (mapCall callId row') = true) as Hdata.
  { unfold hasAnalysisData. cbn [analysis mapCall]. rewrite Hanalysis.
    destruct (mergeAnalysis_fields (row_analysis row)
                (mapApiAnalysis (d_analysis data))) as (-> & _).
    destruct (mapApiAnalysis_fields (d_analysis data)) as (-> & _).
    rewrite Hsummary. change (default "" (Some s)) with s. by rewrite Hs. }
  unfold getCallStatusBadge.
  destruct (effectiveStatus_analysis (mapCall callId row') Hdata) as [Hnot Hdone].
  split.
  - by rewrite statusConfig_pending.
  - intros Hpending. rewrite Hdone; [done|].
    cbn [status mapCall]. congruence.
Qed.

End BadgeProperties.

(* ===================================================================== *)
(** * Properties: scheduling *)
(* ===================================================================== *)

Section SchedulingProperties.
Import Schedules Scheduling.
Context {Num : Type} `{!JsRuntime Num}.

Lemma updateRow_unknown (f : ScheduleRow → ScheduleRow) (rowId : string)
  (tbl : Table) :
  tbl !! rowId = None → updateRow f rowId tbl = (Throw noRowError, tbl).
Proof. intros Hnone. unfold updateRow. by rewrite Hnone. Qed.

Lemma updateRow_known (f : ScheduleRow → ScheduleRow) (rowId : string)
  (tbl : Table) (row : ScheduleRow) :
  tbl !! rowId = Some row →
  updateRow f rowId tbl = (Ok (mapSchedule rowId (f row)), <[rowId := f row]> tbl).
Proof. intros Hrow. unfold updateRow. by rewrite Hrow. Qed.

(** The due list after one row was replaced. *)
Lemma dueList_insert (now : Z) (tbl : Table) (rowId : string)
  (row : ScheduleRow) (s : VAPICallSchedule) :
  s ∈ dueList now (<[rowId := row]> tbl)
  ↔ (s = mapSchedule rowId row ∧ dueFilter now row = true)
    ∨ (id s ≠ rowId ∧ s ∈ dueList now tbl).
Proof.
  rewrite !elem_of_dueList. split.
  - intros (k & r & Hk & Hdue & ->).
    apply lookup_insert_Some in Hk as [[<- <-]|[Hne Hk]].
    + by left.
    + right. split; [done|]. by exists k, r.
  - intros [[-> Hdue]|[Hne (k & r & Hk & Hdue & ->)]].
    + exists rowId, row. by rewrite lookup_insert_eq.
    + exists k, r. cbn in Hne. by rewrite lookup_insert_ne.
Qed.

Lemma scheduleRow_valid (createdAt : Z) (params : CreateSchedulePayload) :
  c_scheduledTime params ≠ Some InvalidDate →
  c_recurrenceEndDate params ≠ Some InvalidDate →
  ∃ row,
    scheduleRow createdAt params = Ok row
    ∧ is_active row = true
    ∧ type row = c_type params
    ∧ (DateAt <$> scheduled_time row) = c_scheduledTime params
    ∧ patient_id row = c_patientId params
    ∧ prompt_id row = c_promptId params.
Proof.
  intros Hs He. unfold scheduleRow.
  destruct (c_scheduledTime params) as [[s|]|] eqn:Hst; [|done|];
    (destruct (c_recurrenceEndDate params) as [[e|]|] eqn:Het; [|done|]);
    cbn; eexists; (split; [reflexivity|]); cbn; by rewrite ?Hst.
Qed.

(** [createSchedule] keeps the table one that the database can hold. *)
Lemma createSchedule_stored (rowId : string) (createdAt : Z)
  (payload : CreateSchedulePayload) (tbl : Table) :
  stored tbl → stored (createSchedule rowId createdAt payload tbl).2.
Proof.
  intros Hst. unfold createSchedule.
  destruct (scheduleRow createdAt payload) as [row|e] eqn:Hrow; [|done].
  run_M. destruct (tbl !! rowId); [done|]. cbn [snd].
  apply stored_insert; [done|].
  revert Hrow. unfold scheduleRow.
  destruct (isoOrNull _); [|done]. destruct (isoOrNull _); [|done].
  by intros [= <-].
Qed.

Lemma scheduleCall_run (rowId : string) (createdAt : Z)
  (params : CreateSchedulePayload) (db : Database Num)
  (patient : Patient) (prompt : VAPIPrompt) :
  patients (world db) !! c_patientId params = Some patient →
  prompts (world db) !! c_promptId params = Some prompt →
  scheduleCall rowId createdAt params db
  = match scheduleRow createdAt params with
    | Throw e => (Throw e, db)
    | Ok row =>
        match schedules db !! rowId with
        | Some _ => (Throw duplicateKeyError, db)
        | None =>
            (Ok (mapSchedule rowId row),
             {| schedules := <[rowId := row]> (schedules db); world := world db |})
        end
    end.
Proof.
  intros Hpatient Hprompt.
  unfold scheduleCall, onWorld, onSchedules, patientRepository.getById,
    vapiRepository.getPromptById, createSchedule.
  run_M. cbn. rewrite Hpatient, Hprompt. cbn.
  replace {| c_patientId := c_patientId params; c_promptId := c_promptId params;
             c_type := c_type params; c_scheduledTime := c_scheduledTime params;
             c_recurrenceType := c_recurrenceType params;
             c_recurrenceEndDate := c_recurrenceEndDate params;
             c_dayOfWeek := c_dayOfWeek params;
             c_dayOfMonth := c_dayOfMonth params |} with params
    by (by destruct params).
  destruct (scheduleRow createdAt params) as [row|e]; [|by destruct db].
  destruct (schedules db !! rowId); [by destruct db|done].
Qed.

(** [scheduleCall] works on the schedules only. *)
Lemma scheduleCall_world (rowId : string) (createdAt : Z)
  (params : CreateSchedulePayload) (db : Database Num) :
  world (scheduleCall rowId createdAt params db).2 = world db.
Proof.
  unfold scheduleCall, onWorld, onSchedules, patientRepository.getById,
    vapiRepository.getPromptById, createSchedule.
  run_M. cbn.
  destruct (patients (world db) !! c_patientId params); [|done].
  destruct (prompts (world db) !! c_promptId params); [|done].
  cbn. destruct (scheduleRow createdAt _); [|done].
  cbn. by destruct (schedules db !! rowId).
Qed.

(** X16.  [scheduleCall] for a patient or a prompt that does not exist
    throws "Patient or prompt not found" and stores nothing. *)
Theorem scheduleCall_not_found (rowId : string) (createdAt : Z)
  (params : CreateSchedulePayload) (db : Database Num) :
  patients (world db) !! c_patientId params = None
  ∨ prompts (world db) !! c_promptId params = None →
  scheduleCall rowId createdAt params db
  = (Throw "Patient or prompt not found", db).
Proof.
  intros Hmissing.
  unfold scheduleCall, onWorld, patientRepository.getById,
    vapiRepository.getPromptById.
  run_M. cbn.
  destruct db as [tbl w]. cbn in *.
  destruct Hmissing as [-> | ->]; [done|].
  by destruct (patients w !! c_patientId params).
Qed.

(** X17.  [scheduleCall] with valid dates stores an active schedule under
    the new key and returns it; no call is placed and no request is sent;
    and the stored schedule is reported as due at an instant exactly when
    its type is one-time and it has a scheduled time that is not after
    that instant, so a schedule of another type is never due. *)
Theorem scheduleCall_created (rowId : string) (createdAt : Z)
  (params : CreateSchedulePayload) (db : Database Num)
  (patient : Patient) (prompt : VAPIPrompt) :
  patients (world db) !! c_patientId params = Some patient →
  prompts (world db) !! c_promptId params = Some prompt →
  schedules db !! rowId = None →
  c_scheduledTime params ≠ Some InvalidDate →
  c_recurrenceEndDate params ≠ Some InvalidDate →
  ∃ row,
    scheduleCall rowId createdAt params db
    = (Ok (mapSchedule rowId row),
       {| schedules := <[rowId := row]> (schedules db); world := world db |})
    ∧ is_active row = true
    ∧ patient_id row = c_patientId params
    ∧ prompt_id row = c_promptId params
    ∧ getScheduleById rowId (<[rowId := row]> (schedules db))
      = (Ok (Some (mapSchedule rowId row)), <[rowId := row]> (schedules db))
    ∧ ∀ now,
        mapSchedule rowId row ∈ dueList now (<[rowId := row]> (schedules db))
        ↔ c_type params = OneTime
          ∧ ∃ t, c_scheduledTime params = Some (DateAt t) ∧ t ≤ now.
Proof.
  intros Hpatient Hprompt Hfresh Hs He.
  destruct (scheduleRow_valid createdAt params Hs He)
    as (row & Hrow & Hactive & Htype & Htime & Hpid & Hqid).
  exists row.
  rewrite (scheduleCall_run rowId createdAt params db patient prompt) by done.
  rewrite Hrow, Hfresh.
  split; [reflexivity|]. split; [exact Hactive|].
  split; [exact Hpid|]. split; [exact Hqid|]. split.
  - unfold getScheduleById. run_M. by rewrite lookup_insert_eq.
  - intros now.
    rewrite (mapSchedule_in_dueList now _ rowId row (lookup_insert_eq _ _ _)).
    rewrite dueFilter_spec, Hactive, Htype, <- Htime.
    split.
    + intros (_ & Hone & t & -> & Ht). split; [done|]. by exists t.
    + intros (Hone & t & Heq & Ht). split; [done|]. split; [done|].
      exists t. split; [|done].
      destruct (scheduled_time row); cbn in Heq; congruence.
Qed.

(** X18.  [scheduleCall] with a scheduled time or an end date that is the
    invalid date throws "Invalid time value" and stores nothing. *)
Theorem scheduleCall_invalid_date (rowId : string) (createdAt : Z)
  (params : CreateSchedulePayload) (db : Database Num)
  (patient : Patient) (prompt : VAPIPrompt) :
  patients (world db) !! c_patientId params = Some patient →
  prompts (world db) !! c_promptId params = Some prompt →
  c_scheduledTime params = Some InvalidDate
  ∨ c_recurrenceEndDate params = Some InvalidDate →
  scheduleCall rowId createdAt params db = (Throw "Invalid time value", db).
Proof.
  intros Hpatient Hprompt Hinvalid.
  rewrite (scheduleCall_run rowId createdAt params db patient prompt) by done.
  unfold scheduleRow.
  destruct Hinvalid as [-> | ->]; [done|].
  by destruct (c_scheduledTime params) as [[s|]|].
Qed.

Lemma cancelSchedule_run (scheduleId : string) (db : Database Num) :
  cancelSchedule scheduleId db
  = match schedules db !! scheduleId with
    | None => (Ok false, db)
    | Some row =>
        (Ok true,
         {| schedules := <[scheduleId := setInactive row]> (schedules db);
            world := world db |})
    end.
Proof.
  unfold cancelSchedule, onSchedules, getScheduleById, deactivateSchedule,
    updateRow.
  run_M. cbn.
  destruct (schedules db !! scheduleId) as [row|] eqn:Hrow; cbn.
  - by rewrite Hrow.
  - by destruct db.
Qed.

(** X19.  [cancelSchedule] returns whether the schedule exists and never
    throws; afterwards no schedule with this id is ever reported as due,
    the due schedules with other ids are the ones that were due before, and
    the calls, patients and prompts are untouched. *)
Theorem cancelSchedule_never_due (scheduleId : string) (db : Database Num) :
  let db' := (cancelSchedule scheduleId db).2 in
  (cancelSchedule scheduleId db).1
  = Ok (bool_decide (is_Some (schedules db !! scheduleId)))
  ∧ world db' = world db
  ∧ (schedules db !! scheduleId = None → db' = db)
  ∧ ∀ now s,
      s ∈ dueList now (schedules db')
      ↔ id s ≠ scheduleId ∧ s ∈ dueList now (schedules db).
Proof.
  cbn zeta. rewrite cancelSchedule_run.
  destruct (schedules db !! scheduleId) as [row|] eqn:Hrow; cbn [fst snd].
  - split; [by rewrite bool_decide_eq_true_2|].
    split; [done|]. split; [done|].
    intros now s. cbn [schedules]. rewrite dueList_insert. split.
    + intros [[_ Hdue]|?]; [|done].
      apply dueFilter_spec in Hdue as (Hactive & _). done.
    + intros [? ?]. by right.
  - split; [by rewrite bool_decide_eq_false_2 by (by intros [? ?])|].
    split; [done|]. split; [done|].
    intros now s. split; [|by intros [_ ?]].
    intros Hdue. split; [|done].
    apply elem_of_dueList in Hdue as (k & r & Hk & _ & ->). cbn. congruence.
Qed.

(** X20.  Scheduling never dials and dialling never schedules:
    [handleScheduleCall] with a type other than "now" leaves the calls
    alone and sends no request to the provider, with the type "now" it
    leaves the schedules alone; it never throws. *)
Theorem handleScheduleCall_separation (env : Env Num) (rowId : string)
  (createdAt : Z) (selectedPatient : option (string * Patient))
  (promptId : string) (type : ScheduleType) (scheduledTime : option JsDate)
  (recurrenceType : option RecurrenceType) (recurrenceEndDate : option JsDate)
  (dayOfWeek : option Z) (db : Database Num) :
  let run := handleScheduleCall env rowId createdAt selectedPatient promptId
               type scheduledTime recurrenceType recurrenceEndDate dayOfWeek db in
  run.1 = Ok tt
  ∧ (type ≠ Now → world run.2 = world db)
  ∧ (type = Now → schedules run.2 = schedules db).
Proof.
  cbn zeta. unfold handleScheduleCall.
  destruct selectedPatient as [[patientId patient]|]; [|done].
  set (params := {| c_patientId := patientId |}).
  assert (∀ m : M (Database Num) VAPICallSchedule,
            (∀ db0, world (m db0).2 = world db0) →
            (tryCatch (m;; mret tt) (λ _, mret tt) db).1 = Ok tt
            ∧ world (tryCatch (m;; mret tt) (λ _, mret tt) db).2 = world db)
    as Hschedule.
  { intros m Hm. specialize (Hm db). run_M. by destruct (m db) as [[?|?] ?]. }
  pose proof (scheduleCall_world rowId createdAt params) as Hworld.
  destruct type.
  - destruct (Hschedule _ Hworld) as [Hok Hw]. by rewrite Hok, Hw.
  - destruct (Hschedule _ Hworld) as [Hok Hw]. by rewrite Hok, Hw.
  - unfold onWorld. run_M.
    destruct (vapiService.createCall env _ (world db)) as [[call|e] w'];
      by repeat split.
Qed.

Lemma elem_of_dueList_ids (now : Z) (tbl : Table) (k : string) :
  k ∈ id <$> dueList now tbl
  ↔ ∃ row, tbl !! k = Some row ∧ dueFilter now row = true.
Proof.
  rewrite list_elem_of_fmap. split.
  - intros (s & -> & (k' & r & Hk & Hdue & ->)%elem_of_dueList). by exists r.
  - intros (row & Hk & Hdue). exists (mapSchedule k row). split; [done|].
    by apply mapSchedule_in_dueList.
Qed.

(** An update that names [lastExecutedAt] throws and changes nothing. *)
Lemma updateSchedule_stamp (rowId : string) (updates : ScheduleUpdates)
  (tbl : Table) :
  u_lastExecutedAt updates ≠ Undefined →
  ∃ e, updateSchedule rowId updates tbl = (Throw e, tbl).
Proof.
  intros Hstamp. unfold updateSchedule, buildSchedulePatch.
  destruct (nullableTime (u_scheduledTime updates)); [|by eexists].
  destruct (nullableTime (u_recurrenceEndDate updates)); [|by eexists].
  destruct (u_lastExecutedAt updates) as [| |[ms|]];
    [by destruct Hstamp|by eexists..].
Qed.

(** X21.  [updateSchedule] with no new scheduled time, as when the end
    date is written, does not change which schedules are reported as due;
    an update that names [lastExecutedAt] is refused and changes nothing at
    all, so a one-time schedule that was due stays due until it is
    deactivated; and an update with [scheduledTime: null] that the
    database accepts writes NULL, after which the schedule is not due. *)
Theorem updateSchedule_keeps_due (rowId : string) (updates : ScheduleUpdates)
  (tbl : Table) (now : Z) :
  (u_scheduledTime updates = Undefined →
   ∀ k, k ∈ id <$> dueList now (updateSchedule rowId updates tbl).2
        ↔ k ∈ id <$> dueList now tbl)
  ∧ (u_lastExecutedAt updates ≠ Undefined →
     ∃ e, updateSchedule rowId updates tbl = (Throw e, tbl))
  ∧ (u_scheduledTime updates = Null →
     u_recurrenceEndDate updates ≠ Value InvalidDate →
     u_lastExecutedAt updates = Undefined →
     rowId ∉ id <$> dueList now (updateSchedule rowId updates tbl).2).
Proof.
  split; [|split; [apply updateSchedule_stamp|]].
  - intros Hundef k. unfold updateSchedule, buildSchedulePatch.
    rewrite Hundef. cbn [nullableTime].
    destruct (nullableTime (u_recurrenceEndDate updates)) as [[e|]|?];
      [|by destruct (stampTime _) as [[?|]|?]|done].
    destruct (stampTime (u_lastExecutedAt updates)) as [[?|]|?]; [done| |done].
    cbn [set_last_executed_at set_scheduled_time set_recurrence_end_date].
    destruct (tbl !! rowId) as [row|] eqn:Hrow.
    2: { by rewrite updateRow_unknown. }
    rewrite (updateRow_known _ _ _ row Hrow). cbn [snd].
    rewrite !elem_of_dueList_ids.
    destruct (decide (k = rowId)) as [->|Hne].
    + rewrite lookup_insert_eq, Hrow. split.
      * intros (r & [= <-] & Hd). by exists row.
      * intros (r & [= <-] & Hd). by eexists.
    + by rewrite lookup_insert_ne.
  - intros Hnull Hend Hstamp. unfold updateSchedule, buildSchedulePatch.
    rewrite Hnull, Hstamp. cbn [nullableTime stampTime].
    assert (∃ e, nullableTime (u_recurrenceEndDate updates) = Ok e) as [e ->]
      by (destruct (u_recurrenceEndDate updates) as [| |[ms|]];
          [by eexists..|by destruct Hend]).
    cbn [set_last_executed_at set_scheduled_time set_recurrence_end_date].
    rewrite elem_of_dueList_ids.
    destruct (tbl !! rowId) as [row|] eqn:Hrow.
    + rewrite (updateRow_known _ _ _ row Hrow). cbn [snd].
      rewrite lookup_insert_eq. intros (r & [= <-] & Hdue).
      unfold dueFilter in Hdue. cbn in Hdue.
      by rewrite andb_false_r in Hdue.
    + rewrite updateRow_unknown by done. cbn [snd]. rewrite Hrow.
      by intros (r & [=] & _).
Qed.

(** X22.  For a schedule that does not exist, [updateSchedule] throws and
    changes nothing (the error of the missing row, when the update names
    no [lastExecutedAt] and its dates are valid) and [deactivateSchedule]
    throws the error of the missing row and changes nothing, where
    [cancelSchedule] returns false without an error, so
    [handleDeleteSchedule] ends as for a schedule that it has cancelled. *)
Theorem schedule_not_found (rowId : string) (updates : ScheduleUpdates)
  (selectedPatient : option (string * Patient)) (db : Database Num) :
  schedules db !! rowId = None →
  (∃ e, updateSchedule rowId updates (schedules db) = (Throw e, schedules db))
  ∧ (u_lastExecutedAt updates = Undefined →
     u_scheduledTime updates ≠ Value InvalidDate →
     u_recurrenceEndDate updates ≠ Value InvalidDate →
     updateSchedule rowId updates (schedules db)
     = (Throw noRowError, schedules db))
  ∧ deactivateSchedule rowId (schedules db) = (Throw noRowError, schedules db)
  ∧ cancelSchedule rowId db = (Ok false, db)
  ∧ handleDeleteSchedule selectedPatient rowId db = (Ok tt, db).
Proof.
  intros Hnone.
  assert (∀ patch,
            match set_scheduled_time patch, set_recurrence_end_date patch with
            | None, None => throw noRowError
            | _, _ => updateRow (schedulePatch patch) rowId
            end (schedules db) = (Throw noRowError, schedules db)) as Hmissing.
  { intros patch.
    destruct (set_scheduled_time patch), (set_recurrence_end_date patch);
      try done; by rewrite updateRow_unknown. }
  split; [|split].
  - unfold updateSchedule.
    destruct (buildSchedulePatch updates) as [patch|e]; [|by eexists].
    destruct (set_last_executed_at patch); [by eexists|].
    eexists. apply Hmissing.
  - intros Hstamp Hs He. unfold updateSchedule, buildSchedulePatch.
    rewrite Hstamp.
    assert (∃ t, nullableTime (u_scheduledTime updates) = Ok t) as [t ->]
      by (destruct (u_scheduledTime updates) as [| |[ms|]];
          [by eexists..|by destruct Hs]).
    assert (∃ e, nullableTime (u_recurrenceEndDate updates) = Ok e) as [e ->]
      by (destruct (u_recurrenceEndDate updates) as [| |[ms|]];
          [by eexists..|by destruct He]).
    cbn [stampTime set_last_executed_at]. apply Hmissing.
  - unfold deactivateSchedule. rewrite updateRow_unknown by done.
    split; [done|].
    assert (cancelSchedule rowId db = (Ok false, db)) as Hcancel
      by (by rewrite cancelSchedule_run, Hnone).
    split; [exact Hcancel|].
    unfold handleDeleteSchedule. destruct selectedPatient; [|done].
    run_M. by rewrite Hcancel.
Qed.

End SchedulingProperties.

(* ===================================================================== *)
(** * Properties: durations *)
(* ===================================================================== *)

Section DurationProperties.
Import Duration.

(** A whole number that double precision holds is its own double. *)
Lemma toDouble_exact (x : Z) : safeInteger x → toDouble x = x.
Proof.
  intros [Hlo Hhi]. unfold toDouble.
  destruct (decide (Z.abs x = 9007199254740992)) as [Hmax|Hless].
  - assert (x = 9007199254740992 ∨ x = -9007199254740992) as [-> | ->] by lia;
      reflexivity.
  - assert (Z.log2 (Z.abs x) < 53) as Hlog.
    { destruct (decide (Z.abs x = 0)) as [->|Hnz]; [done|].
      apply Z.log2_lt_pow2; lia. }
    destruct (Z.leb_spec (Z.log2 (Z.abs x) - 52) 0); [done|lia].
Qed.

(** Below 2^54 the double of a whole number is at most one away from it,
    and has its sign. *)
Lemma toDouble_near (x : Z) :
  -18014398509481984 < x < 18014398509481984 →
  toDouble x - 1 ≤ x ≤ toDouble x + 1 ∧ (toDouble x ≤ 0 ↔ x ≤ 0).
Proof.
  intros [Hlo Hhi].
  destruct (decide (safeInteger x)) as [Hsafe|Hbig].
  - rewrite (toDouble_exact x Hsafe). lia.
  - unfold safeInteger in Hbig.
    assert (Z.log2 (Z.abs x) = 53) as Hlog
      by (apply Z.log2_unique; [done|]; change (2 ^ 53) with 9007199254740992;
          change (2 ^ (53 + 1)) with 18014398509481984; lia).
    unfold toDouble. rewrite Hlog.
    change (53 - 52 <=? 0) with false. cbv beta iota zeta.
    change (2 ^ (53 - 52)) with 2.
    destruct (Z.ltb_spec (2 * (x `mod` 2)) 2), (Z.ltb_spec 2 (2 * (x `mod` 2))),
      (Z.even (x `div` 2));
      clear Hlog; Z.div_mod_to_equations; lia.
Qed.

(** X23.  For two valid dates [calculateDurationSeconds] returns a number
    exactly when the end is after the start; the number is never negative
    and counts the whole seconds between them: exactly when the difference
    is a number of milliseconds that double precision holds, and otherwise
    to the millisecond that the rounding of the difference loses.  Without
    two valid dates it returns nothing. *)
Theorem calculateDurationSeconds_floor (startedAt completedAt : option JsDate)
  (s f : Z) :
  validInstant s →
  validInstant f →
  let result := calculateDurationSeconds (Some (DateAt s)) (Some (DateAt f)) in
  (result = None ↔ f ≤ s)
  ∧ (∀ n, result = Some n →
          s < f ∧ 0 ≤ n ∧ 1000 * n - 1 ≤ f - s ≤ 1000 * n + 1000)
  ∧ (safeInteger (f - s) →
     ∀ n, result = Some n
          ↔ s < f ∧ 0 ≤ n ∧ 1000 * n ≤ f - s < 1000 * (n + 1))
  ∧ ((∀ s' f', ¬ (startedAt = Some (DateAt s')
                  ∧ completedAt = Some (DateAt f'))) →
     calculateDurationSeconds startedAt completedAt = None).
Proof.
  intros Hs Hf. cbn zeta. unfold validInstant in Hs, Hf.
  unfold calculateDurationSeconds at 1 2 3. cbn [getTime].
  destruct (toDouble_near (f - s)) as [Hnear Hsign]; [lia|].
  split; [|split; [|split]].
  - destruct (Z.leb_spec (toDouble (f - s)) 0) as [Hle|Hlt]; split;
      try done; lia.
  - intros n. destruct (Z.leb_spec (toDouble (f - s)) 0) as [Hle|Hlt]; [done|].
    intros [= <-].
    assert (0 ≤ toDouble (f - s) / 1000) by (apply Z.div_pos; lia).
    split; [lia|]. split; [done|].
    clear Hsign. Z.div_mod_to_equations. lia.
  - intros Hsafe n. rewrite (toDouble_exact _ Hsafe).
    destruct (Z.leb_spec (f - s) 0) as [Hle|Hlt].
    + split; [done|lia].
    + split.
      * intros [= <-].
        assert (0 ≤ (f - s) / 1000) by (apply Z.div_pos; lia).
        split; [lia|]. split; [done|].
        clear Hsign Hnear. Z.div_mod_to_equations. lia.
      * intros (_ & Hn & Hlo & Hhi). f_equal. symmetry.
        apply (Z.div_unique (f - s) 1000 n (f - s - 1000 * n)); lia.
  - intros Hnone. unfold calculateDurationSeconds.
    destruct startedAt as [[s'|]|], completedAt as [[f'|]|]; cbn; try done.
    by destruct (Hnone s' f').
Qed.

Lemma pretty_N_char_digit (k : N) :
  (k < 10)%N →
  Js.isDigit (pretty_N_char k) = true
  ∧ Z.of_nat (nat_of_ascii (pretty_N_char k)) - 48 = Z.of_N k.
Proof.
  intros Hk.
  destruct k as [|p]; [done|].
  do 4 (destruct p as [p|p|]; try done).
Qed.

Lemma readLabel_pretty_N_go (x : N) :
  ∀ (rest : string) (total : Z),
    readLabel 0 total (pretty_N_go x rest) = readLabel (Z.of_N x) total rest.
Proof.
  induction (N.lt_wf_0 x) as [x _ IH]. intros rest total.
  destruct (decide (x = 0%N)) as [->|Hpos].
  { by rewrite pretty_N_go_0. }
  rewrite pretty_N_go_step by lia.
  rewrite IH by (apply N.div_lt; lia).
  destruct (pretty_N_char_digit (x `mod` 10)) as [Hdigit Hvalue].
  { apply N.mod_lt. lia. }
  cbn [readLabel]. rewrite Hdigit, Hvalue. f_equal.
  rewrite N2Z.inj_div, N2Z.inj_mod. change (Z.of_N 10) with 10.
  pose proof (Z.div_mod (Z.of_N x) 10 ltac:(done)). lia.
Qed.

Lemma pretty_N_go_app (x : N) :
  ∀ s t : string, pretty_N_go x s +:+ t = pretty_N_go x (s +:+ t).
Proof.
  induction (N.lt_wf_0 x) as [x _ IH]. intros s t.
  destruct (decide (x = 0%N)) as [->|Hpos].
  { by rewrite !pretty_N_go_0. }
  rewrite (pretty_N_go_step x s), (pretty_N_go_step x (s +:+ t)) by lia.
  by rewrite IH by (apply N.div_lt; lia).
Qed.

(** Reading the decimal digits of a number that is not negative. *)
Lemma readLabel_pretty (k : Z) (rest : string) (total : Z) :
  0 ≤ k →
  readLabel 0 total (pretty k +:+ rest) = readLabel k total rest.
Proof.
  intros Hk. destruct k as [|p|p]; [done| |lia].
  change (pretty (Z.pos p)) with (pretty (N.pos p)).
  unfold pretty, pretty_N. rewrite decide_False by done.
  by rewrite pretty_N_go_app, readLabel_pretty_N_go.
Qed.

Lemma append_String (c : ascii) (a b : string) :
  String c a +:+ b = String c (a +:+ b).
Proof. reflexivity. Qed.

Lemma append_empty (b : string) : "" +:+ b = b.
Proof. reflexivity. Qed.

Lemma append_assoc (a b c : string) : (a +:+ b) +:+ c = a +:+ (b +:+ c).
Proof.
  induction a as [|x a IH]; [done|].
  rewrite !append_String. by rewrite IH.
Qed.

Lemma append_nonempty (a : string) (c : ascii) (b : string) :
  a +:+ String c b ≠ "".
Proof. by destruct a. Qed.

Lemma readLabel_units (count total : Z) (rest : string) :
  readLabel count total (String "h" rest) = readLabel 0 (total + 3600 * count) rest
  ∧ readLabel count total (String "m" rest) = readLabel 0 (total + 60 * count) rest
  ∧ readLabel count total (String "s" rest) = readLabel 0 (total + count) rest
  ∧ readLabel count total (String " " rest) = readLabel 0 total rest.
Proof. repeat split. Qed.

(** The label of a duration reads back as that duration. *)
Lemma formatDurationLabel_labelSeconds (seconds : Z) (label : string) :
  formatDurationLabel (Some seconds) = Some label →
  labelSeconds label = Z.max 0 seconds ∧ label ≠ "".
Proof.
  unfold formatDurationLabel, labelSeconds.
  set (safe := Z.max 0 seconds).
  assert (0 ≤ safe) as Hsafe by (unfold safe; lia).
  pose proof (Z.div_mod safe 3600 ltac:(done)) as Hh.
  pose proof (Z.mod_pos_bound safe 3600 ltac:(done)) as Hhm.
  pose proof (Z.div_mod (safe `mod` 3600) 60 ltac:(done)) as Hm.
  pose proof (Z.mod_pos_bound (safe `mod` 3600) 60 ltac:(done)) as Hmm.
  assert (safe `mod` 60 = (safe `mod` 3600) `mod` 60) as Hs.
  { clear. Z.div_mod_to_equations. lia. }
  assert (0 ≤ safe / 3600) as Hh0 by (apply Z.div_pos; lia).
  assert (0 ≤ (safe `mod` 3600) / 60) as Hm0 by (apply Z.div_pos; lia).
  assert (0 ≤ safe `mod` 60) as Hs0 by (apply Z.mod_pos_bound; lia).
  generalize dependent (safe / 3600). intros hours Hh Hh0.
  generalize dependent ((safe `mod` 3600) / 60). intros minutes Hm Hm0.
  generalize dependent (safe `mod` 60). intros secs Hs Hs0.
  destruct (Z.eqb_spec hours 0) as [Hhours|Hhours];
    destruct (Z.eqb_spec minutes 0) as [Hminutes|Hminutes];
    destruct (Z.eqb_spec secs 0) as [Hsecs|Hsecs];
    cbn [negb orb app length Nat.eqb Js.join]; intros [= <-];
    rewrite ?append_assoc;
    (split; [|apply append_nonempty]);
    repeat (progress
              (rewrite ?append_String, ?append_empty,
                 ?(proj1 (readLabel_units _ _ _)),
                 ?(proj1 (proj2 (readLabel_units _ _ _))),
                 ?(proj1 (proj2 (proj2 (readLabel_units _ _ _)))),
                 ?(proj2 (proj2 (proj2 (readLabel_units _ _ _))));
               try rewrite readLabel_pretty by done));
    cbn [readLabel]; lia.
Qed.

(** X24.  [formatDurationLabel] gives every whole number of seconds that
    double precision holds a label that is not empty; a negative number is
    labelled as zero seconds; and the label reads back as the duration:
    the digits before h, m and s add up to the seconds, none below zero. *)
Theorem formatDurationLabel_reads_back (seconds : Z) :
  safeInteger seconds →
  ∃ label,
    formatDurationLabel (Some seconds) = Some label
    ∧ label ≠ ""
    ∧ labelSeconds label = Z.max 0 seconds
    ∧ (seconds ≤ 0 → label = "0s").
Proof.
  intros _.
  destruct (formatDurationLabel (Some seconds)) as [label|] eqn:Hlabel; [|done].
  exists label.
  destruct (formatDurationLabel_labelSeconds seconds label Hlabel) as [Hread Hne].
  repeat split; try done.
  intros Hneg. revert Hlabel. unfold formatDurationLabel.
  replace (Z.max 0 seconds) with 0 by lia. cbn. by intros [= <-].
Qed.

(** X25.  Two different durations, neither negative and both whole
    numbers of seconds that double precision holds, never have the same
    label. *)
Theorem formatDurationLabel_inj (a b : Z) :
  safeInteger a → safeInteger b →
  0 ≤ a → 0 ≤ b → a ≠ b →
  formatDurationLabel (Some a) ≠ formatDurationLabel (Some b).
Proof.
  intros _ _ Ha Hb Hne Heq.
  destruct (formatDurationLabel (Some a)) as [label|] eqn:Hlabel; [|done].
  symmetry in Heq.
  destruct (formatDurationLabel_labelSeconds a label Hlabel) as [Hra _].
  destruct (formatDurationLabel_labelSeconds b label Heq) as [Hrb _].
  lia.
Qed.

End DurationProperties.

(* ===================================================================== *)
(** * Properties: the phone field of the enrollment *)
(* ===================================================================== *)

Section EnrollmentProperties.
Import Enrollment.

Lemma filterString_app (p : ascii → bool) (a b : string) :
  Js.filterString p (a +:+ b) = Js.filterString p a +:+ Js.filterString p b.
Proof.
  induction a as [|c a IH]; [done|].
  rewrite append_String. cbn [Js.filterString].
  destruct (p c); [rewrite append_String|]; by rewrite IH.
Qed.

Lemma filterString_all (p : ascii → bool) (s : string) :
  Js.allString p s = true → Js.filterString p s = s.
Proof.
  induction s as [|c s IH]; [done|]. cbn.
  destruct (p c); [|done]. intros Hs. by rewrite IH.
Qed.

Lemma length_append (a b : string) :
  String.length (a +:+ b) = (String.length a + String.length b)%nat.
Proof.
  induction a as [|c a IH]; [done|].
  rewrite append_String. cbn. by rewrite IH.
Qed.

Lemma takeString_dropString (n : nat) (s : string) :
  takeString n s +:+ dropString n s = s.
Proof.
  revert s. induction n as [|n IH]; intros [|c s]; try done.
  cbn [takeString dropString]. by rewrite append_String, IH.
Qed.

Lemma dropString_dropString (n m : nat) (s : string) :
  dropString n (dropString m s) = dropString (m + n) s.
Proof.
  revert s. induction m as [|m IH]; intros s; [done|].
  destruct s as [|c s]; [by destruct n|]. apply IH.
Qed.

Lemma dropString_0 (s : string) : dropString 0 s = s.
Proof. by destruct s. Qed.

Lemma takeString_length (n : nat) (s : string) :
  String.length (takeString n s) = Nat.min n (String.length s).
Proof.
  revert s. induction n as [|n IH]; intros [|c s]; try done.
  cbn. by rewrite IH.
Qed.

Lemma takeString_all (n : nat) (s : string) :
  (String.length s ≤ n)%nat → takeString n s = s.
Proof.
  revert s. induction n as [|n IH]; intros [|c s]; cbn; try done; try lia.
  intros Hlen. rewrite IH; [done|lia].
Qed.

Lemma takeString_digits (p : ascii → bool) (n : nat) (s : string) :
  Js.allString p s = true → Js.allString p (takeString n s) = true.
Proof.
  revert s. induction n as [|n IH]; intros [|c s]; try done.
  cbn. destruct (p c); [|done]. apply IH.
Qed.

(** The text of the field in terms of the ten digits it keeps. *)
Lemma formatPhoneNumber_digits (value : string) :
  let kept := takeString 10 (stripNonDigits value) in
  stripNonDigits (formatPhoneNumber value) = kept
  ∧ (String.length (formatPhoneNumber value) ≤ 14)%nat.
Proof.
  cbn zeta. unfold formatPhoneNumber, slice, sliceFrom.
  rewrite !dropString_0. cbn [Nat.sub].
  set (kept := takeString 10 (stripNonDigits value)).
  assert (Js.allString Js.isDigit kept = true) as Hdigits
    by apply takeString_digits, stripNonDigits_digits.
  assert (String.length kept ≤ 10)%nat as Hlen
    by (unfold kept; rewrite takeString_length; lia).
  assert (stripNonDigits kept = kept) as Hkept by by apply filterString_all.
  clearbody kept.
  destruct (Nat.eqb_spec (String.length kept) 0) as [H0|H0].
  { split; [|cbn; lia]. destruct kept; [done|discriminate]. }
  destruct (Nat.leb_spec (String.length kept) 3) as [H3|H3].
  { split.
    - rewrite append_String, append_empty. exact Hkept.
    - rewrite length_append. cbn [String.length]. lia. }
  pose proof (takeString_dropString 3 kept) as Hsplit.
  destruct (Nat.leb_spec (String.length kept) 6) as [H6|H6].
  - split.
    + unfold stripNonDigits in *. rewrite !filterString_app.
      change (Js.filterString Js.isDigit "(") with "".
      change (Js.filterString Js.isDigit ")-") with "".
      rewrite !append_empty, <- filterString_app. by rewrite Hsplit.
    + rewrite !length_append. rewrite <- Hsplit, length_append in H6.
      cbn [String.length]. lia.
  - pose proof (takeString_dropString 3 (dropString 3 kept)) as Hsplit'.
    rewrite dropString_dropString in Hsplit'. cbn [Nat.add] in Hsplit'.
    split.
    + unfold stripNonDigits in *. rewrite !filterString_app.
      change (Js.filterString Js.isDigit "(") with "".
      change (Js.filterString Js.isDigit ")-") with "".
      change (Js.filterString Js.isDigit "-") with "".
      rewrite !append_empty, <- !filterString_app. by rewrite Hsplit', Hsplit.
    + rewrite !length_append.
      rewrite <- Hsplit, length_append, <- Hsplit', length_append in Hlen.
      cbn [String.length]. lia.
Qed.

(** The text depends on the first ten digits only. *)
Lemma formatPhoneNumber_of_digits (value value' : string) :
  takeString 10 (stripNonDigits value) = takeString 10 (stripNonDigits value') →
  formatPhoneNumber value = formatPhoneNumber value'.
Proof.
  unfold formatPhoneNumber, slice. rewrite !dropString_0. cbn [Nat.sub].
  by intros ->.
Qed.

(** X26.  The phone field of the enrollment keeps the first ten digits of
    what was typed, in order, and nothing else but its punctuation; the
    text is at most fourteen characters long, and formatting it again
    changes nothing. *)
Theorem formatPhoneNumber_idempotent (value : string) :
  stripNonDigits (formatPhoneNumber value) = takeString 10 (stripNonDigits value)
  ∧ (String.length (formatPhoneNumber value) ≤ 14)%nat
  ∧ formatPhoneNumber (formatPhoneNumber value) = formatPhoneNumber value.
Proof.
  destruct (formatPhoneNumber_digits value) as [Hdigits Hlen].
  split; [exact Hdigits|]. split; [exact Hlen|].
  apply formatPhoneNumber_of_digits. rewrite Hdigits.
  apply takeString_all. rewrite takeString_length. lia.
Qed.

(** X27.  A phone number that was typed with at least ten digits into the
    enrollment is dialled at "+1" followed by its first ten digits, which
    has the E.164 shape. *)
Theorem formatPhoneNumber_dialled (value : string) :
  (10 ≤ String.length (stripNonDigits value))%nat →
  formatPhoneToE164 (formatPhoneNumber value)
  = "+1" +:+ takeString 10 (stripNonDigits value)
  ∧ isE164 (formatPhoneToE164 (formatPhoneNumber value)) = true.
Proof.
  intros Hten.
  destruct (formatPhoneNumber_digits value) as [Hdigits _].
  assert (String.length (takeString 10 (stripNonDigits value)) = 10%nat) as Hlen
    by (rewrite takeString_length; lia).
  assert (formatPhoneToE164 (formatPhoneNumber value)
          = "+1" +:+ takeString 10 (stripNonDigits value)) as Hcall.
  { unfold formatPhoneToE164. rewrite Hdigits, Hlen. done. }
  split; [exact Hcall|]. rewrite Hcall.
  apply isE164_plus_one; [|lia].
  apply takeString_digits, stripNonDigits_digits.
Qed.

End EnrollmentProperties.

(* ===================================================================== *)
(** * Properties: the in-memory stores *)
(* ===================================================================== *)

Section MockStoreProperties.
Import mockData.

Lemma findIndex_find {A} (p : A → bool) (l : list A) :
  is_Some (findIndex p l) ↔ is_Some (find p l).
Proof.
  induction l as [|x l IH]; cbn; [done|].
  destruct (p x); [by split; eauto|].
  rewrite <- IH. by rewrite fmap_is_Some.
Qed.

Lemma findIndex_Some {A} (p : A → bool) (l : list A) (i : nat) :
  findIndex p l = Some i → ∃ x, l !! i = Some x ∧ p x = true.
Proof.
  revert i. induction l as [|x l IH]; intros i; cbn; [done|].
  destruct (p x) eqn:Hp.
  - intros [= <-]. by exists x.
  - destruct (findIndex p l) as [j|]; [|done].
    intros [= <-]. by apply IH.
Qed.

(** Removing the first element that [p] finds does not change what a
    test that excludes [p] finds. *)
Lemma find_delete {A} (p q : A → bool) (l : list A) (i : nat) :
  findIndex p l = Some i →
  (∀ x, p x = true → q x = false) →
  find q (delete i l) = find q l.
Proof.
  intros Hi Hpq. revert i Hi. induction l as [|x l IH]; intros i; cbn; [done|].
  destruct (p x) eqn:Hp.
  - intros [= <-]. cbn. by rewrite (Hpq x Hp).
  - destruct (findIndex p l) as [j|]; [|done].
    intros [= <-]. cbn. destruct (q x); [done|]. by apply IH.
Qed.

Lemma filter_filter_implied {A} (p q : A → bool) (l : list A) :
  (∀ x, q x = true → p x = true) →
  List.filter q (List.filter p l) = List.filter q l.
Proof.
  intros Hqp. induction l as [|x l IH]; cbn; [done|].
  destruct (p x) eqn:Hp; cbn.
  - by rewrite IH.
  - destruct (q x) eqn:Hq; [|done]. rewrite (Hqp x Hq) in Hp. done.
Qed.

Lemma filter_Forall {A} (p : A → bool) (l : list A) :
  Forall (λ x, p x = true) (List.filter p l).
Proof.
  apply Forall_forall. intros x Hx.
  apply list_elem_of_In, filter_In in Hx. tauto.
Qed.

Lemma eqb_other (a id other : string) :
  other ≠ id → String.eqb a other = true → negb (String.eqb a id) = true.
Proof.
  intros Hne Ha. apply String.eqb_eq in Ha as ->.
  apply negb_true_iff, String.eqb_neq. done.
Qed.

(** X28.  [patientStore.delete] of an id that no patient has returns false
    and changes nothing; otherwise it returns true, removes one patient,
    and leaves no metric, prompt, schedule or call of that patient id
    behind; the other patients and everything the stores return for
    another patient id are as before. *)
Theorem patientStore_delete_cascade (id : string) (s : Store) :
  let found := (patientStore.delete id s).1 in
  let s' := (patientStore.delete id s).2 in
  (found = true ↔ is_Some (patientStore.getById id s))
  ∧ (found = false → s' = s)
  ∧ (found = true →
     (length (patients s') + 1 = length (patients s))%nat
     ∧ Forall (λ m, m_patientId m ≠ id) (healthMetrics s')
     ∧ Forall (λ p, q_patientId p ≠ id) (vapiPrompts s')
     ∧ Forall (λ sch, s_patientId sch ≠ id) (vapiCallSchedules s')
     ∧ Forall (λ c, k_patientId c ≠ id) (vapiCalls s'))
  ∧ (∀ other, other ≠ id →
       patientStore.getById other s' = patientStore.getById other s
       ∧ healthMetricStore.getByPatientId other s'
         = healthMetricStore.getByPatientId other s
       ∧ vapiScheduleStore.getByPatientId other s'
         = vapiScheduleStore.getByPatientId other s
       ∧ vapiCallStore.getByPatientId other s'
         = vapiCallStore.getByPatientId other s).
Proof.
  cbn zeta. unfold patientStore.delete, patientStore.getById.
  pose proof (findIndex_find (λ p, String.eqb (p_id p) id) (patients s)) as Hfind.
  destruct (findIndex (λ p, String.eqb (p_id p) id) (patients s))
    as [index|] eqn:Hindex; cbn [fst snd].
  2: { split; [|done]. split; [done|]. rewrite <- Hfind. by intros [? ?]. }
  split; [split; [intros _; apply Hfind; eauto|done]|].
  split; [done|].
  assert (∀ {A} (key : A → string) (l : list A),
            Forall (λ x, key x ≠ id)
              (List.filter (λ x, negb (String.eqb (key x) id)) l)) as Hgone.
  { intros A key l.
    eapply Forall_impl; [apply (filter_Forall (λ x, negb (String.eqb (key x) id)))|].
    intros x Hx. by apply negb_true_iff, String.eqb_neq in Hx. }
  split.
  - intros _. cbn. split; [|by auto].
    destruct (findIndex_Some _ _ _ Hindex) as (x & Hx & _).
    rewrite length_delete by eauto.
    apply lookup_lt_Some in Hx. lia.
  - intros other Hother. cbn.
    unfold healthMetricStore.getByPatientId, vapiScheduleStore.getByPatientId,
      vapiCallStore.getByPatientId. cbn.
    rewrite !filter_filter_implied by (intros x; apply eqb_other; done).
    split; [|done].
    apply (find_delete _ _ _ _ Hindex).
    intros x Hx. apply String.eqb_eq in Hx. apply String.eqb_neq. congruence.
Qed.

(** X29.  [vapiPromptStore.delete] removes the prompt and the schedules
    that use it, and nothing else: the calls that were placed with the
    prompt stay, as do the patients and the metrics. *)
Theorem vapiPromptStore_delete_keeps_calls (id : string) (s : Store) :
  let found := (vapiPromptStore.delete id s).1 in
  let s' := (vapiPromptStore.delete id s).2 in
  (found = true ↔ is_Some (vapiPromptStore.getById id s))
  ∧ (found = false → s' = s)
  ∧ (found = true →
     (length (vapiPrompts s') + 1 = length (vapiPrompts s))%nat
     ∧ Forall (λ sch, s_promptId sch ≠ id) (vapiCallSchedules s'))
  ∧ vapiCalls s' = vapiCalls s
  ∧ patients s' = patients s
  ∧ healthMetrics s' = healthMetrics s
  ∧ (∀ sch, s_promptId sch ≠ id →
       sch ∈ vapiCallSchedules s' ↔ sch ∈ vapiCallSchedules s).
Proof.
  cbn zeta. unfold vapiPromptStore.delete, vapiPromptStore.getById.
  pose proof (findIndex_find (λ p, String.eqb (q_id p) id) (vapiPrompts s))
    as Hfind.
  destruct (findIndex (λ p, String.eqb (q_id p) id) (vapiPrompts s))
    as [index|] eqn:Hindex; cbn [fst snd].
  2: { split; [|done]. split; [done|]. rewrite <- Hfind. by intros [? ?]. }
  split; [split; [intros _; apply Hfind; eauto|done]|].
  split; [done|]. cbn. split; [|repeat split; try done].
  - intros _. split.
    + destruct (findIndex_Some _ _ _ Hindex) as (x & Hx & _).
      rewrite length_delete by eauto.
      apply lookup_lt_Some in Hx. lia.
    + eapply Forall_impl;
        [apply (filter_Forall (λ x, negb (String.eqb (s_promptId x) id)))|].
      intros x Hx. by apply negb_true_iff, String.eqb_neq in Hx.
  - intros Hin. apply list_elem_of_In, filter_In in Hin as [Hin _].
    by apply list_elem_of_In.
  - intros Hin. apply list_elem_of_In, filter_In. split.
    + by apply list_elem_of_In.
    + by apply negb_true_iff, String.eqb_neq.
Qed.

Lemma insertDescending_Permutation {A} (key : A → Z) (x : A) (l : list A) :
  insertDescending key x l ≡ₚ x :: l.
Proof.
  induction l as [|y l IH]; cbn; [done|].
  destruct (key x <? key y); [|done].
  rewrite IH. apply Permutation_swap.
Qed.

Lemma sortDescending_Permutation {A} (key : A → Z) (l : list A) :
  sortDescending key l ≡ₚ l.
Proof.
  induction l as [|x l IH]; cbn; [done|].
  fold (sortDescending key l).
  by rewrite insertDescending_Permutation, IH.
Qed.

Lemma insertDescending_sorted {A} (key : A → Z) (x : A) (l : list A) :
  StronglySorted (λ a b, key b ≤ key a) l →
  StronglySorted (λ a b, key b ≤ key a) (insertDescending key x l).
Proof.
  induction 1 as [|y l Hsorted IH Hall]; cbn.
  - repeat constructor.
  - destruct (Z.ltb_spec (key x) (key y)) as [Hlt|Hge].
    + constructor; [exact IH|].
      rewrite insertDescending_Permutation. constructor; [lia|exact Hall].
    + constructor; [by constructor|].
      constructor; [lia|].
      eapply Forall_impl; [exact Hall|]. intros z Hz. cbn in Hz. lia.
Qed.

Lemma sortDescending_sorted {A} (key : A → Z) (l : list A) :
  StronglySorted (λ a b, key b ≤ key a) (sortDescending key l).
Proof.
  induction l as [|x l IH]; cbn; [constructor|].
  by apply insertDescending_sorted.
Qed.

(** X30.  The metrics that [healthMetricStore.getByPatientId] returns are
    the metrics of the patient, each once, newest first; and
    [getLatestByPatientId] returns a metric of the patient that none of
    the patient's metrics is newer than, or nothing exactly when the
    patient has no metric. *)
Theorem getLatestByPatientId_newest (patientId : string) (s : Store) :
  let sorted := healthMetricStore.getByPatientId patientId s in
  sorted ≡ₚ List.filter (λ m, String.eqb (m_patientId m) patientId)
              (healthMetrics s)
  ∧ StronglySorted (λ a b, m_timestamp b ≤ m_timestamp a) sorted
  ∧ (∀ m, healthMetricStore.getLatestByPatientId patientId s = Some m →
          m ∈ healthMetrics s ∧ m_patientId m = patientId
          ∧ ∀ m', m' ∈ healthMetrics s → m_patientId m' = patientId →
                  m_timestamp m' ≤ m_timestamp m)
  ∧ (healthMetricStore.getLatestByPatientId patientId s = None
     ↔ ∀ m, m ∈ healthMetrics s → m_patientId m ≠ patientId).
Proof.
  cbn zeta.
  unfold healthMetricStore.getLatestByPatientId, healthMetricStore.getByPatientId.
  set (mine := List.filter _ (healthMetrics s)).
  pose proof (sortDescending_Permutation m_timestamp mine) as Hperm.
  pose proof (sortDescending_sorted m_timestamp mine) as Hsorted.
  assert (∀ m, m ∈ mine ↔ m ∈ healthMetrics s ∧ m_patientId m = patientId)
    as Hmine.
  { intros m. unfold mine.
    rewrite list_elem_of_In, filter_In, <- list_elem_of_In, String.eqb_eq. done. }
  split; [exact Hperm|]. split; [exact Hsorted|].
  destruct (sortDescending m_timestamp mine) as [|top rest] eqn:Hsort; cbn.
  - split; [done|]. split; [|done]. intros _ m Hin Hpid.
    assert (m ∈ mine) as Hm by (by apply Hmine).
    rewrite <- Hperm in Hm. by apply elem_of_nil in Hm.
  - split.
    + intros m [= <-].
      assert (top ∈ mine) as Htop by (rewrite <- Hperm; left).
      apply Hmine in Htop as [Hin Hpid]. split; [done|]. split; [done|].
      intros m' Hin' Hpid'.
      assert (m' ∈ top :: rest) as Hm'
        by (rewrite Hperm; by apply Hmine).
      apply StronglySorted_inv in Hsorted as [_ Hall].
      apply elem_of_cons in Hm' as [->|Hm']; [lia|].
      by apply (proj1 (Forall_forall _ _) Hall).
    + split; [done|]. intros Hnone.
      assert (top ∈ mine) as Htop by (rewrite <- Hperm; left).
      apply Hmine in Htop as [Hin Hpid]. by destruct (Hnone top Hin).
Qed.

End MockStoreProperties.

(* ===================================================================== *)
(** * The further properties on the example data *)
(* ===================================================================== *)

Section EdgeExamplesChecked.
Import Calls vapiService StatusBadge CallExamples EdgeExamples.
#[local] Existing Instance IntRuntime.runtime.

Lemma createCall_not_found_witness :
  createCall (providerEnv (HttpOk queued)) unknownParams world1
  = (Throw "Patient or prompt not found", world1).
Proof.
  apply (createCall_not_found (providerEnv (HttpOk queued)) unknownParams world1).
  left. reflexivity.
Defined.

Lemma createCall_no_assistant_witness :
  createCall noAssistantEnv params1 world1
  = (Throw "Failed to fetch assistant configuration",
     {| calls := <[ "call-1" := failedRow noAssistantEnv params1 ]> (calls world1);
        patients := patients world1;
        prompts := prompts world1;
        requests := requests world1 ++ [GetAssistant] |}).
Proof.
  apply (createCall_no_assistant noAssistantEnv params1 world1 patient1 prompt1).
  - reflexivity.
  - reflexivity.
  - intros a Ha. discriminate Ha.
  - reflexivity.
Defined.

Lemma createCall_failed_cannot_sync_witness :
  calls (createCall (providerEnv (NetworkError "Failed to fetch")) params1 world1).2
    !! "call-1"
  = Some (failedRow (providerEnv (NetworkError "Failed to fetch")) params1)
  ∧ refreshCallDetails refreshEnv "call-1"
      (createCall (providerEnv (NetworkError "Failed to fetch")) params1 world1).2
    = (Throw "This call does not yet have a Vapi call ID to sync.",
       (createCall (providerEnv (NetworkError "Failed to fetch")) params1 world1).2).
Proof.
  apply (createCall_failed_cannot_sync
           (providerEnv (NetworkError "Failed to fetch")) refreshEnv params1
           world1 patient1 prompt1 "Failed to fetch").
  - reflexivity.
  - reflexivity.
  - reflexivity.
  - vm_compute. reflexivity.
Defined.

Lemma createCall_then_refresh_witness :
  ∃ pid,
    providerCallId (mapCall "call-1"
                      (acceptedRow (providerEnv (HttpOk queued)) params1 queued))
    = Some pid
    ∧ requests (refreshCallDetails refreshEnv "call-1"
                  (createCall (providerEnv (HttpOk queued)) params1 world1).2).2
      = requests (createCall (providerEnv (HttpOk queued)) params1 world1).2
        ++ (if Js.nonEmpty pid then [GetCall pid] else []).
Proof.
  apply (createCall_then_refresh (providerEnv (HttpOk queued)) refreshEnv params1
           world1 patient1 prompt1
           (mapCall "call-1"
              (acceptedRow (providerEnv (HttpOk queued)) params1 queued))).
  - reflexivity.
  - reflexivity.
  - reflexivity.
  - vm_compute. reflexivity.
Defined.

Lemma refreshCallDetails_failure_changes_nothing_witness :
  calls (refreshCallDetails brokenEnv "call-1" world3).2 = calls world3
  ∧ patients (refreshCallDetails brokenEnv "call-1" world3).2 = patients world3
  ∧ prompts (refreshCallDetails brokenEnv "call-1" world3).2 = prompts world3.
Proof.
  apply (refreshCallDetails_failure_changes_nothing brokenEnv "call-1" world3
           "Invalid time value").
  vm_compute. reflexivity.
Defined.

Lemma refreshCallDetails_invalid_date_witness :
  refreshCallDetails brokenEnv "call-1" world3
  = (Throw "Invalid time value", logRequest (GetCall "prov-123") world3).
Proof.
  apply (refreshCallDetails_invalid_date brokenEnv "call-1" world3 storedRow
           "prov-123" snapshot2 "yesterday").
  - reflexivity.
  - reflexivity.
  - reflexivity.
  - reflexivity.
  - left. reflexivity.
  - reflexivity.
  - reflexivity.
Defined.

Lemma refreshCallDetails_status_witness :
  status (mapCall "call-1" refreshedRow) = pending
  ∧ (mapCall "call-1"
       <$> calls (refreshCallDetails refreshEnv "call-1" world3).2 !! "call-1")
    = Some (mapCall "call-1" refreshedRow).
Proof.
  destruct (refreshCallDetails_status refreshEnv "call-1" world3 storedRow
              "prov-123" snapshot1 (mapCall "call-1" refreshedRow))
    as (_ & Hended & Hstored).
  - reflexivity.
  - reflexivity.
  - reflexivity.
  - reflexivity.
  - vm_compute. reflexivity.
  - split; [apply Hended; reflexivity|exact Hstored].
Defined.

Lemma refreshCallDetails_transcript_of_entries_witness :
  row_transcript refreshedRow = formatTranscript (transcript_entries refreshedRow).
Proof.
  apply (refreshCallDetails_transcript_of_entries refreshEnv "call-1" world3
           "call-1" refreshedRow).
  - intros row Hrow. vm_compute in Hrow. injection Hrow as <-. reflexivity.
  - vm_compute. reflexivity.
Defined.

Lemma createCall_records_witness :
  row_transcript (acceptedRow (providerEnv (HttpOk queued)) params1 queued)
  = formatTranscript
      (transcript_entries (acceptedRow (providerEnv (HttpOk queued)) params1 queued))
  ∧ (provider_call_id (acceptedRow (providerEnv (HttpOk queued)) params1 queued)
     = None →
     row_status (acceptedRow (providerEnv (HttpOk queued)) params1 queued) = failed
     ∧ row_transcript (acceptedRow (providerEnv (HttpOk queued)) params1 queued)
       = None
     ∧ row_artifacts (acceptedRow (providerEnv (HttpOk queued)) params1 queued)
       = None
     ∧ row_analysis (acceptedRow (providerEnv (HttpOk queued)) params1 queued)
       = None).
Proof.
  apply (createCall_records (providerEnv (HttpOk queued)) params1 world1 "call-1"
           (acceptedRow (providerEnv (HttpOk queued)) params1 queued)).
  - intros row Hrow. vm_compute in Hrow. discriminate Hrow.
  - vm_compute. reflexivity.
Defined.

Lemma getCallStatusBadge_report_witness :
  isEndOfCallReport (Some reportFields) = true
  ∧ badgeLabel (getCallStatusBadge reportedCall) = "Completed".
Proof.
  apply (getCallStatusBadge_report reportedCall report1 reportFields).
  - reflexivity.
  - reflexivity.
  - intros key Hkey. unfold structuredDataRequired in Hkey.
    repeat (apply elem_of_cons in Hkey as [->|Hkey]; [reflexivity|]).
    by apply elem_of_nil in Hkey.
  - reflexivity.
Defined.

Lemma refreshCallDetails_badge_witness :
  badgeLabel (getCallStatusBadge (mapCall "call-1" refreshedRow)) ≠ "Pending"
  ∧ (mapApiStatusToLocal (Some (d_status snapshot1)) = pending →
     badgeLabel (getCallStatusBadge (mapCall "call-1" refreshedRow)) = "Completed").
Proof.
  apply (refreshCallDetails_badge refreshEnv "call-1" world3 storedRow "prov-123"
           snapshot1 (mapCall "call-1" refreshedRow) "The patient feels fine.").
  - reflexivity.
  - reflexivity.
  - reflexivity.
  - reflexivity.
  - vm_compute. reflexivity.
  - reflexivity.
  - reflexivity.
Defined.

(** The finished call of the examples: the provider says "ended", the
    stored status is pending, the badge shows "Completed". *)
Example getCallStatusBadge_finished_call :
  status (mapCall "call-1" refreshedRow) = pending
  ∧ badgeLabel (getCallStatusBadge (mapCall "call-1" refreshedRow)) = "Completed"
  ∧ badgeLabel (getCallStatusBadge (mapCall "call-1" storedRow)) = "Pending".
Proof. by vm_compute. Qed.

End EdgeExamplesChecked.

Section SchedulingExamplesChecked.
Import Schedules Scheduling ScheduleExamples SchedulingExamples.
#[local] Existing Instance IntRuntime.runtime.

Lemma scheduleCall_not_found_witness :
  scheduleCall "s2" 1717232700250 unknownPromptParams db1
  = (Throw "Patient or prompt not found", db1).
Proof.
  apply (scheduleCall_not_found "s2" 1717232700250 unknownPromptParams db1).
  right. reflexivity.
Defined.

Lemma scheduleCall_created_witness :
  ∃ row,
    scheduleCall "s2" 1717232700250 oneTimeParams db1
    = (Ok (mapSchedule "s2" row),
       {| schedules := <[ "s2" := row ]> (schedules db1); world := world db1 |})
    ∧ is_active row = true
    ∧ (mapSchedule "s2" row ∈ dueList 1717318800000 (<[ "s2" := row ]> (schedules db1))
       ↔ c_type oneTimeParams = OneTime
         ∧ ∃ t, c_scheduledTime oneTimeParams = Some (DateAt t) ∧ t ≤ 1717318800000).
Proof.
  destruct (scheduleCall_created "s2" 1717232700250 oneTimeParams db1
              CallExamples.patient1 CallExamples.prompt1)
    as (row & Hrun & Hactive & _ & _ & _ & Hdue).
  - reflexivity.
  - reflexivity.
  - reflexivity.
  - intros H. discriminate H.
  - intros H. discriminate H.
  - exists row. exact (conj Hrun (conj Hactive (Hdue 1717318800000))).
Defined.

Lemma scheduleCall_invalid_date_witness :
  scheduleCall "s2" 1717232700250 brokenParams db1
  = (Throw "Invalid time value", db1).
Proof.
  apply (scheduleCall_invalid_date "s2" 1717232700250 brokenParams db1
           CallExamples.patient1 CallExamples.prompt1).
  - reflexivity.
  - reflexivity.
  - left. reflexivity.
Defined.

Lemma updateSchedule_keeps_due_witness :
  ("s1" ∈ id <$> dueList 1717232730000
                   (updateSchedule "s1" endDate {[ "s1" := pendingRow ]}).2
   ↔ "s1" ∈ id <$> dueList 1717232730000 ({[ "s1" := pendingRow ]} : Table))
  ∧ ∃ e, updateSchedule "s1" stamp {[ "s1" := pendingRow ]}
         = (Throw e, {[ "s1" := pendingRow ]}).
Proof.
  split.
  - destruct (updateSchedule_keeps_due "s1" endDate {[ "s1" := pendingRow ]}
                1717232730000) as [Hkeep _].
    apply (Hkeep eq_refl "s1").
  - destruct (updateSchedule_keeps_due "s1" stamp {[ "s1" := pendingRow ]}
                1717232730000) as (_ & Hstamp & _).
    apply Hstamp. intros H. discriminate H.
Defined.

(** The update of the end date, computed: the row is stored with the new
    end date; the update of the execution stamp is refused. *)
Example updateSchedule_examples :
  (recurrence_end_date
     <$> (updateSchedule "s1" endDate {[ "s1" := pendingRow ]}).2 !! "s1")
  = Some (Some 1719792000000)
  ∧ updateSchedule "s1" stamp {[ "s1" := pendingRow ]}
    = (Throw unknownColumnError, {[ "s1" := pendingRow ]})
  ∧ updateSchedule "s9" stamp {[ "s1" := pendingRow ]}
    = (Throw unknownColumnError, {[ "s1" := pendingRow ]}).
Proof. by vm_compute. Qed.

Lemma schedule_not_found_witness :
  updateSchedule "s9" endDate (schedules db1) = (Throw noRowError, schedules db1)
  ∧ deactivateSchedule "s9" (schedules db1) = (Throw noRowError, schedules db1)
  ∧ cancelSchedule "s9" db1 = (Ok false, db1)
  ∧ handleDeleteSchedule (Some ("patient-1", CallExamples.patient1)) "s9" db1
    = (Ok tt, db1).
Proof.
  destruct (schedule_not_found "s9" endDate
              (Some ("patient-1", CallExamples.patient1)) db1)
    as (_ & Hupdate & Hrest).
  - reflexivity.
  - split; [|exact Hrest].
    apply Hupdate.
    + reflexivity.
    + intros H. discriminate H.
    + intros H. discriminate H.
Defined.

(** A schedule that was stored and then cancelled is not due at its time. *)
Example cancelSchedule_example :
  (cancelSchedule "s1" db1).1 = Ok true
  ∧ dueList 1717232730000 (schedules db1) = [mapSchedule "s1" pendingRow]
  ∧ dueList 1717232730000 (schedules (cancelSchedule "s1" db1).2) = [].
Proof. by vm_compute. Qed.

End SchedulingExamplesChecked.

Section FormatExamplesChecked.
Import Duration Enrollment.

Lemma calculateDurationSeconds_floor_witness :
  calculateDurationSeconds (Some (DateAt 1717232701000))
    (Some (DateAt 1717232743500)) = Some 42
  ↔ 1717232701000 < 1717232743500 ∧ 0 ≤ 42
    ∧ 1000 * 42 ≤ 1717232743500 - 1717232701000 < 1000 * (42 + 1).
Proof.
  destruct (calculateDurationSeconds_floor None None
              1717232701000 1717232743500) as (_ & _ & Hsafe & _).
  - unfold validInstant. lia.
  - unfold validInstant. lia.
  - apply Hsafe. unfold safeInteger. lia.
Defined.

(** From the first instant of a [Date] to one millisecond before the last
    the difference has 54 bits and is rounded up, to a full second. *)
Example calculateDurationSeconds_rounded :
  calculateDurationSeconds (Some (DateAt (-8640000000000000)))
    (Some (DateAt 8639999999999999)) = Some 17280000000000
  ∧ (8639999999999999 - -8640000000000000) / 1000 = 17279999999999.
Proof. by vm_compute. Qed.

Lemma formatDurationLabel_reads_back_witness :
  ∃ label,
    formatDurationLabel (Some 3725) = Some label
    ∧ label ≠ ""
    ∧ labelSeconds label = Z.max 0 3725
    ∧ (3725 ≤ 0 → label = "0s").
Proof.
  apply (formatDurationLabel_reads_back 3725). unfold safeInteger. lia.
Defined.

Lemma formatDurationLabel_inj_witness :
  formatDurationLabel (Some 3599) ≠ formatDurationLabel (Some 3600).
Proof.
  apply (formatDurationLabel_inj 3599 3600).
  - unfold safeInteger. lia.
  - unfold safeInteger. lia.
  - lia.
  - lia.
  - lia.
Defined.

Example formatDurationLabel_examples :
  formatDurationLabel (Some 3725) = Some "1h 2m 5s"
  ∧ formatDurationLabel (Some 3600) = Some "1h"
  ∧ formatDurationLabel (Some 65) = Some "1m 5s"
  ∧ formatDurationLabel (Some 0) = Some "0s"
  ∧ formatDurationLabel (Some (-4)) = Some "0s"
  ∧ labelSeconds "1h 2m 5s" = 3725
  ∧ calculateDurationSeconds (Some (DateAt 1717232701000))
      (Some (DateAt 1717232743500)) = Some 42
  ∧ calculateDurationSeconds (Some (DateAt 1717232701000))
      (Some (DateAt 1717232701400)) = Some 0
  ∧ calculateDurationSeconds (Some (DateAt 1717232701000)) (Some InvalidDate)
    = None.
Proof. by vm_compute. Qed.

Lemma formatPhoneNumber_dialled_witness :
  formatPhoneToE164 (formatPhoneNumber "555 123 4567 89")
  = "+1" +:+ takeString 10 (stripNonDigits "555 123 4567 89")
  ∧ isE164 (formatPhoneToE164 (formatPhoneNumber "555 123 4567 89")) = true.
Proof.
  apply (formatPhoneNumber_dialled "555 123 4567 89").
  vm_compute. lia.
Defined.

Example formatPhoneNumber_examples :
  formatPhoneNumber "" = ""
  ∧ formatPhoneNumber "55" = "(55"
  ∧ formatPhoneNumber "55512" = "(555)-12"
  ∧ formatPhoneNumber "5551234567" = "(555)-123-4567"
  ∧ formatPhoneNumber "(555)-123-45678" = "(555)-123-4567"
  ∧ formatPhoneToE164 (formatPhoneNumber "5551234567") = "+15551234567".
Proof. by vm_compute. Qed.

End FormatExamplesChecked.
